(** * The Telegram download bot: offset tracking, URL extraction and retry

    A shallow embedding of the three variants of the bot's [main] package:

    - [src/main.go]: the first variant, which posts the whole message text
      to the backend and reports through [getUrl];
    - [src/unnamed/part_000]: the HTTP variant, which extracts every URL
      and posts each one to the backend once;
    - the Go program carried in [src/Dockerfile]: the command variant, which
      runs [gallery-dl] for each URL under [runDownloadWithRetry].

    Go values are modelled as follows: [int64] is a [Z] whose arithmetic is
    wrapped by [wrap64]; a Go [string] is a Rocq [string] read byte by byte
    (a UTF-8 literal is the sequence of its bytes); an [error] is a
    [goerror]; a nil-able pointer is an [option].  Every interaction with
    the operating system or the network is an [Event] appended to the
    trace of the [World]; the answers of the outside world come from an
    [Env], indexed by the number of earlier calls of the same kind. *)

From Stdlib Require Import ZArith List String Ascii Bool Lia.
Import ListNotations.

#[local] Open Scope string_scope.
#[local] Open Scope Z_scope.

(** ** Go primitives *)

Module Go.

(** *** int64 *)

Definition int64_min : Z := - 2 ^ 63.
Definition int64_max : Z := 2 ^ 63 - 1.

Definition in_int64 (z : Z) : Prop := int64_min <= z <= int64_max.

Definition wrap64 (z : Z) : Z := (z + 2 ^ 63) mod 2 ^ 64 - 2 ^ 63.

Definition int64_add (a b : Z) : Z := wrap64 (a + b).

(** *** error values

    [errors.New] and [fmt.Errorf] without [%w] give an [errorString];
    [fmt.Errorf] with [%w] gives a [wrapError] that keeps the formatted
    message and the wrapped error, and so does a [*strconv.NumError]. *)

Inductive goerror : Type :=
| errorString (s : string)
| wrapError (msg : string) (err : goerror).

Definition Error (e : goerror) : string :=
  match e with
  | errorString s => s
  | wrapError msg _ => msg
  end.

Definition Unwrap (e : goerror) : option goerror :=
  match e with
  | errorString _ => None
  | wrapError _ err => Some err
  end.

(** *** bytes and UTF-8 *)

Definition byte_val (c : ascii) : Z := Z.of_N (N_of_ascii c).

Definition byte_in (lo hi : Z) (c : ascii) : bool :=
  (lo <=? byte_val c) && (byte_val c <=? hi).

Definition RuneError : Z := 65533.

Definition low6 (c : ascii) : Z := Z.land (byte_val c) 63.

(** [utf8.DecodeRuneInString]: the rune at the head of [s] and its width in
    bytes; an ill-formed or truncated sequence is [RuneError] of width 1. *)
Definition DecodeRuneInString (s : string) : Z * nat :=
  match s with
  | EmptyString => (RuneError, 0%nat)
  | String c0 t =>
      let b0 := byte_val c0 in
      if b0 <? 128 then (b0, 1%nat)
      else if b0 <? 194 then (RuneError, 1%nat)
      else if b0 <? 224 then
        match t with
        | String c1 _ =>
            if byte_in 128 191 c1
            then (Z.lor (Z.shiftl (Z.land b0 31) 6) (low6 c1), 2%nat)
            else (RuneError, 1%nat)
        | _ => (RuneError, 1%nat)
        end
      else if b0 <? 240 then
        match t with
        | String c1 (String c2 _) =>
            let lo := if b0 =? 224 then 160 else 128 in
            let hi := if b0 =? 237 then 159 else 191 in
            if byte_in lo hi c1 && byte_in 128 191 c2
            then (Z.lor (Z.shiftl (Z.land b0 15) 12)
                    (Z.lor (Z.shiftl (low6 c1) 6) (low6 c2)), 3%nat)
            else (RuneError, 1%nat)
        | _ => (RuneError, 1%nat)
        end
      else if b0 <? 245 then
        match t with
        | String c1 (String c2 (String c3 _)) =>
            let lo := if b0 =? 240 then 144 else 128 in
            let hi := if b0 =? 244 then 143 else 191 in
            if byte_in lo hi c1 && byte_in 128 191 c2 && byte_in 128 191 c3
            then (Z.lor (Z.shiftl (Z.land b0 7) 18)
                    (Z.lor (Z.shiftl (low6 c1) 12)
                       (Z.lor (Z.shiftl (low6 c2) 6) (low6 c3))), 4%nat)
            else (RuneError, 1%nat)
        | _ => (RuneError, 1%nat)
        end
      else (RuneError, 1%nat)
  end.

(** *** fmt: the verb %d *)

Definition char_of_digit (d : Z) : ascii := ascii_of_N (Z.to_N (48 + d)).

Definition digit_of_char (c : ascii) : option Z :=
  if byte_in 48 57 c then Some (byte_val c - 48) else None.

(** The digit loop of [fmt.fmtInteger] in base 10: digits are written from
    the end of the buffer while [u >= 10], then the leading digit.  A
    uint64 has at most 20 digits, which bounds the loop. *)
Fixpoint fmt_digits (fuel : nat) (u : Z) (buf : string) : string :=
  match fuel with
  | O => buf
  | S fuel' =>
      if 10 <=? u
      then let next := u / 10 in
           fmt_digits fuel' next (String (char_of_digit (u - next * 10)) buf)
      else String (char_of_digit u) buf
  end.

(** [fmt.Sprintf("%d", v)] for an int64 [v]. *)
Definition fmtInteger (v : Z) : string :=
  let negative := v <? 0 in
  let u := if negative then - v else v in
  let digits := fmt_digits 20 u EmptyString in
  if negative then String "-" digits else digits.

(** *** fmt: scanning with the format "%d"

    [fmt.Sscanf(input, "%d", &v)] skips leading blanks (a newline is an
    error), accepts one sign, needs at least one decimal digit, takes the
    whole run of digits as the token and hands it to [strconv.ParseInt],
    which rejects a value outside int64.  Input that ends before the sign
    or before the first digit gives [io.EOF].  Input after the token is
    left unread and is not an error. *)

Definition isSpace (r : Z) : bool :=
  ((9 <=? r) && (r <=? 13)) || (r =? 32) || (r =? 133) || (r =? 160)
  || (r =? 5760) || ((8192 <=? r) && (r <=? 8202))
  || (r =? 8232) || (r =? 8233) || (r =? 8239) || (r =? 8287) || (r =? 12288).

Definition peek_newline (s : string) : bool :=
  match s with
  | String c _ => byte_val c =? 10
  | EmptyString => false
  end.

(** [ss.SkipSpace]; [pending] counts the bytes still to drop of a rune
    that was already classified. *)
Fixpoint SkipSpace (s : string) (pending : nat) : goerror + string :=
  match s with
  | EmptyString => inr EmptyString
  | String _ t =>
      match pending with
      | S p => SkipSpace t p
      | O =>
          let '(r, w) := DecodeRuneInString s in
          if (r =? 13) && peek_newline t then SkipSpace t 0%nat
          else if r =? 10 then inl (errorString "unexpected newline")
          else if isSpace r then SkipSpace t (Nat.pred w)
          else inr s
      end
  end.

(** [ss.accept(sign)]: the sign read, if any, and the rest of the input. *)
Definition accept_sign (s : string) : option ascii * string :=
  match s with
  | String c t =>
      if (byte_val c =? 43) || (byte_val c =? 45) then (Some c, t) else (None, s)
  | EmptyString => (None, s)
  end.

(** The run of decimal digits at the head of [s], folded into [acc] as
    [strconv.ParseInt] does, with the number of digits read and the rest. *)
Fixpoint scan_digits (s : string) (acc : Z) (n : nat) : Z * nat * string :=
  match s with
  | String c t =>
      match digit_of_char c with
      | Some d => scan_digits t (acc * 10 + d) (S n)
      | None => (acc, n, s)
      end
  | EmptyString => (acc, n, s)
  end.

(** [io.EOF], which the scanner returns when the input ends before the
    number has started. *)
Definition EOF : goerror := errorString "EOF".

(** [strconv.ErrRange] and the [*strconv.NumError] that [strconv.ParseInt]
    returns for a token out of range: its text quotes the token, and it
    unwraps to [ErrRange].  The token is a sign and decimal digits, which
    [strconv.Quote] leaves as they are between the quotes. *)
Definition ErrRange : goerror := errorString "value out of range".

Definition Quote (tok : string) : string :=
  String (ascii_of_N 34) (tok ++ String (ascii_of_N 34) EmptyString).

Definition rangeError (tok : string) : goerror :=
  wrapError ("strconv.ParseInt: parsing " ++ Quote tok ++ ": value out of range")
    ErrRange.

(** The token that [ss.scanNumber] hands to [strconv.ParseInt]: the sign
    that was accepted, then the [n] digits at the head of [s]. *)
Definition token (sg : option ascii) (n : nat) (s : string) : string :=
  match sg with
  | Some c => String c (substring 0 n s)
  | None => substring 0 n s
  end.

Definition Sscanf_d (input : string) : goerror + Z :=
  match SkipSpace input 0%nat with
  | inl e => inl e
  | inr s0 =>
      match SkipSpace s0 0%nat with
      | inl e => inl e
      | inr EmptyString => inl EOF
      | inr s1 =>
          let '(sg, s2) := accept_sign s1 in
          match s2 with
          | EmptyString => inl EOF
          | _ =>
              let '(mag, n, _) := scan_digits s2 0 0%nat in
              match n with
              | O => inl (errorString "expected integer")
              | S _ =>
                  let v := match sg with
                           | Some c => if byte_val c =? 45 then - mag else mag
                           | None => mag
                           end in
                  if (int64_min <=? v) && (v <=? int64_max)
                  then inr v else inl (rangeError (token sg n s2))
              end
          end
      end
  end.

(** *** regexp: [https?://[^\s，]+]

    The class excludes the RE2 blanks [\t\n\f\r ] and the full-width comma
    U+FF0C; every other rune, the ASCII comma and [RuneError] included,
    belongs to it. *)

Definition is_re_space (r : Z) : bool :=
  (r =? 9) || (r =? 10) || (r =? 12) || (r =? 13) || (r =? 32).

Definition fullwidth_comma : Z := 65292.

Definition url_class (r : Z) : bool :=
  negb (is_re_space r || (r =? fullwidth_comma)).

(** The greedy [[^\s，]+]: the number of bytes of the longest run of class
    runes at the head of [s]. *)
Fixpoint class_run (s : string) (pending : nat) : nat :=
  match s with
  | EmptyString => O
  | String _ t =>
      match pending with
      | S p => S (class_run t p)
      | O =>
          let '(r, w) := DecodeRuneInString s in
          if url_class r then S (class_run t (Nat.pred w)) else O
      end
  end.

Fixpoint strip_prefix (p s : string) : option string :=
  match p with
  | EmptyString => Some s
  | String a p' =>
      match s with
      | String b s' => if Ascii.eqb a b then strip_prefix p' s' else None
      | EmptyString => None
      end
  end.

(** One alternative of [s?]: the literal [lit], then the class at least
    once. *)
Definition match_literal (lit s : string) : option nat :=
  match strip_prefix lit s with
  | Some rest =>
      match class_run rest 0%nat with
      | O => None
      | n => Some (String.length lit + n)%nat
      end
  | None => None
  end.

(** The width of the match anchored at the head of [s]: [s?] is greedy, so
    the alternative with the [s] is tried first. *)
Definition match_here (s : string) : option nat :=
  match match_literal "https://" s with
  | Some n => Some n
  | None => match_literal "http://" s
  end.

(** [Regexp.FindAllString(s, -1)]: successive leftmost matches, each search
    resuming where the previous match ended. *)
Fixpoint find_all (s : string) (pending : nat) : list string :=
  match s with
  | EmptyString => []
  | String _ t =>
      match pending with
      | S p => find_all t p
      | O =>
          match match_here s with
          | Some n => substring 0 n s :: find_all t (Nat.pred n)
          | None => find_all t (Nat.pred (snd (DecodeRuneInString s)))
          end
      end
  end.

Definition FindAllString (s : string) : list string := find_all s 0%nat.

End Go.

Import Go.

(** ** The outside world *)

(** The checkpoint file [last_update_id.txt] as the program can find it. *)
Inductive FileState : Type :=
| NoFile                      (* os.Stat reports that it does not exist *)
| Unreadable                  (* it is there, os.ReadFile fails *)
| FileData (data : string).

(** [Update], [Message] and [Result] as declared in all three variants;
    [Message] is a pointer in [Update], nil when the update carries no
    message. *)
Record Message : Type := mkMessage { ChatID : Z; Text : string }.

Record Update : Type := mkUpdate { UpdateID : Z; Msg : option Message }.

Record Result : Type := mkResult {
  Ok : bool;
  ErrorCode : Z;
  Description : string;
  Updates : list Update
}.

(** What [http.Get] followed by [io.ReadAll] and [json.Unmarshal] can
    give: the decoding of the body is left to the environment. *)
Inductive GetResult : Type :=
| GetFails (err : goerror)
| GetBodyFails (err : goerror)
| GetBody (body : string) (decoded : goerror + Result).

Inductive PostResult : Type :=
| PostFails (err : goerror)
| PostBodyFails (err : goerror)
| PostBody (body : string).

Inductive BackendResult : Type :=
| DoFails (err : goerror)
| ReadFails (err : goerror)
| Response (status : Z) (body : string).

(** What the program does to the outside world, in order.  A sleep is
    counted in seconds; [EvSendMessage] is the post of the JSON object of
    [chat_id] and [text] made by [sendMessage]; [EvBackendPost] is the post
    of a download request to the backend; [EvExec] is a run of an external
    command to its end. *)
Inductive Event : Type :=
| EvStdout (text : string)
| EvLog (text : string)
| EvSleep (seconds : Z)
| EvGetenv (name : string)
| EvStat (path : string)
| EvReadFile (path : string)
| EvWriteFile (path data : string)
| EvHttpGet (url : string)
| EvSendMessage (url : string) (chat_id : Z) (text : string)
| EvBackendPost (url payload : string)
| EvExec (name : string) (args : list string).

(** The answers of the environment.  Each network, process or file-write
    call is answered according to how many calls of its kind came before. *)
Record Env : Type := mkEnv {
  getenv : string -> string;
  http_get : nat -> string -> GetResult;
  http_post : nat -> string -> Z -> string -> PostResult;
  new_request : string -> option goerror;
  backend_do : nat -> string -> string -> BackendResult;
  exec_run : nat -> string -> list string -> option goerror;
  write_file : nat -> string -> string -> option (goerror * FileState)
}.

Record World : Type := mkWorld {
  trace : list Event;
  file : FileState;
  gets : nat;
  posts : nat;
  backends : nat;
  execs : nat;
  writes : nat
}.

(** How a Go computation ends: it returns, the process exits
    ([log.Fatal] calls [os.Exit(1)]), or it panics. *)
Inductive Outcome (A : Type) : Type :=
| Return (a : A)
| Exit (code : Z)
| Panic (msg : string).

Arguments Return {A} a.
Arguments Exit {A} code.
Arguments Panic {A} msg.

Definition M (A : Type) : Type := World -> Outcome A * World.

Definition ret {A : Type} (a : A) : M A := fun w => (Return a, w).

Definition bind {A B : Type} (m : M A) (k : A -> M B) : M B :=
  fun w =>
    match m w with
    | (Return a, w') => k a w'
    | (Exit code, w') => (Exit code, w')
    | (Panic msg, w') => (Panic msg, w')
    end.

Declare Scope go_scope.
Delimit Scope go_scope with go.

Notation "x <- c1 ;; c2" := (bind c1 (fun x => c2))
  (at level 61, c1 at next level, right associativity) : go_scope.
Notation "c1 ;; c2" := (bind c1 (fun _ => c2))
  (at level 61, right associativity) : go_scope.

#[local] Open Scope go_scope.

Definition record (e : Event) (w : World) : World :=
  mkWorld (trace w ++ [e]) (file w) (gets w) (posts w) (backends w)
    (execs w) (writes w).

Definition emit (e : Event) : M unit := fun w => (Return tt, record e w).

Definition logPrintf (text : string) : M unit := emit (EvLog text).
Definition Sleep (seconds : Z) : M unit := emit (EvSleep seconds).

Definition logFatal {A : Type} (text : string) : M A :=
  fun w => (Exit 1, record (EvLog text) w).

Definition nilDereference {A : Type} : M A :=
  fun w => (Panic "runtime error: invalid memory address or nil pointer dereference", w).

Definition lastUpdateIDFile : string := "last_update_id.txt".

Definition newline : string := String (ascii_of_N 10) EmptyString.
Definition tab : string := String (ascii_of_N 9) EmptyString.
Definition quote : string := String (ascii_of_N 34) EmptyString.

(** ** What the three variants share *)

Section Shared.

Variable E : Env.

(** Package-level variables, initialised from the environment before
    [main] starts. *)
Definition telegramBotToken : string := getenv E "TELEGRAM_BOT_TOKEN".
Definition backendURL : string := getenv E "BACKEND_URL".

Definition osGetenv (name : string) : M string :=
  fun w => (Return (getenv E name), record (EvGetenv name) w).

Definition httpGet (url : string) : M GetResult :=
  fun w =>
    let w1 := record (EvHttpGet url) w in
    (Return (http_get E (gets w) url),
     mkWorld (trace w1) (file w1) (S (gets w1)) (posts w1) (backends w1)
       (execs w1) (writes w1)).

Definition httpPostMessage (url : string) (chatID : Z) (text : string)
  : M PostResult :=
  fun w =>
    let w1 := record (EvSendMessage url chatID text) w in
    (Return (http_post E (posts w) url chatID text),
     mkWorld (trace w1) (file w1) (gets w1) (S (posts w1)) (backends w1)
       (execs w1) (writes w1)).

Definition clientDo (url payload : string) : M BackendResult :=
  fun w =>
    let w1 := record (EvBackendPost url payload) w in
    (Return (backend_do E (backends w) url payload),
     mkWorld (trace w1) (file w1) (gets w1) (posts w1) (S (backends w1))
       (execs w1) (writes w1)).

Definition cmdRun (name : string) (args : list string) : M (option goerror) :=
  fun w =>
    let w1 := record (EvExec name args) w in
    (Return (exec_run E (execs w) name args),
     mkWorld (trace w1) (file w1) (gets w1) (posts w1) (backends w1)
       (S (execs w1)) (writes w1)).

Definition osStat (path : string) : M FileState :=
  fun w => (Return (file w), record (EvStat path) w).

Definition osReadFile (path : string) : M FileState :=
  fun w => (Return (file w), record (EvReadFile path) w).

Definition osWriteFile (path data : string) : M (option goerror) :=
  fun w =>
    let w1 := record (EvWriteFile path data) w in
    match write_file E (writes w) path data with
    | None =>
        (Return None,
         mkWorld (trace w1) (FileData data) (gets w1) (posts w1) (backends w1)
           (execs w1) (S (writes w1)))
    | Some (err, remains) =>
        (Return (Some err),
         mkWorld (trace w1) remains (gets w1) (posts w1) (backends w1)
           (execs w1) (S (writes w1)))
    end.

(** [getUpdates]: the offset is [lastUpdateID+1] in int64. *)
Definition getUpdatesURL (lastUpdateID : Z) : string :=
  "https://api.telegram.org/bot" ++ telegramBotToken
  ++ "/getUpdates?offset=" ++ fmtInteger (int64_add lastUpdateID 1)
  ++ "&timeout=30".

Definition getUpdates (lastUpdateID : Z) : M (list Update * option goerror) :=
  let url := getUpdatesURL lastUpdateID in
  resp <- httpGet url ;;
  match resp with
  | GetFails err => ret ([], Some err)
  | GetBodyFails err => ret ([], Some err)
  | GetBody body (inl err) => ret ([], Some err)
  | GetBody body (inr result) =>
      if negb (Ok result)
      then ret ([], Some (errorString ("failed to get updates: " ++ body)))
      else ret (Updates result, None)
  end.

(** [getLastUpdateID]: a missing file and a failed read both give
    [(0, nil)]; a failed scan gives 0 together with the error. *)
Definition getLastUpdateID : M (Z * option goerror) :=
  st <- osStat lastUpdateIDFile ;;
  match st with
  | NoFile => ret (0, None)
  | _ =>
      rd <- osReadFile lastUpdateIDFile ;;
      match rd with
      | FileData data =>
          match Sscanf_d data with
          | inl err => ret (0, Some err)
          | inr lastUpdateID => ret (lastUpdateID, None)
          end
      | _ => ret (0, None)
      end
  end.

Definition saveLastUpdateID (lastUpdateID : Z) : M (option goerror) :=
  osWriteFile lastUpdateIDFile (fmtInteger lastUpdateID).

Definition sendMessageURL : string :=
  "https://api.telegram.org/bot" ++ telegramBotToken ++ "/sendMessage".

(** [sendMessage]: the JSON object of [chat_id] and [text] is posted; its
    encoding cannot fail for an int64 and a string. *)
Definition sendMessage (chatID : Z) (text : string) : M (option goerror) :=
  resp <- httpPostMessage sendMessageURL chatID text ;;
  match resp with
  | PostFails err => ret (Some err)
  | PostBodyFails err => ret (Some err)
  | PostBody body =>
      logPrintf ("Response from sendMessage: " ++ body ++ newline) ;;
      ret None
  end.

(** The checkpoint after one update: step 3 of the loop body. *)
Definition advance (update : Update) (lastUpdateID : Z) : Z :=
  if UpdateID update >? lastUpdateID then UpdateID update else lastUpdateID.

End Shared.

(** Standard output: [fmt.Println] ends the line, [fmt.Printf] does not. *)
Definition fmtPrintln (text : string) : M unit := emit (EvStdout (text ++ newline)).
Definition fmtPrintf (text : string) : M unit := emit (EvStdout text).

(** [log.Println] and [log.Printf] write the same line for the same text. *)
Definition logPrintln (text : string) : M unit := logPrintf text.

(** Reading a field through a [*Message]. *)
Definition deref (p : option Message) : M Message :=
  match p with
  | Some m => ret m
  | None => nilDereference
  end.

Definition len {A : Type} (l : list A) : Z := Z.of_nat (List.length l).

Definition is_empty (s : string) : bool := String.eqb s EmptyString.

(** ** src/main.go *)

Module MainGo.
Section Program.

Variable E : Env.

Definition download (message : string) : M (option goerror) :=
  let payload :=
    "{" ++ newline
    ++ "        " ++ quote ++ "url" ++ quote ++ ": " ++ quote ++ message ++ quote ++ "," ++ newline
    ++ " " ++ quote ++ "download" ++ quote ++ ": true" ++ newline
    ++ "    }" in
  match new_request E (backendURL E) with
  | Some err => fmtPrintln (Error err) ;; ret (Some err)
  | None =>
      res <- clientDo E (backendURL E) payload ;;
      match res with
      | DoFails err => fmtPrintln (Error err) ;; ret (Some err)
      | ReadFails err => fmtPrintln (Error err) ;; ret (Some err)
      | Response _ body => fmtPrintln body ;; ret None
      end
  end.

Definition getUrl (message : string) : string :=
  let urls := FindAllString message in
  match urls with
  | [] => message
  | url :: _ => url
  end.

(** The body of [for _, update := range updates]: the log line is under
    the nil guard, the download and both notifications are not. *)
Definition process_update (update : Update) (lastUpdateID : Z) : M Z :=
  match Msg update with
  | Some m =>
      logPrintf ("Received message from chat " ++ fmtInteger (ChatID m)
                 ++ ": " ++ Text m)
  | None => ret tt
  end ;;
  m <- deref (Msg update) ;;
  err <- download (Text m) ;;
  match err with
  | Some e =>
      sendMessage E (ChatID m)
        ("下载失败, url: " ++ getUrl (Text m) ++ ",err: " ++ Error e)
  | None =>
      sendMessage E (ChatID m) ("下载成功, url: " ++ getUrl (Text m))
  end ;;
  ret (advance update lastUpdateID).

Fixpoint process_updates (updates : list Update) (lastUpdateID : Z) : M Z :=
  match updates with
  | [] => ret lastUpdateID
  | update :: rest =>
      lastUpdateID' <- process_update update lastUpdateID ;;
      process_updates rest lastUpdateID'
  end.

Definition main_startup : M Z :=
  r <- getLastUpdateID ;;
  match r with
  | (_, Some err) => logFatal ("Failed to read last update ID: " ++ Error err)
  | (lastUpdateID, None) => ret lastUpdateID
  end.

Definition main_iteration (lastUpdateID : Z) : M Z :=
  fmtPrintln "start get update message ..." ;;
  r <- getUpdates E lastUpdateID ;;
  match r with
  | (_, Some err) =>
      logPrintf ("Failed to get updates: " ++ Error err) ;;
      Sleep 5 ;;
      ret lastUpdateID
  | (updates, None) =>
      fmtPrintf ("get [" ++ fmtInteger (len updates) ++ "] message" ++ newline) ;;
      lastUpdateID' <- process_updates updates lastUpdateID ;;
      err <- saveLastUpdateID E lastUpdateID' ;;
      match err with
      | Some e => logPrintf ("Failed to save last update ID: " ++ Error e)
      | None => ret tt
      end ;;
      fmtPrintln "go to sleep 2s" ;;
      Sleep 2 ;;
      ret lastUpdateID'
  end.

(** [for { ... }] cut after [n] rounds. *)
Fixpoint main_loop (n : nat) (lastUpdateID : Z) : M Z :=
  match n with
  | O => ret lastUpdateID
  | S n' =>
      lastUpdateID' <- main_iteration lastUpdateID ;;
      main_loop n' lastUpdateID'
  end.

Definition main (n : nat) : M Z :=
  lastUpdateID <- main_startup ;;
  main_loop n lastUpdateID.

End Program.
End MainGo.

(** ** src/unnamed/part_000: one HTTP post per extracted URL *)

Module HttpVariant.
Section Program.

Variable E : Env.

Definition extractUrls (message : string) : list string :=
  FindAllString message.

Definition download (downloadURL : string) : M (option goerror) :=
  let payload :=
    "{" ++ newline
    ++ tab ++ tab ++ quote ++ "url" ++ quote ++ ": " ++ quote ++ downloadURL ++ quote ++ "," ++ newline
    ++ tab ++ tab ++ quote ++ "download" ++ quote ++ ": true" ++ newline
    ++ tab ++ "}" in
  match new_request E (backendURL E) with
  | Some err =>
      logPrintf ("Error creating request for URL " ++ downloadURL ++ ": " ++ Error err) ;;
      ret (Some err)
  | None =>
      res <- clientDo E (backendURL E) payload ;;
      match res with
      | DoFails err =>
          logPrintf ("Error performing request for URL " ++ downloadURL ++ ": " ++ Error err) ;;
          ret (Some err)
      | ReadFails err =>
          logPrintf ("Error reading response body for URL " ++ downloadURL ++ ": " ++ Error err) ;;
          ret (Some err)
      | Response status body =>
          if negb (status =? 200)
          then ret (Some (errorString ("backend returned status code "
                                       ++ fmtInteger status ++ ", body: " ++ body)))
          else
            logPrintf ("Backend response for URL " ++ downloadURL ++ ": " ++ body) ;;
            ret None
      end
  end.

(** [for _, url := range urlsToDownload]. *)
Fixpoint download_each (urls : list string) (chatID : Z) : M unit :=
  match urls with
  | [] => ret tt
  | url :: rest =>
      logPrintf ("Attempting to download URL: " ++ url) ;;
      err <- download url ;;
      match err with
      | Some e =>
          sendMessage E chatID
            ("下载失败: " ++ newline ++ "URL: " ++ url ++ newline ++ "错误: " ++ Error e)
      | None =>
          sendMessage E chatID ("下载成功: " ++ newline ++ "URL: " ++ url)
      end ;;
      download_each rest chatID
  end.

Definition process_update (update : Update) (lastUpdateID : Z) : M Z :=
  match Msg update with
  | Some m =>
      let messageText := Text m in
      let chatID := ChatID m in
      logPrintf ("Received message from chat " ++ fmtInteger chatID
                 ++ ": " ++ messageText) ;;
      let urlsToDownload := extractUrls messageText in
      (if len urlsToDownload =? 0
       then
         logPrintln "No URLs found in the message, sending notification." ;;
         sendMessage E chatID
           "消息中未找到任何可识别的 URL 地址，请确保链接以 http:// 或 https:// 开头。"
       else
         sendMessage E chatID
           ("发现 " ++ fmtInteger (len urlsToDownload) ++ " 个 URL，开始按顺序下载...")) ;;
      download_each urlsToDownload chatID
  | None => ret tt
  end ;;
  ret (advance update lastUpdateID).

Fixpoint process_updates (updates : list Update) (lastUpdateID : Z) : M Z :=
  match updates with
  | [] => ret lastUpdateID
  | update :: rest =>
      lastUpdateID' <- process_update update lastUpdateID ;;
      process_updates rest lastUpdateID'
  end.

Definition main_startup : M Z :=
  (if is_empty (telegramBotToken E) || is_empty (backendURL E)
   then logFatal "TELEGRAM_BOT_TOKEN or BACKEND_URL environment variable is not set."
   else ret tt) ;;
  r <- getLastUpdateID ;;
  match r with
  | (_, Some err) => logFatal ("Failed to read last update ID: " ++ Error err)
  | (lastUpdateID, None) => ret lastUpdateID
  end.

Definition main_iteration (lastUpdateID : Z) : M Z :=
  fmtPrintln "start get update message ..." ;;
  r <- getUpdates E lastUpdateID ;;
  match r with
  | (_, Some err) =>
      logPrintf ("Failed to get updates: " ++ Error err) ;;
      Sleep 5 ;;
      ret lastUpdateID
  | (updates, None) =>
      fmtPrintf ("get [" ++ fmtInteger (len updates) ++ "] message" ++ newline) ;;
      lastUpdateID' <- process_updates updates lastUpdateID ;;
      err <- saveLastUpdateID E lastUpdateID' ;;
      match err with
      | Some e => logPrintf ("Failed to save last update ID: " ++ Error e)
      | None => ret tt
      end ;;
      fmtPrintln "go to sleep 2s" ;;
      Sleep 2 ;;
      ret lastUpdateID'
  end.

(** [for { ... }] cut after [n] rounds. *)
Fixpoint main_loop (n : nat) (lastUpdateID : Z) : M Z :=
  match n with
  | O => ret lastUpdateID
  | S n' =>
      lastUpdateID' <- main_iteration lastUpdateID ;;
      main_loop n' lastUpdateID'
  end.

Definition main (n : nat) : M Z :=
  lastUpdateID <- main_startup ;;
  main_loop n lastUpdateID.

End Program.
End HttpVariant.

(** ** The program in src/Dockerfile: gallery-dl under bounded retry *)

Module CmdVariant.
Section Program.

Variable E : Env.

Definition extractUrls (message : string) : list string :=
  FindAllString message.

Definition download (downloadURL : string) : M (option goerror) :=
  proxyURL <- osGetenv E "HTTP_PROXY" ;;
  if is_empty proxyURL
  then ret (Some (errorString "HTTP_PROXY environment variable is not set"))
  else
    err <- cmdRun E "gallery-dl" ["--proxy"; proxyURL; downloadURL] ;;
    match err with
    | Some e => ret (Some (errorString ("failed to run gallery-dl: " ++ Error e)))
    | None => ret None
    end.

Definition maxRetries : Z := 3.
Definition delay : Z := 5.

(** What [runDownloadWithRetry] returns once the loop is over. *)
Definition finalError (lastErr : option goerror) : goerror :=
  let prefix := "下载最终失败, 经过 " ++ fmtInteger maxRetries ++ " 次尝试: " in
  match lastErr with
  | Some e => wrapError (prefix ++ Error e) e
  | None => errorString (prefix ++ "%!w(<nil>)")
  end.

(** [for i := 0; i < maxRetries; i++]: [remaining] is [maxRetries - i]. *)
Fixpoint attempts (remaining : nat) (i : Z) (lastErr : option goerror)
  (url : string) (chatID : Z) : M (option goerror) :=
  match remaining with
  | O => ret (Some (finalError lastErr))
  | S remaining' =>
      logPrintf ("Attempt " ++ fmtInteger (i + 1) ++ "/" ++ fmtInteger maxRetries
                 ++ ": Downloading URL: " ++ url) ;;
      err <- download url ;;
      match err with
      | None =>
          sendMessage E chatID
            ("下载成功 (第 " ++ fmtInteger (i + 1) ++ " 次尝试): " ++ newline
             ++ "URL: " ++ url) ;;
          ret None
      | Some e =>
          logPrintf ("Download attempt " ++ fmtInteger (i + 1) ++ " failed for URL "
                     ++ url ++ ": " ++ Error e) ;;
          (if i <? maxRetries - 1
           then
             sendMessage E chatID
               ("下载失败 (第 " ++ fmtInteger (i + 1) ++ " 次尝试，重试中...): " ++ newline
                ++ "URL: " ++ url ++ newline ++ "错误: " ++ Error e) ;;
             Sleep delay
           else ret tt) ;;
          attempts remaining' (i + 1) (Some e) url chatID
      end
  end.

Definition runDownloadWithRetry (url : string) (chatID : Z) : M (option goerror) :=
  attempts (Z.to_nat maxRetries) 0 None url chatID.

(** [for _, url := range urlsToDownload]. *)
Fixpoint download_each (urls : list string) (chatID : Z) : M unit :=
  match urls with
  | [] => ret tt
  | url :: rest =>
      err <- runDownloadWithRetry url chatID ;;
      match err with
      | Some e =>
          sendMessage E chatID
            ("下载任务终止: " ++ newline ++ "URL: " ++ url ++ newline
             ++ "错误: " ++ Error e) ;;
          ret tt
      | None => ret tt
      end ;;
      download_each rest chatID
  end.

Definition process_update (update : Update) (lastUpdateID : Z) : M Z :=
  match Msg update with
  | Some m =>
      let messageText := Text m in
      let chatID := ChatID m in
      logPrintf ("Received message from chat " ++ fmtInteger chatID
                 ++ ": " ++ messageText) ;;
      let urlsToDownload := extractUrls messageText in
      (if len urlsToDownload =? 0
       then
         logPrintln "No URLs found in the message, sending notification." ;;
         sendMessage E chatID
           "消息中未找到任何可识别的 URL 地址，请确保链接以 http:// 或 https:// 开头。"
       else
         sendMessage E chatID
           ("发现 " ++ fmtInteger (len urlsToDownload) ++ " 个 URL，开始按顺序下载...")) ;;
      download_each urlsToDownload chatID
  | None => ret tt
  end ;;
  ret (advance update lastUpdateID).

Fixpoint process_updates (updates : list Update) (lastUpdateID : Z) : M Z :=
  match updates with
  | [] => ret lastUpdateID
  | update :: rest =>
      lastUpdateID' <- process_update update lastUpdateID ;;
      process_updates rest lastUpdateID'
  end.

Definition main_startup : M Z :=
  (if is_empty (telegramBotToken E) || is_empty (backendURL E)
   then logFatal "TELEGRAM_BOT_TOKEN or BACKEND_URL environment variable is not set."
   else ret tt) ;;
  r <- getLastUpdateID ;;
  match r with
  | (_, Some err) => logFatal ("Failed to read last update ID: " ++ Error err)
  | (lastUpdateID, None) => ret lastUpdateID
  end.

Definition main_iteration (lastUpdateID : Z) : M Z :=
  fmtPrintln "start get update message ..." ;;
  r <- getUpdates E lastUpdateID ;;
  match r with
  | (_, Some err) =>
      logPrintf ("Failed to get updates: " ++ Error err) ;;
      Sleep 5 ;;
      ret lastUpdateID
  | (updates, None) =>
      fmtPrintf ("get [" ++ fmtInteger (len updates) ++ "] message" ++ newline) ;;
      lastUpdateID' <- process_updates updates lastUpdateID ;;
      err <- saveLastUpdateID E lastUpdateID' ;;
      match err with
      | Some e => logPrintf ("Failed to save last update ID: " ++ Error e)
      | None => ret tt
      end ;;
      fmtPrintln "go to sleep 2s" ;;
      Sleep 2 ;;
      ret lastUpdateID'
  end.

(** [for { ... }] cut after [n] rounds. *)
Fixpoint main_loop (n : nat) (lastUpdateID : Z) : M Z :=
  match n with
  | O => ret lastUpdateID
  | S n' =>
      lastUpdateID' <- main_iteration lastUpdateID ;;
      main_loop n' lastUpdateID'
  end.

Definition main (n : nat) : M Z :=
  lastUpdateID <- main_startup ;;
  main_loop n lastUpdateID.

End Program.
End CmdVariant.

(** * Vocabulary of the statements *)

(** What the scanner makes of the input once blanks and sign are read:
    [sg] is the sign that was accepted, [sign] is 1 or -1 accordingly, and
    [s] starts at the first digit. *)
Definition scanned (sg : option ascii) (sign : Z) (s : string) : goerror + Z :=
  let '(mag, n, _) := scan_digits s 0 0%nat in
  match n with
  | O => inl (errorString "expected integer")
  | S _ =>
      if (int64_min <=? sign * mag) && (sign * mag <=? int64_max)
      then inr (sign * mag) else inl (rangeError (token sg n s))
  end.

(** ** URLs *)

Definition scheme_prefixed (u : string) : bool :=
  match strip_prefix "http://" u with
  | Some _ => true
  | None =>
      match strip_prefix "https://" u with
      | Some _ => true
      | None => false
      end
  end.

(** Some suffix of [s] starts with [http://] or [https://]. *)
Fixpoint contains_scheme (s : string) : bool :=
  match s with
  | EmptyString => false
  | String _ t => scheme_prefixed s || contains_scheme t
  end.




(** ** The retry protocol, read off a trace

    Each call of the command variant's [download] starts by reading
    [HTTP_PROXY]; that read marks an attempt. *)

Inductive Step : Type :=
| Attempt
| Notify (chat : Z) (text : string)
| Wait (seconds : Z).

Definition step_of (e : Event) : list Step :=
  match e with
  | EvGetenv name => if String.eqb name "HTTP_PROXY" then [Attempt] else []
  | EvSendMessage _ chat text => [Notify chat text]
  | EvSleep seconds => [Wait seconds]
  | _ => []
  end.

Definition protocol (tr : list Event) : list Step := flat_map step_of tr.

(** What [CmdVariant.download] returns when [k] commands were run before
    it (see [download_run]). *)
Definition attempt_error (E : Env) (k : nat) (url : string) : option goerror :=
  if is_empty (getenv E "HTTP_PROXY")
  then Some (errorString "HTTP_PROXY environment variable is not set")
  else
    match exec_run E k "gallery-dl" ["--proxy"; getenv E "HTTP_PROXY"; url] with
    | Some e => Some (errorString ("failed to run gallery-dl: " ++ Error e))
    | None => None
    end.

(** ** Polling and configuration reads in a trace *)

Definition is_poll (e : Event) : bool :=
  match e with
  | EvHttpGet _ => true
  | _ => false
  end.

Definition polls (tr : list Event) : list Event := filter is_poll tr.

Definition is_poll_or_getenv (e : Event) : bool :=
  match e with
  | EvHttpGet _ | EvGetenv _ => true
  | _ => false
  end.

(** ** Checkpoints *)

Definition checkpoint_after (updates : list Update) (c : Z) : Z :=
  fold_left (fun acc update => advance update acc) updates c.

(** The end of a round of the main loop that started in [w] and saves
    [c]: the round makes one write, of the decimal text of [c].  When the
    environment lets that write succeed, the file holds the text; when it
    does not, the failure is logged and the file is what the failed write
    left of it.  The 2-second sleep follows in both cases. *)
Definition persisted (E : Env) (c : Z) (w w' : World) : Prop :=
  writes w' = S (writes w)
  /\ exists pre,
       match write_file E (writes w) lastUpdateIDFile (fmtInteger c) with
       | None =>
           trace w'
           = (pre ++ [EvWriteFile lastUpdateIDFile (fmtInteger c);
                      EvStdout ("go to sleep 2s" ++ newline); EvSleep 2])%list
           /\ file w' = FileData (fmtInteger c)
       | Some (e, remains) =>
           trace w'
           = (pre ++ [EvWriteFile lastUpdateIDFile (fmtInteger c);
                      EvLog ("Failed to save last update ID: " ++ Error e);
                      EvStdout ("go to sleep 2s" ++ newline); EvSleep 2])%list
           /\ file w' = remains
       end.

(** A computation that leaves the checkpoint file alone. *)
Definition keeps_file {A : Type} (m : M A) : Prop :=
  forall w, file (snd (m w)) = file w /\ writes (snd (m w)) = writes w.

(** ** Termination of computations *)

Definition total {A : Type} (m : M A) : Prop :=
  forall w, exists a w', m w = (Return a, w').

Definition yields {A : Type} (m : M A) (a : A) : Prop :=
  forall w, exists w', m w = (Return a, w').

(** A computation only appends to the trace. *)
Definition grows {A : Type} (m : M A) : Prop :=
  forall w, exists evs, trace (snd (m w)) = (trace w ++ evs)%list.

(** ** Sample environments *)

Definition sample_getenv (proxy name : string) : string :=
  if String.eqb name "TELEGRAM_BOT_TOKEN" then "TOKEN"
  else if String.eqb name "BACKEND_URL" then "http://backend/xhs"
  else if String.eqb name "HTTP_PROXY" then proxy
  else EmptyString.

(** Token and backend URL are set, the proxy is [proxy]; the messaging API
    answers every poll with [batch], the command with [cmd], the backend
    with [status]; writes succeed. *)
Definition sample_env (proxy : string) (cmd : nat -> option goerror)
  (status : Z) (batch : list Update) : Env :=
  mkEnv (sample_getenv proxy)
    (fun _ _ => GetBody "{}" (inr (mkResult true 0 EmptyString batch)))
    (fun _ _ _ _ => PostBody "{}")
    (fun _ => None)
    (fun _ _ _ => Response status "done")
    (fun k _ _ => cmd k)
    (fun _ _ _ => None).

Definition world0 (f : FileState) : World := mkWorld [] f 0 0 0 0 0.

(** An environment with nothing to download, and the world after it
    saved checkpoint 42. *)
Definition quiet_env : Env := sample_env EmptyString (fun _ => None) 200 [].

Definition saved_42 : World :=
  mkWorld [EvWriteFile lastUpdateIDFile "42"] (FileData "42") 0 0 0 0 1.

(** One update, number 7 from chat 5, whose text is a single URL. *)
Definition one_url_batch : list Update :=
  [mkUpdate 7 (Some (mkMessage 5 "https://example.com/a"))].

(** Token and backend URL set, no proxy, the command never reached. *)
Definition no_proxy_env : Env :=
  sample_env EmptyString (fun _ => None) 200 one_url_batch.

(** Proxy set, every run of the command fails. *)
Definition failing_env : Env :=
  sample_env "socks5://proxy" (fun _ => Some (errorString "exit status 1")) 200
    one_url_batch.

(** The messaging API answers every poll with [ok] false. *)
Definition refusing_env : Env :=
  mkEnv (sample_getenv EmptyString)
    (fun _ _ => GetBody "{}" (inr (mkResult false 401 "Unauthorized" [])))
    (fun _ _ _ _ => PostBody "{}")
    (fun _ => None)
    (fun _ _ _ => Response 200 "done")
    (fun _ _ _ => None)
    (fun _ _ _ => None).

(** The backend answers every request with status 500. *)
Definition broken_backend_env : Env :=
  sample_env EmptyString (fun _ => None) 500 one_url_batch.

(** As [failing_env], but no notification can be delivered. *)
Definition undelivered_env : Env :=
  mkEnv (sample_getenv "socks5://proxy")
    (fun _ _ => GetBody "{}" (inr (mkResult true 0 EmptyString one_url_batch)))
    (fun _ _ _ _ => PostFails (errorString "connection refused"))
    (fun _ => None)
    (fun _ _ _ => Response 200 "done")
    (fun _ _ _ => Some (errorString "exit status 1"))
    (fun _ _ _ => None).

(** A batch of two updates, the second without a message, and an
    environment that delivers it: the proxy is set, every run of the
    command fails, writes succeed. *)
Definition two_updates : list Update :=
  [mkUpdate 7 (Some (mkMessage 5 "https://example.com/a"));
   mkUpdate 8 None].

Definition two_updates_env : Env :=
  sample_env "socks5://proxy" (fun _ => Some (errorString "exit status 1")) 200
    two_updates.

(** Nothing is configured: every environment variable is empty. *)
Definition unconfigured_env : Env :=
  mkEnv (fun _ => EmptyString)
    (fun _ _ => GetFails (errorString "unsupported protocol scheme"))
    (fun _ _ _ _ => PostFails (errorString "unsupported protocol scheme"))
    (fun _ => None)
    (fun _ _ _ => DoFails (errorString "unsupported protocol scheme"))
    (fun _ _ _ => None)
    (fun _ _ _ => None).

(** The checkpoint file cannot be opened for writing and stays as it
    was, holding 6; the poll brings update 7. *)
Definition readonly_env : Env :=
  mkEnv (sample_getenv EmptyString)
    (fun _ _ => GetBody "{}" (inr (mkResult true 0 EmptyString one_url_batch)))
    (fun _ _ _ _ => PostBody "{}")
    (fun _ => None)
    (fun _ _ _ => Response 200 "done")
    (fun _ _ _ => None)
    (fun _ _ _ =>
       Some (errorString "open last_update_id.txt: permission denied",
             FileData "6")).

(** The messaging API answers every poll, whatever its offset, with
    update 41. *)
Definition stale_batch : list Update :=
  [mkUpdate 41 (Some (mkMessage 5 "https://example.com/a"))].

Definition stale_env : Env := sample_env EmptyString (fun _ => None) 200 stale_batch.

Definition exit_status_1 : goerror := errorString "exit status 1".

Definition always_failing (k : nat) : option goerror := Some exit_status_1.

Definition failing_once (k : nat) : option goerror :=
  match k with
  | O => Some exit_status_1
  | S _ => None
  end.

Definition example_text : string :=
  "check this out https://example.com/a,https://example.com/b thanks".

Definition example_text_fullwidth : string :=
  "check this out https://example.com/a，https://example.com/b thanks".

(** ** More vocabulary: text *)

(** [s] without its first [n] bytes. *)
Fixpoint string_drop (n : nat) (s : string) : string :=
  match n, s with
  | O, _ => s
  | S n', String _ t => string_drop n' t
  | S _, EmptyString => EmptyString
  end.

(** Some byte of [s] is one of the blanks of the pattern. *)
Fixpoint has_blank (s : string) : bool :=
  match s with
  | EmptyString => false
  | String c t => is_re_space (byte_val c) || has_blank t
  end.

(** The first [k] bytes of [s] are there and are not ASCII. *)
Fixpoint high_prefix (k : nat) (s : string) : Prop :=
  match k with
  | O => True
  | S k' =>
      match s with
      | String c t => 128 <= byte_val c /\ high_prefix k' t
      | EmptyString => False
      end
  end.

(** [rest] does not go on with a decimal digit. *)
Definition no_digit_ahead (rest : string) : Prop :=
  match rest with
  | String c _ => digit_of_char c = None
  | EmptyString => True
  end.

(** What follows a match: the end of the text, or a rune outside the
    class of the pattern (a blank or the full-width comma). *)
Definition ends_match (post : string) : Prop :=
  post = EmptyString \/ url_class (fst (DecodeRuneInString post)) = false.

(** ** More vocabulary: rounds, requests and notices *)

(** The error [getUpdates] returns for an answer, if it returns one. *)
Definition fetch_failure (r : GetResult) : option goerror :=
  match r with
  | GetFails err => Some err
  | GetBodyFails err => Some err
  | GetBody _ (inl err) => Some err
  | GetBody body (inr result) =>
      if Ok result then None
      else Some (errorString ("failed to get updates: " ++ body))
  end.

Definition is_log (e : Event) : bool :=
  match e with
  | EvLog _ => true
  | _ => false
  end.

(** The notifications of a trace, in order: chat and text. *)
Definition notices (tr : list Event) : list (Z * string) :=
  flat_map (fun e => match e with
                     | EvSendMessage _ chat text => [(chat, text)]
                     | _ => []
                     end) tr.

(** The backend requests of a trace, in order: the payloads. *)
Definition backend_posts (tr : list Event) : list string :=
  flat_map (fun e => match e with
                     | EvBackendPost _ payload => [payload]
                     | _ => []
                     end) tr.

Definition no_url_notice : string :=
  "消息中未找到任何可识别的 URL 地址，请确保链接以 http:// 或 https:// 开头。".

(** The request bodies of the two HTTP downloads. *)
Definition MainGo_payload (message : string) : string :=
  "{" ++ newline
  ++ "        " ++ quote ++ "url" ++ quote ++ ": " ++ quote ++ message ++ quote ++ "," ++ newline
  ++ " " ++ quote ++ "download" ++ quote ++ ": true" ++ newline
  ++ "    }".

Definition Http_payload (downloadURL : string) : string :=
  "{" ++ newline
  ++ tab ++ tab ++ quote ++ "url" ++ quote ++ ": " ++ quote ++ downloadURL ++ quote ++ "," ++ newline
  ++ tab ++ tab ++ quote ++ "download" ++ quote ++ ": true" ++ newline
  ++ tab ++ "}".

(** The world after a poll that brought nothing to process. *)
Definition after_failed_poll (E : Env) (c : Z) (err : goerror) (w : World) : World :=
  mkWorld
    (trace w ++ [EvStdout ("start get update message ..." ++ newline);
                 EvHttpGet (getUpdatesURL E c);
                 EvLog ("Failed to get updates: " ++ Error err);
                 EvSleep 5])
    (file w) (S (gets w)) (posts w) (backends w) (execs w) (writes w).

(** The notices of the HTTP variant for one URL and for a message. *)
Definition Http_outcome_notice (url : string) (r : option goerror) : string :=
  match r with
  | Some e => "下载失败: " ++ newline ++ "URL: " ++ url ++ newline ++ "错误: " ++ Error e
  | None => "下载成功: " ++ newline ++ "URL: " ++ url
  end.

Definition discovery_notice (n : Z) : string :=
  "发现 " ++ fmtInteger n ++ " 个 URL，开始按顺序下载...".

(** ** More vocabulary: the retry loop in every case *)

Definition retry_notice (k : Z) (url : string) (e : goerror) : string :=
  "下载失败 (第 " ++ fmtInteger k ++ " 次尝试，重试中...): " ++ newline
  ++ "URL: " ++ url ++ newline ++ "错误: " ++ Error e.

Definition success_notice (k : Z) (url : string) : string :=
  "下载成功 (第 " ++ fmtInteger k ++ " 次尝试): " ++ newline ++ "URL: " ++ url.

(** What [runDownloadWithRetry] returns and the protocol it follows, by the
    outcomes of the attempts when [x] commands were run before: success at
    the first, second or third attempt, or three failures. *)
Definition retry_outcome (E : Env) (x : nat) (url : string) (chat : Z)
  : option goerror * list Step :=
  match attempt_error E x url with
  | None => (None, [Attempt; Notify chat (success_notice 1 url)])
  | Some e1 =>
      match attempt_error E (S x) url with
      | None =>
          (None,
           [Attempt; Notify chat (retry_notice 1 url e1); Wait 5;
            Attempt; Notify chat (success_notice 2 url)])
      | Some e2 =>
          match attempt_error E (S (S x)) url with
          | None =>
              (None,
               [Attempt; Notify chat (retry_notice 1 url e1); Wait 5;
                Attempt; Notify chat (retry_notice 2 url e2); Wait 5;
                Attempt; Notify chat (success_notice 3 url)])
          | Some e3 =>
              (Some (CmdVariant.finalError (Some e3)),
               [Attempt; Notify chat (retry_notice 1 url e1); Wait 5;
                Attempt; Notify chat (retry_notice 2 url e2); Wait 5;
                Attempt])
          end
      end
  end.

Definition is_attempt (s : Step) : bool :=
  match s with
  | Attempt => true
  | _ => false
  end.

Definition is_wait (s : Step) : bool :=
  match s with
  | Wait _ => true
  | _ => false
  end.

Definition attempts_of (p : list Step) : nat := List.length (filter is_attempt p).
Definition waits_of (p : list Step) : list Step := filter is_wait p.

(** The attempts and sleeps of a protocol in their order, the notices left
    out; and [k] attempts with one 5-second sleep between each two. *)
Definition schedule (p : list Step) : list Step :=
  filter (fun s => is_attempt s || is_wait s) p.

Fixpoint spaced (k : nat) : list Step :=
  match k with
  | O => []
  | S O => [Attempt]
  | S k' => Attempt :: Wait 5 :: spaced k'
  end.

(** The messages of a batch, in order. *)
Definition messages (updates : list Update) : list Message :=
  flat_map (fun update => match Msg update with
                          | Some m => [m]
                          | None => []
                          end) updates.

(** The notice of the main loop for a URL whose retries are exhausted, and
    the protocol of one URL: the retry loop, then that notice if it
    returned an error. *)
Definition terminated_notice (url : string) (e : goerror) : string :=
  "下载任务终止: " ++ newline ++ "URL: " ++ url ++ newline ++ "错误: " ++ Error e.

Definition url_block (E : Env) (chat : Z) (ux : string * nat) : list Step :=
  (snd (retry_outcome E (snd ux) (fst ux) chat)
   ++ match fst (retry_outcome E (snd ux) (fst ux) chat) with
      | Some e => [Notify chat (terminated_notice (fst ux) e)]
      | None => []
      end)%list.

(** Unfolding of the monad under [cbn]. *)
Arguments bind {A B} m k w /.
Arguments ret {A} a w /.
Arguments emit e w /.
Arguments record e w /.
Arguments logPrintf text w /.
Arguments logPrintln text w /.
Arguments logFatal {A} text w /.
Arguments nilDereference {A} w /.
Arguments fmtPrintln text w /.
Arguments fmtPrintf text w /.
Arguments Sleep seconds w /.
Arguments deref p w /.
Arguments osGetenv E name w /.
Arguments httpGet E url w /.
Arguments httpPostMessage E url chatID text w /.
Arguments clientDo E url payload w /.
Arguments cmdRun E name args w /.
Arguments osStat path w /.
Arguments osReadFile path w /.
Arguments osWriteFile E path data w /.
Arguments getUpdates E lastUpdateID w /.
Arguments getLastUpdateID w /.
Arguments saveLastUpdateID E lastUpdateID w /.
Arguments sendMessage E chatID text w /.
Arguments CmdVariant.download E downloadURL w /.
Arguments HttpVariant.download E downloadURL w /.
Arguments MainGo.download E message w /.
Arguments is_empty : simpl never.
Arguments String.append : simpl never.
Arguments fmtInteger : simpl never.
Arguments getUpdatesURL : simpl never.
Arguments sendMessageURL : simpl never.
Arguments Sscanf_d : simpl never.
Arguments FindAllString : simpl never.

(** * Properties *)

(** ** Decimal text *)

Lemma digit_round_trip (d : Z) :
  0 <= d < 10 ->
  digit_of_char (char_of_digit d) = Some d
  /\ byte_in 48 57 (char_of_digit d) = true.
Proof.
  intros Hd.
  assert (Hcases : d = 0 \/ d = 1 \/ d = 2 \/ d = 3 \/ d = 4 \/ d = 5
                   \/ d = 6 \/ d = 7 \/ d = 8 \/ d = 9) by lia.
  repeat (destruct Hcases as [-> | Hcases]; [split; reflexivity|]).
  subst d. split; reflexivity.
Qed.

(** Scanning the digits that [fmt_digits] wrote gives back the number,
    after at least one digit. *)
Lemma scan_fmt_digits (fuel : nat) :
  forall u buf acc n,
    0 <= u < 10 ^ Z.of_nat (S fuel) ->
    exists k : nat,
      scan_digits (fmt_digits (S fuel) u buf) acc n
      = scan_digits buf (acc * 10 ^ Z.of_nat (S k) + u) (S k + n).
Proof.
  induction fuel as [|fuel IH]; intros u buf acc n Hu.
  - change (10 ^ Z.of_nat 1) with 10 in Hu.
    cbn [fmt_digits]. replace (10 <=? u) with false by (symmetry; apply Z.leb_gt; lia).
    exists 0%nat. cbn [scan_digits].
    destruct (digit_round_trip u Hu) as [-> _].
    reflexivity.
  - remember (S fuel) as f eqn:Hf. cbn [fmt_digits].
    destruct (10 <=? u) eqn:Hge.
    + apply Z.leb_le in Hge.
      assert (Hq : 0 <= u / 10 < 10 ^ Z.of_nat f).
      { split; [apply Z.div_pos; lia|].
        apply Z.div_lt_upper_bound; [lia|].
        replace (10 * 10 ^ Z.of_nat f) with (10 ^ Z.of_nat (S f)); [lia|].
        rewrite Nat2Z.inj_succ, Z.pow_succ_r by lia. reflexivity. }
      subst f.
      destruct (IH (u / 10) (String (char_of_digit (u - u / 10 * 10)) buf)
                  acc n Hq) as [k Hk].
      exists (S k). rewrite Hk. cbn [scan_digits].
      assert (Hd : 0 <= u - u / 10 * 10 < 10).
      { pose proof (Z.mod_pos_bound u 10 ltac:(lia)) as Hm.
        rewrite Z.mod_eq in Hm by lia. lia. }
      destruct (digit_round_trip _ Hd) as [-> _].
      assert (Hacc : (acc * 10 ^ Z.of_nat (S k) + u / 10) * 10 + (u - u / 10 * 10)
                     = acc * 10 ^ Z.of_nat (S (S k)) + u).
      { rewrite (Nat2Z.inj_succ (S k)), Z.pow_succ_r by lia. ring. }
      rewrite Hacc. reflexivity.
    + apply Z.leb_gt in Hge.
      exists 0%nat. cbn [scan_digits].
      destruct (digit_round_trip u ltac:(lia)) as [-> _].
      reflexivity.
Qed.

(** The text written by [fmt_digits] starts with a decimal digit. *)
Lemma fmt_digits_head (fuel : nat) :
  forall u buf,
    0 <= u ->
    (forall c t, buf = String c t -> byte_in 48 57 c = true) ->
    exists c t,
      fmt_digits (S fuel) u buf = String c t /\ byte_in 48 57 c = true.
Proof.
  induction fuel as [|fuel IH]; intros u buf Hu Hbuf.
  - cbn [fmt_digits]. destruct (10 <=? u) eqn:Hge.
    + eexists _, _. split; [reflexivity|].
      apply digit_round_trip.
      pose proof (Z.mod_pos_bound u 10 ltac:(lia)) as Hm.
      rewrite Z.mod_eq in Hm by lia. lia.
    + apply Z.leb_gt in Hge. eexists _, _. split; [reflexivity|].
      apply digit_round_trip. lia.
  - remember (S fuel) as f eqn:Hf. cbn [fmt_digits].
    destruct (10 <=? u) eqn:Hge.
    + subst f. apply IH.
      * apply Z.div_pos; lia.
      * intros c t Heq. injection Heq as <- _.
        apply digit_round_trip.
        pose proof (Z.mod_pos_bound u 10 ltac:(lia)) as Hm.
        rewrite Z.mod_eq in Hm by lia. lia.
    + apply Z.leb_gt in Hge. eexists _, _. split; [reflexivity|].
      apply digit_round_trip. lia.
Qed.

Lemma digit_char_plain (c : ascii) :
  byte_in 48 57 c = true ->
  (byte_val c <? 128) = true
  /\ ((byte_val c =? 13) = false /\ (byte_val c =? 10) = false)
  /\ isSpace (byte_val c) = false
  /\ ((byte_val c =? 43) || (byte_val c =? 45)) = false.
Proof.
  unfold byte_in, isSpace. intros H.
  apply andb_true_iff in H as [Hlo Hhi].
  apply Z.leb_le in Hlo, Hhi.
  repeat split;
    repeat match goal with
      | |- (_ || _) = false => apply orb_false_iff; split
      | |- (_ && _) = false => apply andb_false_iff
      | |- (_ =? _) = false => apply Z.eqb_neq; lia
      | |- (_ <? _) = true => apply Z.ltb_lt; lia
      end.
  - right. apply Z.leb_gt. lia.
  - left. apply Z.leb_gt. lia.
Qed.

(** Blanks are not skipped and no sign is read at a digit. *)
Lemma scan_prefix_at_digit (c : ascii) (t : string) :
  byte_in 48 57 c = true ->
  SkipSpace (String c t) 0%nat = inr (String c t)
  /\ accept_sign (String c t) = (None, String c t).
Proof.
  intros H. destruct (digit_char_plain c H) as (Hlt & [H13 H10] & Hsp & Hsg).
  split.
  - cbn [SkipSpace DecodeRuneInString]. rewrite Hlt. cbn beta iota.
    rewrite H13, H10, Hsp. reflexivity.
  - cbn [accept_sign]. rewrite Hsg. reflexivity.
Qed.

Lemma Sscanf_d_at_digit (c : ascii) (t : string) :
  byte_in 48 57 c = true ->
  Sscanf_d (String c t) = scanned None 1 (String c t).
Proof.
  intros Hc. destruct (scan_prefix_at_digit c t Hc) as [Hskip Hsign].
  unfold Sscanf_d, scanned.
  rewrite Hskip. cbn beta iota. rewrite Hskip. cbn beta iota.
  rewrite Hsign. cbn beta iota.
  destruct (scan_digits (String c t) 0 0%nat) as [[mag n] rest].
  destruct n; [reflexivity|].
  rewrite Z.mul_1_l. reflexivity.
Qed.

Lemma Sscanf_d_at_minus (c : ascii) (t : string) :
  Sscanf_d (String "-" (String c t)) = scanned (Some "-"%char) (-1) (String c t).
Proof.
  unfold Sscanf_d, scanned.
  change (SkipSpace (String "-" (String c t)) 0%nat)
    with (@inr goerror string (String "-" (String c t))).
  cbn beta iota.
  change (SkipSpace (String "-" (String c t)) 0%nat)
    with (@inr goerror string (String "-" (String c t))).
  cbn beta iota.
  change (accept_sign (String "-" (String c t)))
    with (Some "-"%char, String c t).
  cbn beta iota.
  destruct (scan_digits (String c t) 0 0%nat) as [[mag n] rest].
  destruct n; [reflexivity|].
  change (byte_val "-" =? 45) with true. cbn beta iota.
  replace (-1 * mag) with (- mag) by ring. reflexivity.
Qed.

Lemma scanned_fmt_digits (sg : option ascii) (sign u : Z) :
  0 <= u < 10 ^ 20 ->
  int64_min <= sign * u <= int64_max ->
  scanned sg sign (fmt_digits 20 u EmptyString) = inr (sign * u).
Proof.
  intros Hu Hr. unfold scanned.
  destruct (scan_fmt_digits 19 u EmptyString 0 0%nat Hu) as [k Hk].
  rewrite Hk. cbn [scan_digits Nat.add].
  replace (0 * 10 ^ Z.of_nat (S k) + u) with u by ring.
  assert (Hb : (int64_min <=? sign * u) && (sign * u <=? int64_max) = true).
  { apply andb_true_iff. split; apply Z.leb_le; lia. }
  rewrite Hb. reflexivity.
Qed.

(** [fmt.Sscanf] with "%d" reads back what "%d" printed, for every int64. *)
Lemma Sscanf_fmtInteger (v : Z) :
  in_int64 v -> Sscanf_d (fmtInteger v) = inr v.
Proof.
  unfold in_int64, fmtInteger. intros Hv.
  assert (Hmin : int64_min = - 2 ^ 63) by reflexivity.
  assert (Hmax : int64_max = 2 ^ 63 - 1) by reflexivity.
  destruct (v <? 0) eqn:Hneg.
  - apply Z.ltb_lt in Hneg.
    destruct (fmt_digits_head 19 (- v) EmptyString ltac:(lia)
                ltac:(intros ? ? [=])) as (c & t & Heq & Hc).
    rewrite Heq, Sscanf_d_at_minus, <- Heq.
    rewrite scanned_fmt_digits by lia.
    f_equal. ring.
  - apply Z.ltb_ge in Hneg.
    destruct (fmt_digits_head 19 v EmptyString ltac:(lia)
                ltac:(intros ? ? [=])) as (c & t & Heq & Hc).
    rewrite Heq, (Sscanf_d_at_digit c t Hc), <- Heq.
    rewrite scanned_fmt_digits by lia.
    f_equal. ring.
Qed.

(** What the scan returns when it fails: input that ends before the
    number starts gives [io.EOF], a line end before it is an unexpected
    newline, anything else that is no digit gives "expected integer", and a
    token outside int64 gives the error of [strconv.ParseInt], which quotes
    the token. *)
Lemma Sscanf_d_failures :
  Sscanf_d EmptyString = inl EOF
  /\ Sscanf_d "   " = inl EOF
  /\ Sscanf_d "-" = inl EOF
  /\ Error EOF = "EOF"
  /\ Sscanf_d newline = inl (errorString "unexpected newline")
  /\ Sscanf_d "abc" = inl (errorString "expected integer")
  /\ Sscanf_d "-x" = inl (errorString "expected integer")
  /\ Sscanf_d "9223372036854775808" = inl (rangeError "9223372036854775808")
  /\ Sscanf_d "-9223372036854775809" = inl (rangeError "-9223372036854775809")
  /\ Error (rangeError "9223372036854775808")
     = "strconv.ParseInt: parsing " ++ quote ++ "9223372036854775808" ++ quote
       ++ ": value out of range"
  /\ Unwrap (rangeError "9223372036854775808") = Some ErrRange.
Proof. repeat split; vm_compute; reflexivity. Qed.

(** ** URL extraction *)

Lemma strip_prefix_app (p : string) :
  forall s r, strip_prefix p s = Some r -> s = p ++ r.
Proof.
  induction p as [|a p IH]; intros s r H.
  - cbn in H. injection H as ->. reflexivity.
  - destruct s as [|b s]; cbn in H; [discriminate|].
    destruct (Ascii.eqb a b) eqn:Hab; [|discriminate].
    apply Ascii.eqb_eq in Hab. subst b.
    change (String a p ++ r) with (String a (p ++ r)).
    f_equal. apply IH. exact H.
Qed.

Lemma strip_prefix_substring (p : string) :
  forall s r n,
    strip_prefix p s = Some r ->
    strip_prefix p (substring 0 (String.length p + n) s)
    = Some (substring 0 n r).
Proof.
  induction p as [|a p IH]; intros s r n H.
  - cbn in H. injection H as ->. reflexivity.
  - destruct s as [|b s]; cbn in H; [discriminate|].
    destruct (Ascii.eqb a b) eqn:Hab; [|discriminate].
    cbn [String.length Nat.add substring strip_prefix]. rewrite Hab.
    apply IH. exact H.
Qed.

Lemma match_literal_prefix (lit s : string) (n : nat) :
  match_literal lit s = Some n ->
  exists r, strip_prefix lit (substring 0 n s) = Some r.
Proof.
  unfold match_literal. intros H.
  destruct (strip_prefix lit s) as [rest|] eqn:Hp; [|discriminate].
  destruct (class_run rest 0) as [|m]; [discriminate|].
  injection H as <-. eexists. apply strip_prefix_substring. exact Hp.
Qed.

(** A match starts with one of the two schemes. *)
Lemma match_here_scheme (s : string) (n : nat) :
  match_here s = Some n -> scheme_prefixed (substring 0 n s) = true.
Proof.
  unfold match_here. intros H.
  destruct (match_literal "https://" s) as [m|] eqn:Hs.
  - injection H as <-.
    destruct (match_literal_prefix _ _ _ Hs) as [r Hr].
    apply strip_prefix_app in Hr. rewrite Hr. reflexivity.
  - destruct (match_literal_prefix _ _ _ H) as [r Hr].
    unfold scheme_prefixed. rewrite Hr. reflexivity.
Qed.

Lemma match_here_needs_scheme (s : string) :
  scheme_prefixed s = false -> match_here s = None.
Proof.
  unfold scheme_prefixed, match_here, match_literal. intros H.
  destruct (strip_prefix "http://" s); [discriminate|].
  destruct (strip_prefix "https://" s); [discriminate|].
  reflexivity.
Qed.

Lemma find_all_scheme (s : string) :
  forall pending u rest,
    find_all s pending = u :: rest -> scheme_prefixed u = true.
Proof.
  induction s as [|a s IH]; intros pending u rest H; [discriminate|].
  cbn [find_all] in H. destruct pending as [|p].
  - destruct (match_here (String a s)) as [n|] eqn:Hm.
    + injection H as <- _.
      change (scheme_prefixed (substring 0 n (String a s)) = true).
      apply match_here_scheme. exact Hm.
    + eapply IH. exact H.
  - eapply IH. exact H.
Qed.

Lemma find_all_without_scheme (s : string) :
  forall pending, contains_scheme s = false -> find_all s pending = [].
Proof.
  induction s as [|a s IH]; intros pending H; [reflexivity|].
  cbn [contains_scheme] in H. apply orb_false_iff in H as [Hhere Hrest].
  cbn [find_all]. destruct pending as [|p].
  - rewrite (match_here_needs_scheme _ Hhere). apply IH. exact Hrest.
  - apply IH. exact Hrest.
Qed.

Lemma substring_drop (n : nat) :
  forall s, substring 0 n s ++ string_drop n s = s.
Proof.
  induction n as [|n IH]; intros [|c t]; try reflexivity.
  cbn [substring string_drop].
  change (String c (substring 0 n t) ++ string_drop n t)
    with (String c (substring 0 n t ++ string_drop n t)).
  rewrite IH. reflexivity.
Qed.

Lemma has_blank_app (a b : string) :
  has_blank (a ++ b) = has_blank a || has_blank b.
Proof.
  induction a as [|c a IH]; [reflexivity|].
  change (String c a ++ b) with (String c (a ++ b)).
  cbn [has_blank]. rewrite IH, orb_assoc. reflexivity.
Qed.

Lemma byte_in_high (lo hi : Z) (c : ascii) :
  128 <= lo -> byte_in lo hi c = true -> 128 <= byte_val c.
Proof.
  unfold byte_in. intros Hlo H. apply andb_true_iff in H as [H _].
  apply Z.leb_le in H. lia.
Qed.

(** The bytes of a rune after its first are continuation bytes; an ASCII
    byte is its own rune. *)
Lemma decode_width (c0 : ascii) (t : string) (r : Z) (w : nat) :
  DecodeRuneInString (String c0 t) = (r, w) ->
  high_prefix (Nat.pred w) t /\ (byte_val c0 < 128 -> r = byte_val c0).
Proof.
  unfold DecodeRuneInString.
  destruct (byte_val c0 <? 128) eqn:H0.
  { intros [= <- <-]. split; [exact I|reflexivity]. }
  apply Z.ltb_ge in H0.
  assert (Hr : byte_val c0 < 128 -> r = byte_val c0) by lia.
  destruct (byte_val c0 <? 194); [intros [= <- <-]; split; [exact I|exact Hr]|].
  destruct (byte_val c0 <? 224).
  { destruct t as [|c1 t1]; [intros [= <- <-]; split; [exact I|exact Hr]|].
    destruct (byte_in 128 191 c1) eqn:H1; intros [= <- <-];
      (split; [|exact Hr]); cbn; auto.
    split; [|exact I]. eapply byte_in_high; [|exact H1]. lia. }
  destruct (byte_val c0 <? 240).
  { destruct t as [|c1 [|c2 t2]];
      try (intros [= <- <-]; split; [exact I|exact Hr]).
    destruct (byte_in (if byte_val c0 =? 224 then 160 else 128)
                (if byte_val c0 =? 237 then 159 else 191) c1) eqn:H1;
      destruct (byte_in 128 191 c2) eqn:H2; cbn [andb];
      intros [= <- <-]; (split; [|exact Hr]); cbn; auto.
    repeat split.
    - eapply byte_in_high; [|exact H1]. destruct (byte_val c0 =? 224); lia.
    - eapply byte_in_high; [|exact H2]. lia. }
  destruct (byte_val c0 <? 245).
  { destruct t as [|c1 [|c2 [|c3 t3]]];
      try (intros [= <- <-]; split; [exact I|exact Hr]).
    destruct (byte_in (if byte_val c0 =? 240 then 144 else 128)
                (if byte_val c0 =? 244 then 143 else 191) c1) eqn:H1;
      destruct (byte_in 128 191 c2) eqn:H2;
      destruct (byte_in 128 191 c3) eqn:H3; cbn [andb];
      intros [= <- <-]; (split; [|exact Hr]); cbn; auto.
    repeat split.
    - eapply byte_in_high; [|exact H1]. destruct (byte_val c0 =? 240); lia.
    - eapply byte_in_high; [|exact H2]. lia.
    - eapply byte_in_high; [|exact H3]. lia. }
  intros [= <- <-]. split; [exact I|exact Hr].
Qed.

Lemma high_byte_not_blank (c : ascii) :
  128 <= byte_val c -> is_re_space (byte_val c) = false.
Proof.
  intros H. unfold is_re_space.
  repeat (apply orb_false_iff; split); apply Z.eqb_neq; lia.
Qed.

Lemma class_byte_not_blank (r : Z) :
  url_class r = true -> is_re_space r = false.
Proof.
  unfold url_class. intros H. apply negb_true_iff, orb_false_iff in H.
  exact (proj1 H).
Qed.

(** The greedy run holds no blank byte. *)
Lemma class_run_no_blank (s : string) :
  forall pending,
    high_prefix pending s ->
    has_blank (substring 0 (class_run s pending) s) = false.
Proof.
  induction s as [|c t IH]; intros pending Hhigh; [destruct pending; reflexivity|].
  cbn [class_run]. destruct pending as [|p].
  - destruct (DecodeRuneInString (String c t)) as [r w] eqn:Hdec.
    destruct (decode_width c t r w Hdec) as [Hcont Hascii].
    destruct (url_class r) eqn:Hclass; [|reflexivity].
    cbn [substring has_blank]. rewrite (IH _ Hcont), orb_false_r.
    destruct (Z.lt_ge_cases (byte_val c) 128) as [Hlt|Hge].
    + rewrite <- (Hascii Hlt). apply class_byte_not_blank. exact Hclass.
    + apply high_byte_not_blank. exact Hge.
  - cbn [high_prefix] in Hhigh. destruct Hhigh as [Hc Hrest].
    cbn [substring has_blank]. rewrite (IH _ Hrest), orb_false_r.
    apply high_byte_not_blank. exact Hc.
Qed.

(** The greedy run stops at the end of the text or before a rune that is
    not in the class. *)
Lemma class_run_ends (s : string) :
  forall pending, ends_match (string_drop (class_run s pending) s).
Proof.
  induction s as [|c t IH]; intros pending; [left; destruct pending; reflexivity|].
  cbn [class_run]. destruct pending as [|p].
  - destruct (DecodeRuneInString (String c t)) as [r w] eqn:Hdec.
    destruct (url_class r) eqn:Hclass.
    + cbn [string_drop]. apply IH.
    + right. cbn [string_drop]. rewrite Hdec. exact Hclass.
  - cbn [string_drop]. apply IH.
Qed.

Lemma strip_prefix_drop (p : string) :
  forall s r n,
    strip_prefix p s = Some r ->
    string_drop (String.length p + n) s = string_drop n r.
Proof.
  induction p as [|a p IH]; intros s r n H.
  - cbn in H. injection H as ->. reflexivity.
  - destruct s as [|b s]; cbn in H; [discriminate|].
    destruct (Ascii.eqb a b); [|discriminate].
    cbn [String.length Nat.add string_drop]. apply IH. exact H.
Qed.

Lemma match_literal_shape (lit s : string) (n : nat) :
  has_blank lit = false ->
  match_literal lit s = Some n ->
  (String.length lit < n)%nat
  /\ has_blank (substring 0 n s) = false
  /\ ends_match (string_drop n s).
Proof.
  unfold match_literal. intros Hlit H.
  destruct (strip_prefix lit s) as [rest|] eqn:Hp; [|discriminate].
  destruct (class_run rest 0) as [|m] eqn:Hrun; [discriminate|].
  injection H as <-. split; [lia|]. split.
  - pose proof (strip_prefix_substring lit s rest (S m) Hp) as Hsub.
    apply strip_prefix_app in Hsub. rewrite Hsub, has_blank_app, Hlit.
    rewrite <- Hrun. apply class_run_no_blank. exact I.
  - rewrite (strip_prefix_drop lit s rest (S m) Hp), <- Hrun.
    apply class_run_ends.
Qed.

Lemma match_here_shape (s : string) (n : nat) :
  match_here s = Some n ->
  (7 < n)%nat
  /\ scheme_prefixed (substring 0 n s) = true
  /\ has_blank (substring 0 n s) = false
  /\ ends_match (string_drop n s).
Proof.
  intros H. pose proof (match_here_scheme s n H) as Hscheme.
  unfold match_here in H.
  destruct (match_literal "https://" s) as [m|] eqn:Hs.
  - injection H as <-.
    destruct (match_literal_shape "https://" s m eq_refl Hs) as (Hlen & Hb & He).
    cbn [String.length] in Hlen. repeat split; try assumption. lia.
  - destruct (match_literal_shape "http://" s n eq_refl H) as (Hlen & Hb & He).
    cbn [String.length] in Hlen. repeat split; assumption.
Qed.

Lemma find_all_shape (s : string) :
  forall pending u,
    In u (find_all s pending) ->
    exists pre post,
      s = pre ++ u ++ post
      /\ scheme_prefixed u = true
      /\ has_blank u = false
      /\ ends_match post.
Proof.
  induction s as [|a s IH]; intros pending u Hin; [destruct Hin|].
  cbn [find_all] in Hin.
  assert (Hlater : forall p, In u (find_all s p) ->
                     exists pre post,
                       String a s = pre ++ u ++ post
                       /\ scheme_prefixed u = true
                       /\ has_blank u = false
                       /\ ends_match post).
  { intros p Hp. destruct (IH p u Hp) as (pre & post & Heq & Hrest).
    exists (String a pre), post. split; [|exact Hrest].
    change (String a pre ++ u ++ post) with (String a (pre ++ u ++ post)).
    rewrite <- Heq. reflexivity. }
  destruct pending as [|p]; [|eapply Hlater; exact Hin].
  destruct (match_here (String a s)) as [n|] eqn:Hm; [|eapply Hlater; exact Hin].
  destruct Hin as [<-|Hin]; [|eapply Hlater; exact Hin].
  destruct (match_here_shape _ _ Hm) as (_ & Hscheme & Hblank & Hend).
  exists EmptyString, (string_drop n (String a s)).
  split; [|repeat split; assumption].
  change (EmptyString ++ substring 0 n (String a s) ++ string_drop n (String a s))
    with (substring 0 n (String a s) ++ string_drop n (String a s)).
  symmetry. apply substring_drop.
Qed.








(** C3, counterexample.  On the specification's sample text the extractor
    does not return the two URLs: the ASCII comma is part of the match. *)
Lemma extractUrls_sample_is_not_split :
  HttpVariant.extractUrls example_text
  <> ["https://example.com/a"; "https://example.com/b"].
Proof. vm_compute. discriminate. Qed.

(** C3, amended.  For the sample text the extractor returns exactly the
    one-element sequence whose element runs across the ASCII comma to the
    next blank; with the full-width comma in its place it returns the two
    URLs in order.  Both variants that extract URLs agree. *)
Theorem extractUrls_sample :
  HttpVariant.extractUrls example_text
  = ["https://example.com/a,https://example.com/b"]
  /\ CmdVariant.extractUrls example_text
     = ["https://example.com/a,https://example.com/b"]
  /\ HttpVariant.extractUrls example_text_fullwidth
     = ["https://example.com/a"; "https://example.com/b"]
  /\ url_class 44 = true
  /\ url_class fullwidth_comma = false
  /\ url_class 32 = false.
Proof. repeat split; vm_compute; reflexivity. Qed.

(** ** src/main.go: [getUrl] and the nil message *)




(** C9.  In [src/main.go] an update without a message makes the loop body
    panic on the nil dereference, before any download or notification and
    without a new checkpoint, and the rest of the batch is not processed;
    the HTTP variant on the same update returns and advances. *)
Theorem nil_message_panics :
  forall (E : Env) (id c : Z) (rest : list Update) (w : World),
    MainGo.process_update E (mkUpdate id None) c w
    = (Panic "runtime error: invalid memory address or nil pointer dereference", w)
    /\ MainGo.process_updates E (mkUpdate id None :: rest) c w
       = (Panic "runtime error: invalid memory address or nil pointer dereference", w)
    /\ HttpVariant.process_update E (mkUpdate id None) c w
       = (Return (advance (mkUpdate id None) c), w).
Proof.
  intros E id c rest w. repeat split; reflexivity.
Qed.

(** ** The command variant: download and retry *)

(** One call of [download]: the proxy is read; if it is set, the command
    runs once.  The result is [attempt_error] at the number of commands run
    before. *)
Lemma download_run (E : Env) (url : string) (w : World) :
  CmdVariant.download E url w
  = (Return (attempt_error E (execs w) url),
     if is_empty (getenv E "HTTP_PROXY")
     then record (EvGetenv "HTTP_PROXY") w
     else mkWorld
            (trace w ++ [EvGetenv "HTTP_PROXY";
                         EvExec "gallery-dl" ["--proxy"; getenv E "HTTP_PROXY"; url]])
            (file w) (gets w) (posts w) (backends w) (S (execs w)) (writes w)).
Proof.
  destruct w as [tr f g p b x wr]. unfold attempt_error. cbn.
  destruct (is_empty (getenv E "HTTP_PROXY")); cbn; [reflexivity|].
  rewrite <- app_assoc.
  destruct (exec_run E x _ _); reflexivity.
Qed.

Ltac run_attempt Hp Hx :=
  cbn; rewrite ?Hp; cbn; rewrite ?Hx; cbn.

Ltac close_trace :=
  split; [cbn [trace]; rewrite <- ?app_assoc; reflexivity | reflexivity].

Ltac close_run :=
  eexists _, _; split; [reflexivity|]; close_trace.

Ltac close_failed_run :=
  eexists _, _, _; do 3 (split; [reflexivity|]); close_trace.

(** C1.  When every call of [download] for the URL fails,
    [runDownloadWithRetry] makes exactly three attempts, sends a retry
    notification and sleeps 5 seconds after the first and after the
    second, does neither after the third, and returns an error that wraps
    the error of the third attempt under a message naming 3 attempts. *)
Theorem retry_all_attempts_fail :
  forall (E : Env) (url : string) (chatID : Z) (w : World),
    (forall w0, fst (CmdVariant.download E url w0) <> Return None) ->
    exists e1 e2 e3,
      attempt_error E (execs w) url = Some e1
      /\ attempt_error E (S (execs w)) url = Some e2
      /\ attempt_error E (S (S (execs w))) url = Some e3
      /\ exists err w' evs,
           CmdVariant.runDownloadWithRetry E url chatID w = (Return (Some err), w')
           /\ Unwrap err = Some e3
           /\ Error err = "下载最终失败, 经过 3 次尝试: " ++ Error e3
           /\ trace w' = (trace w ++ evs)%list
           /\ protocol evs =
                [ Attempt;
                  Notify chatID ("下载失败 (第 1 次尝试，重试中...): " ++ newline
                                 ++ "URL: " ++ url ++ newline ++ "错误: " ++ Error e1);
                  Wait 5;
                  Attempt;
                  Notify chatID ("下载失败 (第 2 次尝试，重试中...): " ++ newline
                                 ++ "URL: " ++ url ++ newline ++ "错误: " ++ Error e2);
                  Wait 5;
                  Attempt ].
Proof.
  intros E url chatID w Hdownload.
  assert (Hfail : forall k, attempt_error E k url <> None).
  { intros k Hk. apply (Hdownload (mkWorld [] NoFile 0 0 0 k 0)).
    rewrite download_run. cbn [fst execs]. rewrite Hk. reflexivity. }
  destruct w as [tr f g p b x wr]. cbn [execs].
  pose proof (Hfail x) as H1. pose proof (Hfail (S x)) as H2.
  pose proof (Hfail (S (S x))) as H3.
  unfold attempt_error in *.
  unfold CmdVariant.runDownloadWithRetry.
  change (Z.to_nat CmdVariant.maxRetries) with 3%nat.
  destruct (is_empty (getenv E "HTTP_PROXY")) eqn:Hp.
  - eexists _, _, _. repeat (split; [reflexivity|]).
    run_attempt Hp Hp.
    destruct (http_post E p _ _ _); run_attempt Hp Hp;
      destruct (http_post E (S p) _ _ _); run_attempt Hp Hp; close_failed_run.
  - destruct (exec_run E x _ _) as [x1|] eqn:Hx1; [|contradiction].
    destruct (exec_run E (S x) _ _) as [x2|] eqn:Hx2; [|contradiction].
    destruct (exec_run E (S (S x)) _ _) as [x3|] eqn:Hx3; [|contradiction].
    eexists _, _, _. repeat (split; [reflexivity|]).
    run_attempt Hp Hx1.
    destruct (http_post E p _ _ _); run_attempt Hp Hx2;
      destruct (http_post E (S p) _ _ _); run_attempt Hp Hx3; close_failed_run.
Qed.

Lemma retry_all_attempts_fail_witness :
  (forall w0, fst (CmdVariant.download
                     (sample_env "socks5://proxy" always_failing 200 [])
                     "https://example.com/a" w0) <> Return None)
  /\ exists e1 e2 e3,
       attempt_error (sample_env "socks5://proxy" always_failing 200 [])
         (execs (world0 NoFile)) "https://example.com/a" = Some e1
       /\ attempt_error (sample_env "socks5://proxy" always_failing 200 [])
            (S (execs (world0 NoFile))) "https://example.com/a" = Some e2
       /\ attempt_error (sample_env "socks5://proxy" always_failing 200 [])
            (S (S (execs (world0 NoFile)))) "https://example.com/a" = Some e3
       /\ exists err w' evs,
            CmdVariant.runDownloadWithRetry
              (sample_env "socks5://proxy" always_failing 200 [])
              "https://example.com/a" 7 (world0 NoFile)
            = (Return (Some err), w')
            /\ Unwrap err = Some e3
            /\ Error err = "下载最终失败, 经过 3 次尝试: " ++ Error e3
            /\ trace w' = (trace (world0 NoFile) ++ evs)%list
            /\ protocol evs =
                 [ Attempt;
                   Notify 7 ("下载失败 (第 1 次尝试，重试中...): " ++ newline
                             ++ "URL: " ++ "https://example.com/a" ++ newline
                             ++ "错误: " ++ Error e1);
                   Wait 5;
                   Attempt;
                   Notify 7 ("下载失败 (第 2 次尝试，重试中...): " ++ newline
                             ++ "URL: " ++ "https://example.com/a" ++ newline
                             ++ "错误: " ++ Error e2);
                   Wait 5;
                   Attempt ].
Proof.
  assert (H : forall w0, fst (CmdVariant.download
                                (sample_env "socks5://proxy" always_failing 200 [])
                                "https://example.com/a" w0) <> Return None)
    by (intros w0; rewrite download_run; discriminate).
  split; [exact H|].
  exact (retry_all_attempts_fail
           (sample_env "socks5://proxy" always_failing 200 [])
           "https://example.com/a" 7 (world0 NoFile) H).
Defined.

(** C5.  When the first attempt fails and the second succeeds,
    [runDownloadWithRetry] makes exactly two attempts and returns nil; it
    sends one retry notification for attempt 1, sleeps once, and sends one
    success notification tagged with attempt 2; nothing follows. *)
Theorem retry_then_success :
  forall (E : Env) (url : string) (chatID : Z) (w : World) (e1 : goerror),
    attempt_error E (execs w) url = Some e1 ->
    attempt_error E (S (execs w)) url = None ->
    exists w' evs,
      CmdVariant.runDownloadWithRetry E url chatID w = (Return None, w')
      /\ trace w' = (trace w ++ evs)%list
      /\ protocol evs =
           [ Attempt;
             Notify chatID ("下载失败 (第 1 次尝试，重试中...): " ++ newline
                            ++ "URL: " ++ url ++ newline ++ "错误: " ++ Error e1);
             Wait 5;
             Attempt;
             Notify chatID ("下载成功 (第 2 次尝试): " ++ newline ++ "URL: " ++ url) ].
Proof.
  intros E url chatID w e1 H1 H2.
  unfold attempt_error in H1, H2.
  destruct (is_empty (getenv E "HTTP_PROXY")) eqn:Hp; [discriminate|].
  destruct w as [tr f g p b x wr]. cbn [execs] in *.
  destruct (exec_run E x _ _) as [x1|] eqn:Hx1; [|discriminate].
  destruct (exec_run E (S x) _ _) as [x2|] eqn:Hx2; [discriminate|].
  injection H1 as <-.
  unfold CmdVariant.runDownloadWithRetry.
  change (Z.to_nat CmdVariant.maxRetries) with 3%nat.
  run_attempt Hp Hx1.
  destruct (http_post E p _ _ _); run_attempt Hp Hx2;
    destruct (http_post E (S p) _ _ _); cbn; close_run.
Qed.

Lemma retry_then_success_witness :
  attempt_error (sample_env "socks5://proxy" failing_once 200 [])
    (execs (world0 NoFile)) "https://example.com/a"
  = Some (errorString "failed to run gallery-dl: exit status 1")
  /\ attempt_error (sample_env "socks5://proxy" failing_once 200 [])
       (S (execs (world0 NoFile))) "https://example.com/a" = None
  /\ exists w' evs,
       CmdVariant.runDownloadWithRetry
         (sample_env "socks5://proxy" failing_once 200 [])
         "https://example.com/a" 7 (world0 NoFile) = (Return None, w')
       /\ trace w' = (trace (world0 NoFile) ++ evs)%list
       /\ protocol evs =
            [ Attempt;
              Notify 7 ("下载失败 (第 1 次尝试，重试中...): " ++ newline
                        ++ "URL: " ++ "https://example.com/a" ++ newline ++ "错误: "
                        ++ Error (errorString "failed to run gallery-dl: exit status 1"));
              Wait 5;
              Attempt;
              Notify 7 ("下载成功 (第 2 次尝试): " ++ newline ++ "URL: "
                        ++ "https://example.com/a") ].
Proof.
  assert (H1 : attempt_error (sample_env "socks5://proxy" failing_once 200 [])
                 (execs (world0 NoFile)) "https://example.com/a"
               = Some (errorString "failed to run gallery-dl: exit status 1"))
    by reflexivity.
  assert (H2 : attempt_error (sample_env "socks5://proxy" failing_once 200 [])
                 (S (execs (world0 NoFile))) "https://example.com/a" = None)
    by reflexivity.
  split; [exact H1|]. split; [exact H2|].
  exact (retry_then_success (sample_env "socks5://proxy" failing_once 200 [])
           "https://example.com/a" 7 (world0 NoFile) _ H1 H2).
Defined.

(** ** Configuration *)

(** C8, counterexample.  With token and backend URL set and [HTTP_PROXY]
    unset, the command variant is not stopped at startup: it polls, and the
    proxy is looked up inside [download], once for each of the three
    attempts at the URL of the fetched message; the round ends normally
    with checkpoint 7. *)
Lemma proxy_is_checked_inside_download :
  is_empty (getenv no_proxy_env "HTTP_PROXY") = true
  /\ fst (CmdVariant.main no_proxy_env 1 (world0 NoFile)) = Return 7
  /\ filter is_poll_or_getenv
       (trace (snd (CmdVariant.main no_proxy_env 1 (world0 NoFile))))
     = [ EvHttpGet "https://api.telegram.org/botTOKEN/getUpdates?offset=1&timeout=30";
         EvGetenv "HTTP_PROXY"; EvGetenv "HTTP_PROXY"; EvGetenv "HTTP_PROXY" ].
Proof. repeat split; vm_compute; reflexivity. Qed.

(** C8, amended.  The bot token and the backend URL are checked once, at
    the start of [main], in the HTTP variant and in the command variant: if
    either is empty the process logs and exits with status 1 before
    anything else.  The proxy URL of the command variant is not part of
    that check: startup is the same whatever [HTTP_PROXY] holds, and
    [download] reads it on each call, an empty value making that attempt
    fail with an ordinary error before the command is run. *)
Theorem startup_checks_token_and_backend :
  forall (E : Env),
    (is_empty (telegramBotToken E) || is_empty (backendURL E) = true ->
     forall n w,
       CmdVariant.main E n w
       = (Exit 1, record (EvLog "TELEGRAM_BOT_TOKEN or BACKEND_URL environment variable is not set.") w)
       /\ HttpVariant.main E n w
          = (Exit 1, record (EvLog "TELEGRAM_BOT_TOKEN or BACKEND_URL environment variable is not set.") w))
    /\ (forall E' w,
          telegramBotToken E' = telegramBotToken E ->
          backendURL E' = backendURL E ->
          CmdVariant.main_startup E' w = CmdVariant.main_startup E w)
    /\ (is_empty (getenv E "HTTP_PROXY") = true ->
        forall url w,
          CmdVariant.download E url w
          = (Return (Some (errorString "HTTP_PROXY environment variable is not set")),
             record (EvGetenv "HTTP_PROXY") w)).
Proof.
  intros E. split; [|split].
  - intros Hmissing n w.
    unfold CmdVariant.main, CmdVariant.main_startup,
      HttpVariant.main, HttpVariant.main_startup.
    cbn. rewrite Hmissing. cbn. split; reflexivity.
  - intros E' w Htok Hback. unfold CmdVariant.main_startup.
    rewrite Htok, Hback. reflexivity.
  - intros Hproxy url w. rewrite download_run.
    unfold attempt_error. rewrite Hproxy. reflexivity.
Qed.

Lemma startup_checks_token_and_backend_witness :
  is_empty (getenv no_proxy_env "HTTP_PROXY") = true
  /\ CmdVariant.download no_proxy_env "https://example.com/a" (world0 NoFile)
     = (Return (Some (errorString "HTTP_PROXY environment variable is not set")),
        record (EvGetenv "HTTP_PROXY") (world0 NoFile)).
Proof.
  assert (H : is_empty (getenv no_proxy_env "HTTP_PROXY") = true) by reflexivity.
  split; [exact H|].
  exact (proj2 (proj2 (startup_checks_token_and_backend no_proxy_env)) H
           "https://example.com/a" (world0 NoFile)).
Defined.

(** ** The main loop: the checkpoint follows the ids *)

Section Totality.

Context {A B : Type}.

Lemma total_ret (a : A) : total (ret a).
Proof. intros w. exists a, w. reflexivity. Qed.

Lemma total_bind (m : M A) (k : A -> M B) :
  total m -> (forall a, total (k a)) -> total (bind m k).
Proof.
  intros Hm Hk w. destruct (Hm w) as (a & w1 & Ha).
  destruct (Hk a w1) as (b & w2 & Hb).
  exists b, w2. cbn. rewrite Ha. exact Hb.
Qed.

Lemma yields_ret (a : A) : yields (ret a) a.
Proof. intros w. exists w. reflexivity. Qed.

Lemma yields_bind (m : M A) (k : A -> M B) (b : B) :
  total m -> (forall a, yields (k a) b) -> yields (bind m k) b.
Proof.
  intros Hm Hk w. destruct (Hm w) as (a & w1 & Ha).
  destruct (Hk a w1) as (w2 & Hb).
  exists w2. cbn. rewrite Ha. exact Hb.
Qed.

End Totality.

Lemma bind_run {A B : Type} (m : M A) (k : A -> M B) (w w1 : World) (a : A) :
  m w = (Return a, w1) -> bind m k w = k a w1.
Proof. intros H. cbn. rewrite H. reflexivity. Qed.

Lemma bind_assoc_run {A B C : Type} (m : M A) (f : A -> M B) (k : B -> M C)
  (w : World) :
  bind (bind m f) k w = bind m (fun a => bind (f a) k) w.
Proof. cbn. destruct (m w) as [[a|code|msg] w1]; reflexivity. Qed.

Lemma total_emit (e : Event) : total (emit e).
Proof. intros w. eexists _, _. reflexivity. Qed.

Lemma sendMessage_total (E : Env) (chatID : Z) (text : string) :
  total (sendMessage E chatID text).
Proof.
  intros w. cbn.
  destruct (http_post E (posts w) (sendMessageURL E) chatID text);
    cbn; eexists _, _; reflexivity.
Qed.

Lemma Cmd_download_total (E : Env) (url : string) :
  total (CmdVariant.download E url).
Proof. intros w. rewrite download_run. eexists _, _. reflexivity. Qed.

Lemma Http_download_total (E : Env) (url : string) :
  total (HttpVariant.download E url).
Proof.
  intros w. cbn.
  destruct (new_request E (backendURL E)) as [err|]; cbn;
    [eexists _, _; reflexivity|].
  destruct (backend_do E (backends w) (backendURL E) _) as [err|err|status body];
    cbn; try (eexists _, _; reflexivity).
  destruct (negb (status =? 200)); cbn; eexists _, _; reflexivity.
Qed.

Ltac total_step :=
  first
    [ apply total_ret
    | apply total_emit
    | apply sendMessage_total
    | apply Cmd_download_total
    | apply Http_download_total
    | apply total_bind; [|intros ?] ].

Lemma attempts_total (E : Env) (url : string) (chatID : Z) (remaining : nat) :
  forall i lastErr, total (CmdVariant.attempts E remaining i lastErr url chatID).
Proof.
  induction remaining as [|remaining IH]; intros i lastErr;
    cbn [CmdVariant.attempts]; [apply total_ret|].
  apply total_bind; [apply total_emit|intros _].
  apply total_bind; [apply Cmd_download_total|intros [e|]].
  - apply total_bind; [apply total_emit|intros _].
    apply total_bind; [|intros _; apply IH].
    destruct (i <? CmdVariant.maxRetries - 1); repeat total_step.
  - repeat total_step.
Qed.

Lemma Cmd_download_each_total (E : Env) (chatID : Z) (urls : list string) :
  total (CmdVariant.download_each E urls chatID).
Proof.
  induction urls as [|url urls IH]; cbn [CmdVariant.download_each];
    [apply total_ret|].
  apply total_bind; [apply attempts_total|intros [e|]];
    (apply total_bind; [repeat total_step|intros _; exact IH]).
Qed.

Lemma Http_download_each_total (E : Env) (chatID : Z) (urls : list string) :
  total (HttpVariant.download_each E urls chatID).
Proof.
  induction urls as [|url urls IH]; cbn [HttpVariant.download_each];
    [apply total_ret|].
  apply total_bind; [apply total_emit|intros _].
  apply total_bind; [apply Http_download_total|intros [e|]];
    (apply total_bind; [apply sendMessage_total|intros _; exact IH]).
Qed.

(** The loop body returns, and what it returns is [advance]: no outcome of
    a download or of a notification enters the new checkpoint. *)
Lemma Cmd_process_update_yields (E : Env) (update : Update) (c : Z) :
  yields (CmdVariant.process_update E update c) (advance update c).
Proof.
  unfold CmdVariant.process_update.
  apply yields_bind; [|intros _; apply yields_ret].
  destruct (Msg update) as [m|]; [|apply total_ret].
  apply total_bind; [apply total_emit|intros _].
  apply total_bind; [|intros _; apply Cmd_download_each_total].
  destruct (len (CmdVariant.extractUrls (Text m)) =? 0); repeat total_step.
Qed.

Lemma Http_process_update_yields (E : Env) (update : Update) (c : Z) :
  yields (HttpVariant.process_update E update c) (advance update c).
Proof.
  unfold HttpVariant.process_update.
  apply yields_bind; [|intros _; apply yields_ret].
  destruct (Msg update) as [m|]; [|apply total_ret].
  apply total_bind; [apply total_emit|intros _].
  apply total_bind; [|intros _; apply Http_download_each_total].
  destruct (len (HttpVariant.extractUrls (Text m)) =? 0); repeat total_step.
Qed.

Lemma Cmd_process_updates_yields (E : Env) (updates : list Update) :
  forall c, yields (CmdVariant.process_updates E updates c)
              (checkpoint_after updates c).
Proof.
  induction updates as [|update updates IH]; intros c w;
    cbn [CmdVariant.process_updates checkpoint_after fold_left].
  - exists w. reflexivity.
  - destruct (Cmd_process_update_yields E update c w) as (w1 & H1).
    destruct (IH (advance update c) w1) as (w2 & H2).
    exists w2. cbn. rewrite H1. exact H2.
Qed.

Lemma Http_process_updates_yields (E : Env) (updates : list Update) :
  forall c, yields (HttpVariant.process_updates E updates c)
              (checkpoint_after updates c).
Proof.
  induction updates as [|update updates IH]; intros c w;
    cbn [HttpVariant.process_updates checkpoint_after fold_left].
  - exists w. reflexivity.
  - destruct (Http_process_update_yields E update c w) as (w1 & H1).
    destruct (IH (advance update c) w1) as (w2 & H2).
    exists w2. cbn. rewrite H1. exact H2.
Qed.

Lemma advance_max (update : Update) (c : Z) :
  advance update c = Z.max c (UpdateID update).
Proof.
  unfold advance. destruct (UpdateID update >? c) eqn:H.
  - apply Z.gtb_lt in H. lia.
  - rewrite Z.gtb_ltb in H. apply Z.ltb_ge in H. lia.
Qed.

Lemma checkpoint_after_max (updates : list Update) :
  forall c, checkpoint_after updates c = fold_left Z.max (map UpdateID updates) c.
Proof.
  unfold checkpoint_after.
  induction updates as [|update updates IH]; intros c; [reflexivity|].
  cbn [fold_left map]. rewrite advance_max. apply IH.
Qed.

Lemma fold_max_bounds (ids : list Z) :
  forall c,
    c <= fold_left Z.max ids c
    /\ Forall (fun id => id <= fold_left Z.max ids c) ids
    /\ (fold_left Z.max ids c = c \/ In (fold_left Z.max ids c) ids).
Proof.
  induction ids as [|id ids IH]; intros c; cbn [fold_left].
  - split; [lia|]. split; [constructor|]. left. reflexivity.
  - destruct (IH (Z.max c id)) as (Hle & Hall & Hin).
    split; [lia|]. split.
    + constructor; [lia|exact Hall].
    + destruct Hin as [Heq|Hin]; [|right; right; exact Hin].
      destruct (Z.max_spec c id) as [[_ Hm]|[_ Hm]]; rewrite Hm in *.
      * right. left. symmetry. exact Heq.
      * left. exact Heq.
Qed.

(** ** The checkpoint file is written by the save alone *)

Lemma keeps_ret {A : Type} (a : A) : keeps_file (ret a).
Proof. intros w. split; reflexivity. Qed.

Lemma keeps_bind {A B : Type} (m : M A) (k : A -> M B) :
  keeps_file m -> (forall a, keeps_file (k a)) -> keeps_file (bind m k).
Proof.
  intros Hm Hk w. destruct (Hm w) as [Hf Hw]. cbn.
  destruct (m w) as [[a|code|msg] w1]; cbn [snd] in *.
  - destruct (Hk a w1) as [Hf2 Hw2]. split; congruence.
  - split; assumption.
  - split; assumption.
Qed.

Lemma keeps_emit (e : Event) : keeps_file (emit e).
Proof. intros w. split; reflexivity. Qed.

Lemma keeps_osGetenv (E : Env) (name : string) : keeps_file (osGetenv E name).
Proof. intros w. split; reflexivity. Qed.

Lemma keeps_httpPostMessage (E : Env) (url : string) (chatID : Z) (text : string) :
  keeps_file (httpPostMessage E url chatID text).
Proof. intros w. split; reflexivity. Qed.

Lemma keeps_clientDo (E : Env) (url payload : string) :
  keeps_file (clientDo E url payload).
Proof. intros w. split; reflexivity. Qed.

Lemma keeps_cmdRun (E : Env) (name : string) (args : list string) :
  keeps_file (cmdRun E name args).
Proof. intros w. split; reflexivity. Qed.

Ltac keeps_step :=
  first
    [ apply keeps_ret
    | apply keeps_emit
    | apply keeps_osGetenv
    | apply keeps_httpPostMessage
    | apply keeps_clientDo
    | apply keeps_cmdRun
    | apply keeps_bind; [|intros ?]
    | match goal with
      | |- keeps_file (match ?x with _ => _ end) => destruct x
      end ].

Lemma keeps_sendMessage (E : Env) (chatID : Z) (text : string) :
  keeps_file (sendMessage E chatID text).
Proof. unfold sendMessage, logPrintf. repeat keeps_step. Qed.

Lemma keeps_Cmd_download (E : Env) (url : string) :
  keeps_file (CmdVariant.download E url).
Proof. unfold CmdVariant.download. repeat keeps_step. Qed.

Lemma keeps_Http_download (E : Env) (url : string) :
  keeps_file (HttpVariant.download E url).
Proof. unfold HttpVariant.download, logPrintf. repeat keeps_step. Qed.

Lemma keeps_attempts (E : Env) (url : string) (chatID : Z) (remaining : nat) :
  forall i lastErr,
    keeps_file (CmdVariant.attempts E remaining i lastErr url chatID).
Proof.
  induction remaining as [|remaining IH]; intros i lastErr;
    cbn [CmdVariant.attempts]; [apply keeps_ret|].
  apply keeps_bind; [apply keeps_emit|intros _].
  apply keeps_bind; [apply keeps_Cmd_download|intros [e|]].
  - apply keeps_bind; [apply keeps_emit|intros _].
    apply keeps_bind; [|intros _; apply IH].
    destruct (i <? CmdVariant.maxRetries - 1); [|apply keeps_ret].
    apply keeps_bind; [apply keeps_sendMessage|intros _; apply keeps_emit].
  - apply keeps_bind; [apply keeps_sendMessage|intros _; apply keeps_ret].
Qed.

Lemma keeps_Cmd_download_each (E : Env) (chatID : Z) (urls : list string) :
  keeps_file (CmdVariant.download_each E urls chatID).
Proof.
  induction urls as [|url urls IH]; cbn [CmdVariant.download_each];
    [apply keeps_ret|].
  apply keeps_bind; [apply keeps_attempts|intros [e|]];
    (apply keeps_bind; [|intros _; exact IH]).
  - apply keeps_bind; [apply keeps_sendMessage|intros _; apply keeps_ret].
  - apply keeps_ret.
Qed.

Lemma keeps_Http_download_each (E : Env) (chatID : Z) (urls : list string) :
  keeps_file (HttpVariant.download_each E urls chatID).
Proof.
  induction urls as [|url urls IH]; cbn [HttpVariant.download_each];
    [apply keeps_ret|].
  apply keeps_bind; [apply keeps_emit|intros _].
  apply keeps_bind; [apply keeps_Http_download|intros [e|]];
    (apply keeps_bind; [apply keeps_sendMessage|intros _; exact IH]).
Qed.

Lemma keeps_Cmd_process_updates (E : Env) (updates : list Update) :
  forall c, keeps_file (CmdVariant.process_updates E updates c).
Proof.
  induction updates as [|update updates IH]; intros c;
    cbn [CmdVariant.process_updates]; [apply keeps_ret|].
  apply keeps_bind; [|intros c'; apply IH].
  unfold CmdVariant.process_update.
  apply keeps_bind; [|intros _; apply keeps_ret].
  destruct (Msg update) as [m|]; [|apply keeps_ret].
  apply keeps_bind; [apply keeps_emit|intros _].
  apply keeps_bind; [|intros _; apply keeps_Cmd_download_each].
  destruct (len (CmdVariant.extractUrls (Text m)) =? 0).
  - apply keeps_bind; [apply keeps_emit|intros _; apply keeps_sendMessage].
  - apply keeps_sendMessage.
Qed.

Lemma keeps_Http_process_updates (E : Env) (updates : list Update) :
  forall c, keeps_file (HttpVariant.process_updates E updates c).
Proof.
  induction updates as [|update updates IH]; intros c;
    cbn [HttpVariant.process_updates]; [apply keeps_ret|].
  apply keeps_bind; [|intros c'; apply IH].
  unfold HttpVariant.process_update.
  apply keeps_bind; [|intros _; apply keeps_ret].
  destruct (Msg update) as [m|]; [|apply keeps_ret].
  apply keeps_bind; [apply keeps_emit|intros _].
  apply keeps_bind; [|intros _; apply keeps_Http_download_each].
  destruct (len (HttpVariant.extractUrls (Text m)) =? 0).
  - apply keeps_bind; [apply keeps_emit|intros _; apply keeps_sendMessage].
  - apply keeps_sendMessage.
Qed.

(** The tail of a round: save, report a failed save, sleep. *)
Lemma save_and_sleep (E : Env) (c : Z) (w : World) :
  exists w',
    (err <- saveLastUpdateID E c ;;
     match err with
     | Some e => logPrintf ("Failed to save last update ID: " ++ Error e)
     | None => ret tt
     end ;;
     fmtPrintln "go to sleep 2s" ;;
     Sleep 2 ;;
     ret c) w = (Return c, w')
    /\ persisted E c w w'.
Proof.
  unfold persisted. destruct w as [tr f g p b x wr]. cbn.
  destruct (write_file E wr lastUpdateIDFile (fmtInteger c)) as [[e remains]|];
    cbn; eexists; (split; [reflexivity|]); cbn;
    (split; [reflexivity|]); exists tr; rewrite <- !app_assoc;
    split; reflexivity.
Qed.

(** C2, counterexample.  The poll at checkpoint 6 brings update 7 and
    the checkpoint file cannot be written: the round ends with the
    checkpoint at 7 in memory while the file still holds 6, which is what a
    restart reads.  And a poll at checkpoint 42 that brings update 41 alone
    leaves the checkpoint at 42, which is not the largest id of the
    batch. *)
Lemma failed_save_is_not_persisted :
  (exists w' w'',
     HttpVariant.main_iteration readonly_env 6 (world0 (FileData "6"))
     = (Return 7, w')
     /\ file w' = FileData "6"
     /\ getLastUpdateID w' = (Return (6, None), w''))
  /\ (exists w' w'',
        CmdVariant.main_iteration readonly_env 6 (world0 (FileData "6"))
        = (Return 7, w')
        /\ file w' = FileData "6"
        /\ getLastUpdateID w' = (Return (6, None), w''))
  /\ (exists w',
        HttpVariant.main_iteration stale_env 42 (world0 (FileData "42"))
        = (Return 42, w')
        /\ map UpdateID stale_batch = [41]).
Proof.
  split; [|split].
  - eexists _, _. split; [vm_compute; reflexivity|].
    split; vm_compute; reflexivity.
  - eexists _, _. split; [vm_compute; reflexivity|].
    split; vm_compute; reflexivity.
  - eexists. split; [vm_compute; reflexivity|reflexivity].
Qed.

(** C2, amended.  When a poll returns the batch [updates], one round of
    the main loop (command variant and HTTP variant alike) ends normally
    with the checkpoint at the largest of the old checkpoint and the ids
    of the batch, whatever the downloads and notifications did, and the
    loop goes on from it.  The round writes the decimal text of exactly
    that value once: when the write succeeds the file holds it; when the
    write fails the failure is logged and the file is what the failed
    write left.  Every update of the batch, failed downloads or not, is
    at or below the new checkpoint; and when the batch holds an id that is
    not below the old checkpoint, the new checkpoint is the largest id of
    the batch. *)
Theorem checkpoint_advances_by_id_only :
  forall (E : Env) (c : Z) (updates : list Update) (body : string)
         (code : Z) (desc : string) (w : World),
    http_get E (gets w) (getUpdatesURL E c)
    = GetBody body (inr (mkResult true code desc updates)) ->
    (exists w',
       CmdVariant.main_iteration E c w
       = (Return (fold_left Z.max (map UpdateID updates) c), w')
       /\ persisted E (fold_left Z.max (map UpdateID updates) c) w w'
       /\ forall n,
            CmdVariant.main_loop E (S n) c w
            = CmdVariant.main_loop E n (fold_left Z.max (map UpdateID updates) c) w')
    /\ (exists w',
          HttpVariant.main_iteration E c w
          = (Return (fold_left Z.max (map UpdateID updates) c), w')
          /\ persisted E (fold_left Z.max (map UpdateID updates) c) w w'
          /\ forall n,
               HttpVariant.main_loop E (S n) c w
               = HttpVariant.main_loop E n (fold_left Z.max (map UpdateID updates) c) w')
    /\ (forall E' w0,
          exists w1 w2,
            CmdVariant.process_updates E' updates c w0
            = (Return (fold_left Z.max (map UpdateID updates) c), w1)
            /\ HttpVariant.process_updates E' updates c w0
               = (Return (fold_left Z.max (map UpdateID updates) c), w2))
    /\ c <= fold_left Z.max (map UpdateID updates) c
    /\ Forall (fun update => UpdateID update
                             <= fold_left Z.max (map UpdateID updates) c) updates
    /\ ((exists update, In update updates /\ c <= UpdateID update) ->
        In (fold_left Z.max (map UpdateID updates) c) (map UpdateID updates)).
Proof.
  intros E c updates body code desc w Hget.
  rewrite <- checkpoint_after_max.
  split; [|split; [|split; [|split; [|split]]]].
  - assert (Hround : exists w',
               CmdVariant.main_iteration E c w
               = (Return (checkpoint_after updates c), w')
               /\ persisted E (checkpoint_after updates c) w w').
    { unfold CmdVariant.main_iteration.
      destruct w as [tr f g p b x wr]. cbn [gets] in Hget.
      cbn. rewrite Hget. cbn.
      match goal with
      | |- context [CmdVariant.process_updates E updates c ?W] =>
          destruct (Cmd_process_updates_yields E updates c W) as (w1 & H1);
          destruct (keeps_Cmd_process_updates E updates c W) as [_ Hw]
      end.
      rewrite H1 in Hw |- *. cbn [snd writes] in Hw.
      destruct (save_and_sleep E (checkpoint_after updates c) w1)
        as (w' & Hrun & Hp).
      exists w'. split; [cbn in Hrun; exact Hrun|].
      unfold persisted in *. cbn [writes]. rewrite <- Hw. exact Hp. }
    destruct Hround as (w' & Hrun & Hp).
    exists w'. split; [exact Hrun|]. split; [exact Hp|].
    intros n. cbn [CmdVariant.main_loop]. apply bind_run. exact Hrun.
  - assert (Hround : exists w',
               HttpVariant.main_iteration E c w
               = (Return (checkpoint_after updates c), w')
               /\ persisted E (checkpoint_after updates c) w w').
    { unfold HttpVariant.main_iteration.
      destruct w as [tr f g p b x wr]. cbn [gets] in Hget.
      cbn. rewrite Hget. cbn.
      match goal with
      | |- context [HttpVariant.process_updates E updates c ?W] =>
          destruct (Http_process_updates_yields E updates c W) as (w1 & H1);
          destruct (keeps_Http_process_updates E updates c W) as [_ Hw]
      end.
      rewrite H1 in Hw |- *. cbn [snd writes] in Hw.
      destruct (save_and_sleep E (checkpoint_after updates c) w1)
        as (w' & Hrun & Hp).
      exists w'. split; [cbn in Hrun; exact Hrun|].
      unfold persisted in *. cbn [writes]. rewrite <- Hw. exact Hp. }
    destruct Hround as (w' & Hrun & Hp).
    exists w'. split; [exact Hrun|]. split; [exact Hp|].
    intros n. cbn [HttpVariant.main_loop]. apply bind_run. exact Hrun.
  - intros E' w0.
    destruct (Cmd_process_updates_yields E' updates c w0) as (w1 & H1).
    destruct (Http_process_updates_yields E' updates c w0) as (w2 & H2).
    exists w1, w2. split; assumption.
  - rewrite checkpoint_after_max. apply fold_max_bounds.
  - rewrite checkpoint_after_max.
    destruct (fold_max_bounds (map UpdateID updates) c) as (_ & Hall & _).
    rewrite Forall_map in Hall. exact Hall.
  - rewrite checkpoint_after_max. intros (update & Hin & Hle).
    destruct (fold_max_bounds (map UpdateID updates) c) as (_ & Hall & [Heq|H]);
      [|exact H].
    rewrite Forall_map, Forall_forall in Hall.
    pose proof (Hall update Hin) as Hu. cbn beta in Hu.
    rewrite Heq in *.
    replace c with (UpdateID update) by lia.
    apply in_map. exact Hin.
Qed.

Lemma checkpoint_advances_by_id_only_witness :
  http_get failing_env (gets (world0 NoFile)) (getUpdatesURL failing_env 0)
  = GetBody "{}" (inr (mkResult true 0 EmptyString one_url_batch))
  /\ exists w',
       CmdVariant.main_iteration failing_env 0 (world0 NoFile)
       = (Return (fold_left Z.max (map UpdateID one_url_batch) 0), w')
       /\ persisted failing_env (fold_left Z.max (map UpdateID one_url_batch) 0)
            (world0 NoFile) w'
       /\ forall n,
            CmdVariant.main_loop failing_env (S n) 0 (world0 NoFile)
            = CmdVariant.main_loop failing_env n
                (fold_left Z.max (map UpdateID one_url_batch) 0) w'.
Proof.
  assert (H : http_get failing_env (gets (world0 NoFile)) (getUpdatesURL failing_env 0)
              = GetBody "{}" (inr (mkResult true 0 EmptyString one_url_batch)))
    by reflexivity.
  split; [exact H|].
  exact (proj1 (checkpoint_advances_by_id_only failing_env 0 one_url_batch
                  "{}" 0 EmptyString (world0 NoFile) H)).
Defined.

(** ** The shared functions *)

(** A successful save leaves the decimal text of the value in the file. *)
Lemma saveLastUpdateID_writes (E : Env) (v : Z) (w w1 : World) :
  saveLastUpdateID E v w = (Return None, w1) ->
  file w1 = FileData (fmtInteger v)
  /\ trace w1 = (trace w ++ [EvWriteFile lastUpdateIDFile (fmtInteger v)])%list.
Proof.
  cbn. destruct (write_file E (writes w) lastUpdateIDFile (fmtInteger v))
    as [[err remains]|]; intros Heq; inversion Heq; subst; cbn; auto.
Qed.

(** What [getLastUpdateID] does for each state of the file. *)
Lemma getLastUpdateID_run (w : World) :
  getLastUpdateID w =
  match file w with
  | NoFile => (Return (0, None), record (EvStat lastUpdateIDFile) w)
  | Unreadable =>
      (Return (0, None),
       record (EvReadFile lastUpdateIDFile) (record (EvStat lastUpdateIDFile) w))
  | FileData data =>
      (Return (match Sscanf_d data with
               | inl err => (0, Some err)
               | inr lastUpdateID => (lastUpdateID, None)
               end),
       record (EvReadFile lastUpdateIDFile) (record (EvStat lastUpdateIDFile) w))
  end.
Proof.
  destruct w as [tr f g p b x wr]. cbn.
  destruct f as [| |data]; cbn; try reflexivity.
  destruct (Sscanf_d data); reflexivity.
Qed.

Lemma int64_add_no_overflow (c : Z) :
  int64_min <= c < int64_max -> int64_add c 1 = c + 1.
Proof.
  unfold int64_add, wrap64, int64_min, int64_max. intros Hc.
  rewrite Z.mod_small by lia. ring.
Qed.

(** [getUpdates] issues exactly one request, to [getUpdatesURL]. *)
Lemma getUpdates_run (E : Env) (c : Z) (w : World) :
  exists r,
    getUpdates E c w
    = (Return r,
       mkWorld (trace w ++ [EvHttpGet (getUpdatesURL E c)]) (file w)
         (S (gets w)) (posts w) (backends w) (execs w) (writes w)).
Proof.
  destruct w as [tr f g p b x wr]. cbn.
  destruct (http_get E g (getUpdatesURL E c)) as [err|err|body [err|result]];
    cbn; try (eexists; reflexivity).
  destruct (Ok result); cbn; eexists; reflexivity.
Qed.

(** ** The trace only grows *)

Lemma grows_ret {A : Type} (a : A) : grows (ret a).
Proof. intros w. exists []. cbn. rewrite app_nil_r. reflexivity. Qed.

Lemma grows_bind {A B : Type} (m : M A) (k : A -> M B) :
  grows m -> (forall a, grows (k a)) -> grows (bind m k).
Proof.
  intros Hm Hk w. destruct (Hm w) as [evs1 H1]. cbn.
  destruct (m w) as [[a|code|msg] w1]; cbn [snd] in *.
  - destruct (Hk a w1) as [evs2 H2]. exists (evs1 ++ evs2)%list.
    rewrite H2, H1, app_assoc. reflexivity.
  - exists evs1. exact H1.
  - exists evs1. exact H1.
Qed.

Lemma grows_from {A : Type} (m : M A) (w0 w : World) (evs0 : list Event) :
  grows m ->
  trace w0 = (trace w ++ evs0)%list ->
  exists rest, trace (snd (m w0)) = (trace w ++ evs0 ++ rest)%list.
Proof.
  intros Hm H0. destruct (Hm w0) as [rest Hrest].
  exists rest. rewrite Hrest, H0, app_assoc. reflexivity.
Qed.

Lemma grows_emit (e : Event) : grows (emit e).
Proof. intros w. exists [e]. reflexivity. Qed.

Lemma grows_logFatal {A : Type} (text : string) : grows (@logFatal A text).
Proof. intros w. exists [EvLog text]. reflexivity. Qed.

Lemma grows_httpGet (E : Env) (url : string) : grows (httpGet E url).
Proof. intros w. exists [EvHttpGet url]. reflexivity. Qed.

Lemma grows_httpPostMessage (E : Env) (url : string) (chatID : Z) (text : string) :
  grows (httpPostMessage E url chatID text).
Proof. intros w. exists [EvSendMessage url chatID text]. reflexivity. Qed.

Lemma grows_clientDo (E : Env) (url payload : string) :
  grows (clientDo E url payload).
Proof. intros w. exists [EvBackendPost url payload]. reflexivity. Qed.

Lemma grows_osStat (path : string) : grows (osStat path).
Proof. intros w. exists [EvStat path]. reflexivity. Qed.

Lemma grows_osReadFile (path : string) : grows (osReadFile path).
Proof. intros w. exists [EvReadFile path]. reflexivity. Qed.

Lemma grows_osWriteFile (E : Env) (path data : string) :
  grows (osWriteFile E path data).
Proof.
  intros w. exists [EvWriteFile path data]. cbn.
  destruct (write_file E (writes w) path data) as [[err remains]|]; reflexivity.
Qed.

Ltac grows_step :=
  first
    [ apply grows_ret
    | apply grows_emit
    | apply grows_logFatal
    | apply grows_httpGet
    | apply grows_httpPostMessage
    | apply grows_clientDo
    | apply grows_osStat
    | apply grows_osReadFile
    | apply grows_osWriteFile
    | apply grows_bind; [|intros ?]
    | match goal with
      | |- grows (match ?x with _ => _ end) => destruct x
      end ].

Lemma grows_sendMessage (E : Env) (chatID : Z) (text : string) :
  grows (sendMessage E chatID text).
Proof. unfold sendMessage, logPrintf. repeat grows_step. Qed.

Lemma grows_saveLastUpdateID (E : Env) (c : Z) : grows (saveLastUpdateID E c).
Proof. apply grows_osWriteFile. Qed.

Lemma grows_Http_download (E : Env) (url : string) :
  grows (HttpVariant.download E url).
Proof. unfold HttpVariant.download, logPrintf. repeat grows_step. Qed.

Lemma grows_Http_download_each (E : Env) (chatID : Z) (urls : list string) :
  grows (HttpVariant.download_each E urls chatID).
Proof.
  induction urls as [|url urls IH]; cbn [HttpVariant.download_each];
    [apply grows_ret|].
  apply grows_bind; [apply grows_emit|intros _].
  apply grows_bind; [apply grows_Http_download|intros [e|]];
    (apply grows_bind; [apply grows_sendMessage|intros _; exact IH]).
Qed.

Lemma grows_Http_process_update (E : Env) (update : Update) (c : Z) :
  grows (HttpVariant.process_update E update c).
Proof.
  unfold HttpVariant.process_update, logPrintln, logPrintf.
  apply grows_bind; [|intros _; apply grows_ret].
  destruct (Msg update) as [m|]; [|apply grows_ret].
  apply grows_bind; [apply grows_emit|intros _].
  apply grows_bind; [|intros _; apply grows_Http_download_each].
  destruct (len (HttpVariant.extractUrls (Text m)) =? 0).
  - apply grows_bind; [apply grows_emit|intros _; apply grows_sendMessage].
  - apply grows_sendMessage.
Qed.

Lemma grows_Http_process_updates (E : Env) (updates : list Update) :
  forall c, grows (HttpVariant.process_updates E updates c).
Proof.
  induction updates as [|update updates IH]; intros c;
    cbn [HttpVariant.process_updates]; [apply grows_ret|].
  apply grows_bind; [apply grows_Http_process_update|intros c'; apply IH].
Qed.

(** A round of the HTTP variant is the start line, the poll, and a rest
    that only appends. *)
Lemma Http_main_iteration_shape (E : Env) (c : Z) :
  exists K : list Update * option goerror -> M Z,
    (forall r, grows (K r))
    /\ HttpVariant.main_iteration E c
       = bind (fmtPrintln "start get update message ...")
           (fun _ => bind (getUpdates E c) K).
Proof.
  unfold HttpVariant.main_iteration.
  match goal with
  | |- exists K, _ /\ bind _ (fun _ => bind _ ?k) = _ => exists k
  end.
  split; [|reflexivity].
  intros [updates [err|]].
  - unfold logPrintf, Sleep. repeat grows_step.
  - unfold fmtPrintf, fmtPrintln, logPrintf, Sleep.
    apply grows_bind; [apply grows_emit|intros _].
    apply grows_bind; [apply grows_Http_process_updates|intros c'].
    apply grows_bind; [apply grows_saveLastUpdateID|intros [e|]];
      repeat grows_step.
Qed.

Lemma grows_Http_main_iteration (E : Env) (c : Z) :
  grows (HttpVariant.main_iteration E c).
Proof.
  destruct (Http_main_iteration_shape E c) as (K & HK & ->).
  apply grows_bind; [apply grows_emit|intros _].
  apply grows_bind; [|exact HK].
  unfold getUpdates. repeat grows_step.
Qed.

Lemma grows_Http_main_loop (E : Env) (n : nat) :
  forall c, grows (HttpVariant.main_loop E n c).
Proof.
  induction n as [|n IH]; intros c; cbn [HttpVariant.main_loop];
    [apply grows_ret|].
  apply grows_bind; [apply grows_Http_main_iteration|intros c'; apply IH].
Qed.

(** The main loop of the HTTP variant begins by polling from the checkpoint
    it was entered with. *)
Lemma Http_main_loop_first_poll (E : Env) (n : nat) (c : Z) (w : World) :
  exists rest,
    trace (snd (HttpVariant.main_loop E (S n) c w))
    = (trace w ++ [EvStdout ("start get update message ..." ++ newline);
                   EvHttpGet (getUpdatesURL E c)] ++ rest)%list.
Proof.
  cbn [HttpVariant.main_loop].
  destruct (Http_main_iteration_shape E c) as (K & HK & ->).
  rewrite bind_assoc_run.
  rewrite (bind_run _ _ w (record (EvStdout ("start get update message ..." ++ newline)) w) tt)
    by reflexivity.
  rewrite bind_assoc_run.
  destruct (getUpdates_run E c (record (EvStdout ("start get update message ..." ++ newline)) w))
    as [r Hr].
  rewrite (bind_run _ _ _ _ _ Hr).
  apply grows_from.
  - apply grows_bind; [apply HK|intros c'; apply grows_Http_main_loop].
  - cbn [trace record]. rewrite <- app_assoc. reflexivity.
Qed.

(** ** The checkpoint store *)

(** C6.  For every checkpoint value [v >= 0] (an int64), [getLastUpdateID]
    after a successful [saveLastUpdateID v] returns [v] with no error: the
    decimal text written is scanned back to the same integer. *)
Theorem save_load_round_trip :
  forall (E : Env) (v : Z) (w w1 : World),
    0 <= v <= int64_max ->
    saveLastUpdateID E v w = (Return None, w1) ->
    file w1 = FileData (fmtInteger v)
    /\ exists w2, getLastUpdateID w1 = (Return (v, None), w2).
Proof.
  intros E v w w1 Hv Hsave.
  destruct (saveLastUpdateID_writes E v w w1 Hsave) as [Hfile _].
  split; [exact Hfile|].
  rewrite getLastUpdateID_run, Hfile, Sscanf_fmtInteger.
  - eexists. reflexivity.
  - unfold in_int64, int64_min. lia.
Qed.

Lemma save_load_round_trip_witness :
  0 <= 42 <= int64_max
  /\ saveLastUpdateID quiet_env 42 (world0 NoFile) = (Return None, saved_42)
  /\ file saved_42 = FileData (fmtInteger 42)
  /\ exists w2, getLastUpdateID saved_42 = (Return (42, None), w2).
Proof.
  assert (Hv : 0 <= 42 <= int64_max) by (unfold int64_max; lia).
  assert (Hs : saveLastUpdateID quiet_env 42 (world0 NoFile)
               = (Return None, saved_42)) by reflexivity.
  split; [exact Hv|]. split; [exact Hs|].
  exact (save_load_round_trip quiet_env 42 (world0 NoFile) saved_42 Hv Hs).
Defined.

(** C4, counterexample.  A checkpoint file that holds [abc] is corrupt:
    the scan fails, and the HTTP variant exits with status 1 after the
    fatal log line, without a single poll. *)
Lemma corrupt_checkpoint_is_fatal :
  Sscanf_d "abc" = inl (errorString "expected integer")
  /\ getLastUpdateID (world0 (FileData "abc"))
     = (Return (0, Some (errorString "expected integer")),
        mkWorld [EvStat lastUpdateIDFile; EvReadFile lastUpdateIDFile]
          (FileData "abc") 0 0 0 0 0)
  /\ HttpVariant.main quiet_env 3 (world0 (FileData "abc"))
     = (Exit 1,
        mkWorld [EvStat lastUpdateIDFile; EvReadFile lastUpdateIDFile;
                 EvLog "Failed to read last update ID: expected integer"]
          (FileData "abc") 0 0 0 0 0).
Proof. repeat split; vm_compute; reflexivity. Qed.

(** C4, amended.  With token and backend URL set: when the checkpoint file
    is missing or cannot be read, [getLastUpdateID] returns 0 with no error
    and [main] goes on into its loop at checkpoint 0, whose first poll asks
    for offset 1; when the file is read but does not scan as a decimal
    integer, [getLastUpdateID] returns 0 together with the scan error, and
    [main] logs it and exits with status 1 before any poll.  An empty file
    is such a file: its scan error is [io.EOF], and the fatal line ends in
    [EOF]. *)
Theorem load_missing_unreadable_corrupt :
  forall (E : Env) (n : nat) (w : World),
    is_empty (telegramBotToken E) = false ->
    is_empty (backendURL E) = false ->
    let w1 := record (EvStat lastUpdateIDFile) w in
    let w2 := record (EvReadFile lastUpdateIDFile) w1 in
    let first_poll :=
      [EvStdout ("start get update message ..." ++ newline);
       EvHttpGet ("https://api.telegram.org/bot" ++ telegramBotToken E
                  ++ "/getUpdates?offset=1&timeout=30")] in
    (file w = NoFile ->
     getLastUpdateID w = (Return (0, None), w1)
     /\ HttpVariant.main E (S n) w = HttpVariant.main_loop E (S n) 0 w1
     /\ exists rest,
          trace (snd (HttpVariant.main E (S n) w))
          = (trace w1 ++ first_poll ++ rest)%list)
    /\ (file w = Unreadable ->
        getLastUpdateID w = (Return (0, None), w2)
        /\ HttpVariant.main E (S n) w = HttpVariant.main_loop E (S n) 0 w2
        /\ exists rest,
             trace (snd (HttpVariant.main E (S n) w))
             = (trace w2 ++ first_poll ++ rest)%list)
    /\ (forall data err,
          file w = FileData data ->
          Sscanf_d data = inl err ->
          getLastUpdateID w = (Return (0, Some err), w2)
          /\ HttpVariant.main E (S n) w
             = (Exit 1,
                record (EvLog ("Failed to read last update ID: " ++ Error err)) w2)
          /\ polls (trace (record (EvLog ("Failed to read last update ID: "
                                          ++ Error err)) w2))
             = polls (trace w))
    /\ (file w = FileData EmptyString ->
        getLastUpdateID w = (Return (0, Some EOF), w2)
        /\ HttpVariant.main E (S n) w
           = (Exit 1, record (EvLog "Failed to read last update ID: EOF") w2)).
Proof.
  intros E n w Htok Hback w1 w2 first_poll. subst w1 w2 first_poll.
  split; [|split; [|split]].
  - intros Hfile.
    assert (Hmain : HttpVariant.main E (S n) w
                    = HttpVariant.main_loop E (S n) 0
                        (record (EvStat lastUpdateIDFile) w)).
    { unfold HttpVariant.main, HttpVariant.main_startup.
      destruct w as [tr f g p b x wr]. cbn [file] in Hfile. subst f.
      cbn. rewrite Htok, Hback. reflexivity. }
    split; [rewrite getLastUpdateID_run, Hfile; reflexivity|].
    split; [exact Hmain|].
    rewrite Hmain. apply Http_main_loop_first_poll.
  - intros Hfile.
    assert (Hmain : HttpVariant.main E (S n) w
                    = HttpVariant.main_loop E (S n) 0
                        (record (EvReadFile lastUpdateIDFile)
                           (record (EvStat lastUpdateIDFile) w))).
    { unfold HttpVariant.main, HttpVariant.main_startup.
      destruct w as [tr f g p b x wr]. cbn [file] in Hfile. subst f.
      cbn. rewrite Htok, Hback. reflexivity. }
    split; [rewrite getLastUpdateID_run, Hfile; reflexivity|].
    split; [exact Hmain|].
    rewrite Hmain. apply Http_main_loop_first_poll.
  - intros data err Hfile Herr.
    unfold HttpVariant.main, HttpVariant.main_startup.
    destruct w as [tr f g p b x wr]. cbn [file] in Hfile. subst f.
    cbn. rewrite Htok, Hback, Herr. cbn. rewrite Herr. cbn.
    split; [reflexivity|]. split; [reflexivity|].
    unfold polls. rewrite !filter_app. cbn. rewrite !app_nil_r.
    reflexivity.
  - intros Hfile.
    unfold HttpVariant.main, HttpVariant.main_startup.
    destruct w as [tr f g p b x wr]. cbn [file] in Hfile. subst f.
    cbn. rewrite Htok, Hback.
    change (Sscanf_d EmptyString) with (@inl goerror Z EOF).
    cbn. split; reflexivity.
Qed.

Lemma load_missing_unreadable_corrupt_witness :
  is_empty (telegramBotToken quiet_env) = false
  /\ is_empty (backendURL quiet_env) = false
  /\ file (world0 NoFile) = NoFile
  /\ HttpVariant.main quiet_env 2 (world0 NoFile)
     = HttpVariant.main_loop quiet_env 2 0
         (record (EvStat lastUpdateIDFile) (world0 NoFile))
  /\ file (world0 (FileData EmptyString)) = FileData EmptyString
  /\ HttpVariant.main quiet_env 2 (world0 (FileData EmptyString))
     = (Exit 1,
        record (EvLog "Failed to read last update ID: EOF")
          (record (EvReadFile lastUpdateIDFile)
             (record (EvStat lastUpdateIDFile) (world0 (FileData EmptyString))))).
Proof.
  assert (Ht : is_empty (telegramBotToken quiet_env) = false) by reflexivity.
  assert (Hb : is_empty (backendURL quiet_env) = false) by reflexivity.
  split; [exact Ht|]. split; [exact Hb|]. split; [reflexivity|].
  split;
    [exact (proj1 (proj2 (proj1 (load_missing_unreadable_corrupt quiet_env 1
                                   (world0 NoFile) Ht Hb) eq_refl)))|].
  split; [reflexivity|].
  exact (proj2 (proj2 (proj2 (proj2 (load_missing_unreadable_corrupt quiet_env 1
                                       (world0 (FileData EmptyString)) Ht Hb)))
                  eq_refl)).
Defined.

(** ** The update fetcher *)

(** What a computation leaves behind does not depend on the value it
    returns at its end. *)
Lemma bind_ret_snd {A B : Type} (m : M A) (f g : A -> B) (w : World) :
  snd (bind m (fun a => ret (f a)) w) = snd (bind m (fun a => ret (g a)) w).
Proof. cbn. destruct (m w) as [[a|code|msg] w']; reflexivity. Qed.

(** C7, counterexample.  The largest int64 is a checkpoint that the file
    can hold and [getLastUpdateID] returns; there [lastUpdateID+1] wraps,
    and the offset sent is the smallest int64, not the checkpoint plus one.
    And the fetcher has no say in what comes back: when the messaging API
    answers the poll for offset 43 with update 41, the round of the HTTP
    variant at checkpoint 42 posts its URL to the backend and notifies the
    chat once more. *)
Lemma offset_at_int64_max :
  fst (getLastUpdateID (world0 (FileData "9223372036854775807")))
  = Return (int64_max, None)
  /\ int64_add int64_max 1 = int64_min
  /\ int64_add int64_max 1 <> int64_max + 1
  /\ getUpdates quiet_env int64_max (world0 NoFile)
     = (Return ([], None),
        mkWorld
          [EvHttpGet "https://api.telegram.org/botTOKEN/getUpdates?offset=-9223372036854775808&timeout=30"]
          NoFile 1 0 0 0 0)
  /\ (exists w',
        HttpVariant.main_iteration stale_env 42 (world0 (FileData "42"))
        = (Return 42, w')
        /\ polls (trace w')
           = [EvHttpGet "https://api.telegram.org/botTOKEN/getUpdates?offset=43&timeout=30"]
        /\ map UpdateID stale_batch = [41]
        /\ backend_posts (trace w') = [Http_payload "https://example.com/a"]
        /\ notices (trace w')
           = [(5, discovery_notice 1);
              (5, Http_outcome_notice "https://example.com/a" None)]).
Proof.
  split; [vm_compute; reflexivity|]. split; [reflexivity|].
  split; [vm_compute; discriminate|]. split; [vm_compute; reflexivity|].
  eexists. split; [vm_compute; reflexivity|].
  repeat split; vm_compute; reflexivity.
Qed.

(** C7, amended.  For every int64 checkpoint [c], [getUpdates] sends
    exactly one request, whose offset parameter is the decimal text of
    [lastUpdateID+1] as the program computes it, in int64; for every [c]
    below the largest int64 that is the integer [c+1], and every id up to
    [c] lies below the requested range.  After a restart on a checkpoint
    file that holds 42 the checkpoint is 42 and the first poll carries
    offset 43.  That is all the program does against a second delivery:
    the loop body handles an update in the same way whatever its id and
    whatever the checkpoint, and an id that is not above the checkpoint
    only leaves the checkpoint where it was. *)
Theorem getUpdates_offset_is_successor :
  forall (E : Env) (c : Z) (w : World),
    in_int64 c ->
    (exists r w',
       getUpdates E c w = (Return r, w')
       /\ trace w'
          = (trace w
             ++ [EvHttpGet ("https://api.telegram.org/bot" ++ telegramBotToken E
                            ++ "/getUpdates?offset=" ++ fmtInteger (int64_add c 1)
                            ++ "&timeout=30")])%list)
    /\ in_int64 (int64_add c 1)
    /\ Sscanf_d (fmtInteger (int64_add c 1)) = inr (int64_add c 1)
    /\ (c < int64_max ->
        int64_add c 1 = c + 1
        /\ forall id, id <= c -> id < int64_add c 1)
    /\ (file w = FileData "42" ->
        is_empty (telegramBotToken E) = false ->
        is_empty (backendURL E) = false ->
        exists w1,
          HttpVariant.main_startup E w = (Return 42, w1)
          /\ forall n,
               exists rest,
                 trace (snd (HttpVariant.main E (S n) w))
                 = (trace w
                    ++ [EvStat lastUpdateIDFile; EvReadFile lastUpdateIDFile;
                        EvStdout ("start get update message ..." ++ newline);
                        EvHttpGet ("https://api.telegram.org/bot"
                                   ++ telegramBotToken E
                                   ++ "/getUpdates?offset=43&timeout=30")]
                    ++ rest)%list)
    /\ (forall id id' msg c' w0,
          snd (HttpVariant.process_update E (mkUpdate id msg) c w0)
          = snd (HttpVariant.process_update E (mkUpdate id' msg) c' w0))
    /\ (forall id msg w0,
          id <= c ->
          fst (HttpVariant.process_update E (mkUpdate id msg) c w0) = Return c).
Proof.
  intros E c w Hc.
  assert (Hwrap : in_int64 (int64_add c 1)).
  { unfold in_int64, int64_add, wrap64, int64_min, int64_max.
    pose proof (Z.mod_pos_bound (c + 1 + 2 ^ 63) (2 ^ 64) ltac:(lia)). lia. }
  split; [|split; [|split; [|split; [|split; [|split]]]]].
  - destruct (getUpdates_run E c w) as [r Hr].
    eexists _, _. split; [exact Hr|]. reflexivity.
  - exact Hwrap.
  - apply Sscanf_fmtInteger. exact Hwrap.
  - intros Hlt.
    assert (Hadd : int64_add c 1 = c + 1)
      by (apply int64_add_no_overflow; unfold in_int64 in Hc; lia).
    split; [exact Hadd|]. intros id Hid. lia.
  - intros Hfile Htok Hback.
    destruct w as [tr f g p b x wr]. cbn [file] in Hfile. subst f.
    assert (Hstart : HttpVariant.main_startup E
                       (mkWorld tr (FileData "42") g p b x wr)
                     = (Return 42,
                        mkWorld (tr ++ [EvStat lastUpdateIDFile;
                                        EvReadFile lastUpdateIDFile])
                          (FileData "42") g p b x wr)).
    { unfold HttpVariant.main_startup. cbn. rewrite Htok, Hback. cbn.
      change (Sscanf_d "42") with (@inr goerror Z 42). cbn.
      rewrite <- app_assoc. reflexivity. }
    eexists. split; [exact Hstart|]. intros n.
    unfold HttpVariant.main. rewrite (bind_run _ _ _ _ _ Hstart).
    destruct (Http_main_loop_first_poll E n 42
                (mkWorld (tr ++ [EvStat lastUpdateIDFile;
                                 EvReadFile lastUpdateIDFile])
                   (FileData "42") g p b x wr)) as [rest Hrest].
    exists rest. rewrite Hrest. cbn [trace].
    rewrite <- app_assoc. reflexivity.
  - intros id id' msg c' w0. unfold HttpVariant.process_update. cbn [Msg].
    apply bind_ret_snd.
  - intros id msg w0 Hid.
    destruct (Http_process_update_yields E (mkUpdate id msg) c w0) as (w1 & H1).
    rewrite H1. cbn [fst]. f_equal. rewrite advance_max. cbn [UpdateID]. lia.
Qed.

Lemma getUpdates_offset_is_successor_witness :
  in_int64 42
  /\ 42 < int64_max
  /\ int64_add 42 1 = 42 + 1
  /\ file saved_42 = FileData "42"
  /\ (exists w1, HttpVariant.main_startup quiet_env saved_42 = (Return 42, w1))
  /\ 41 <= 42
  /\ fst (HttpVariant.process_update quiet_env
            (mkUpdate 41 (Some (mkMessage 5 "https://example.com/a"))) 42 saved_42)
     = Return 42.
Proof.
  assert (Hc : in_int64 42) by (unfold in_int64, int64_min, int64_max; lia).
  assert (Hlt : 42 < int64_max) by (unfold int64_max; lia).
  assert (Hid : 41 <= 42) by lia.
  pose proof (getUpdates_offset_is_successor quiet_env 42 saved_42 Hc)
    as (_ & _ & _ & Hsucc & Hrestart & _ & Hstale).
  split; [exact Hc|]. split; [exact Hlt|].
  split; [exact (proj1 (Hsucc Hlt))|].
  split; [reflexivity|].
  split.
  { destruct (Hrestart eq_refl eq_refl eq_refl) as (w1 & Hstart & _).
    exists w1. exact Hstart. }
  split; [exact Hid|].
  exact (Hstale 41 _ saved_42 Hid).
Defined.

(** * Further properties *)

(** ** The checkpoint file read back *)

Lemma fmt_digits_app (fuel : nat) :
  forall u buf rest,
    fmt_digits fuel u buf ++ rest = fmt_digits fuel u (buf ++ rest).
Proof.
  induction fuel as [|fuel IH]; intros u buf rest; cbn [fmt_digits];
    [reflexivity|].
  destruct (10 <=? u); [|reflexivity].
  rewrite IH. reflexivity.
Qed.

Lemma scan_digits_stops (rest : string) (acc : Z) (n : nat) :
  no_digit_ahead rest -> scan_digits rest acc n = (acc, n, rest).
Proof.
  destruct rest as [|c t]; cbn [no_digit_ahead scan_digits]; [reflexivity|].
  intros ->. reflexivity.
Qed.

Lemma scanned_fmt_digits_then (sg : option ascii) (sign u : Z) (rest : string) :
  0 <= u < 10 ^ 20 ->
  int64_min <= sign * u <= int64_max ->
  no_digit_ahead rest ->
  scanned sg sign (fmt_digits 20 u rest) = inr (sign * u).
Proof.
  intros Hu Hr Hrest. unfold scanned.
  destruct (scan_fmt_digits 19 u rest 0 0%nat Hu) as [k Hk].
  rewrite Hk, (scan_digits_stops rest _ _ Hrest).
  replace (0 * 10 ^ Z.of_nat (S k) + u) with u by ring.
  assert (Hb : (int64_min <=? sign * u) && (sign * u <=? int64_max) = true).
  { apply andb_true_iff. split; apply Z.leb_le; lia. }
  cbn [Nat.add]. rewrite Hb. reflexivity.
Qed.

Lemma Sscanf_fmtInteger_then (v : Z) (rest : string) :
  in_int64 v -> no_digit_ahead rest ->
  Sscanf_d (fmtInteger v ++ rest) = inr v.
Proof.
  unfold in_int64, fmtInteger. intros Hv Hrest.
  assert (Hmin : int64_min = - 2 ^ 63) by reflexivity.
  assert (Hmax : int64_max = 2 ^ 63 - 1) by reflexivity.
  destruct (v <? 0) eqn:Hneg.
  - apply Z.ltb_lt in Hneg.
    destruct (fmt_digits_head 19 (- v) EmptyString ltac:(lia)
                ltac:(intros ? ? [=])) as (c & t & Heq & Hc).
    change (String "-" (fmt_digits 20 (- v) "") ++ rest)
      with (String "-" (fmt_digits 20 (- v) "" ++ rest)).
    rewrite Heq.
    change (String c t ++ rest) with (String c (t ++ rest)).
    rewrite Sscanf_d_at_minus.
    change (String c (t ++ rest)) with (String c t ++ rest).
    rewrite <- Heq, fmt_digits_app.
    change (EmptyString ++ rest) with rest.
    rewrite scanned_fmt_digits_then by (try assumption; lia).
    f_equal. ring.
  - apply Z.ltb_ge in Hneg.
    destruct (fmt_digits_head 19 v EmptyString ltac:(lia)
                ltac:(intros ? ? [=])) as (c & t & Heq & Hc).
    rewrite Heq.
    change (String c t ++ rest) with (String c (t ++ rest)).
    rewrite (Sscanf_d_at_digit c (t ++ rest) Hc).
    change (String c (t ++ rest)) with (String c t ++ rest).
    rewrite <- Heq, fmt_digits_app.
    change (EmptyString ++ rest) with rest.
    rewrite scanned_fmt_digits_then by (try assumption; lia).
    f_equal. ring.
Qed.

(** X1.  [getLastUpdateID] reads back every int64, negative ones included,
    from a file that holds its decimal text followed by anything that does
    not start with a digit (a newline left by an editor, for instance):
    the value is returned with no error. *)
Theorem load_reads_decimal_prefix :
  forall (v : Z) (rest : string) (w : World),
    in_int64 v ->
    no_digit_ahead rest ->
    file w = FileData (fmtInteger v ++ rest) ->
    getLastUpdateID w
    = (Return (v, None),
       record (EvReadFile lastUpdateIDFile) (record (EvStat lastUpdateIDFile) w)).
Proof.
  intros v rest w Hv Hrest Hfile.
  rewrite getLastUpdateID_run, Hfile, Sscanf_fmtInteger_then by assumption.
  reflexivity.
Qed.

Lemma load_reads_decimal_prefix_witness :
  in_int64 (-7)
  /\ no_digit_ahead newline
  /\ file (world0 (FileData (fmtInteger (-7) ++ newline)))
     = FileData (fmtInteger (-7) ++ newline)
  /\ getLastUpdateID (world0 (FileData (fmtInteger (-7) ++ newline)))
     = (Return (-7, None),
        record (EvReadFile lastUpdateIDFile)
          (record (EvStat lastUpdateIDFile)
             (world0 (FileData (fmtInteger (-7) ++ newline))))).
Proof.
  assert (Hv : in_int64 (-7)) by (unfold in_int64, int64_min, int64_max; lia).
  assert (Hr : no_digit_ahead newline) by reflexivity.
  split; [exact Hv|]. split; [exact Hr|]. split; [reflexivity|].
  exact (load_reads_decimal_prefix (-7) newline
           (world0 (FileData (fmtInteger (-7) ++ newline))) Hv Hr eq_refl).
Defined.

(** ** What the extractor returns, for every text *)

(** X2.  For every message text, each string that [extractUrls] returns is
    a piece of the text that starts with [http://] or [https://], holds no
    blank byte (tab, line feed, form feed, carriage return, space), and
    runs up to the end of the text or to a rune outside the class, that
    is, a blank or the full-width comma. *)
Theorem extractUrls_shape :
  forall (message u : string),
    In u (HttpVariant.extractUrls message) ->
    exists pre post,
      message = pre ++ u ++ post
      /\ scheme_prefixed u = true
      /\ has_blank u = false
      /\ ends_match post.
Proof.
  intros message u Hin. eapply find_all_shape. exact Hin.
Qed.

Lemma extractUrls_shape_witness :
  In "https://example.com/a,https://example.com/b"
    (HttpVariant.extractUrls example_text)
  /\ exists pre post,
       example_text = pre ++ "https://example.com/a,https://example.com/b" ++ post
       /\ scheme_prefixed "https://example.com/a,https://example.com/b" = true
       /\ has_blank "https://example.com/a,https://example.com/b" = false
       /\ ends_match post.
Proof.
  assert (H : In "https://example.com/a,https://example.com/b"
                (HttpVariant.extractUrls example_text))
    by (left; reflexivity).
  split; [exact H|].
  exact (extractUrls_shape example_text _ H).
Defined.

(** ** A poll that fails *)

(** X3.  When the poll fails (transport, body, decoding, or an answer with
    [ok] false), a round of the main loop of each of the three variants
    logs the error, sleeps 5 seconds and returns the checkpoint it was
    given: nothing is processed, no notification is sent and the checkpoint
    file is not written. *)
Theorem failed_poll_keeps_checkpoint :
  forall (E : Env) (c : Z) (w : World) (err : goerror),
    fetch_failure (http_get E (gets w) (getUpdatesURL E c)) = Some err ->
    MainGo.main_iteration E c w = (Return c, after_failed_poll E c err w)
    /\ HttpVariant.main_iteration E c w = (Return c, after_failed_poll E c err w)
    /\ CmdVariant.main_iteration E c w = (Return c, after_failed_poll E c err w).
Proof.
  intros E c w err Hfail.
  unfold MainGo.main_iteration, HttpVariant.main_iteration,
    CmdVariant.main_iteration, after_failed_poll.
  destruct w as [tr f g p b x wr]. cbn [gets] in Hfail. cbn.
  destruct (http_get E g (getUpdatesURL E c)) as [e|e|body [e|result]];
    cbn in Hfail.
  - injection Hfail as ->. cbn. rewrite <- !app_assoc. repeat split.
  - injection Hfail as ->. cbn. rewrite <- !app_assoc. repeat split.
  - injection Hfail as ->. cbn. rewrite <- !app_assoc. repeat split.
  - destruct (Ok result); [discriminate|]. injection Hfail as <-.
    cbn. rewrite <- !app_assoc. repeat split.
Qed.

Lemma failed_poll_keeps_checkpoint_witness :
  fetch_failure
    (http_get refusing_env (gets (world0 (FileData "42")))
       (getUpdatesURL refusing_env 42))
  = Some (errorString "failed to get updates: {}")
  /\ HttpVariant.main_iteration refusing_env 42 (world0 (FileData "42"))
     = (Return 42,
        after_failed_poll refusing_env 42
          (errorString "failed to get updates: {}") (world0 (FileData "42"))).
Proof.
  assert (H : fetch_failure
                (http_get refusing_env (gets (world0 (FileData "42")))
                   (getUpdatesURL refusing_env 42))
              = Some (errorString "failed to get updates: {}")) by reflexivity.
  split; [exact H|].
  exact (proj1 (proj2 (failed_poll_keeps_checkpoint refusing_env 42
                         (world0 (FileData "42")) _ H))).
Defined.

(** ** A message without a URL *)

Lemma sendMessage_run (E : Env) (chatID : Z) (text : string) (w : World) :
  exists r logs,
    forallb is_log logs = true
    /\ sendMessage E chatID text w
       = (Return r,
          mkWorld (trace w ++ EvSendMessage (sendMessageURL E) chatID text :: logs)
            (file w) (gets w) (S (posts w)) (backends w) (execs w) (writes w)).
Proof.
  destruct w as [tr f g p b x wr]. cbn.
  destruct (http_post E p (sendMessageURL E) chatID text) as [e|e|body]; cbn.
  - exists (Some e), []. split; reflexivity.
  - exists (Some e), []. split; reflexivity.
  - eexists None, [_]. split; [|rewrite <- app_assoc; reflexivity].
    reflexivity.
Qed.

(** X4.  For a message from which no URL is extracted, the loop body of the
    HTTP variant and of the command variant sends exactly one notification,
    the fixed text saying that no URL was found, starts no download (no
    backend request, no command, no read of the proxy), and returns the
    advanced checkpoint. *)
Theorem message_without_url :
  forall (E : Env) (update : Update) (m : Message) (c : Z) (w : World),
    Msg update = Some m ->
    FindAllString (Text m) = [] ->
    exists logs,
      forallb is_log logs = true
      /\ HttpVariant.process_update E update c w
         = (Return (advance update c),
            mkWorld
              (trace w
               ++ [EvLog ("Received message from chat " ++ fmtInteger (ChatID m)
                          ++ ": " ++ Text m);
                   EvLog "No URLs found in the message, sending notification.";
                   EvSendMessage (sendMessageURL E) (ChatID m) no_url_notice]
               ++ logs)
              (file w) (gets w) (S (posts w)) (backends w) (execs w) (writes w))
      /\ CmdVariant.process_update E update c w
         = HttpVariant.process_update E update c w.
Proof.
  intros E update m c w Hmsg Hnone.
  unfold HttpVariant.process_update, CmdVariant.process_update,
    HttpVariant.extractUrls, CmdVariant.extractUrls.
  rewrite Hmsg, Hnone. destruct w as [tr f g p b x wr]. cbn.
  destruct (http_post E p (sendMessageURL E) (ChatID m) _) as [e|e|body]; cbn.
  - exists []. split; [reflexivity|]. rewrite <- !app_assoc. split; reflexivity.
  - exists []. split; [reflexivity|]. rewrite <- !app_assoc. split; reflexivity.
  - eexists [_]. split; [|rewrite <- !app_assoc; split; reflexivity].
    reflexivity.
Qed.

Lemma message_without_url_witness :
  Msg (mkUpdate 9 (Some (mkMessage 5 "no links here")))
  = Some (mkMessage 5 "no links here")
  /\ FindAllString (Text (mkMessage 5 "no links here")) = []
  /\ exists logs,
       forallb is_log logs = true
       /\ HttpVariant.process_update quiet_env
            (mkUpdate 9 (Some (mkMessage 5 "no links here"))) 0 (world0 NoFile)
          = (Return (advance (mkUpdate 9 (Some (mkMessage 5 "no links here"))) 0),
             mkWorld
               (trace (world0 NoFile)
                ++ [EvLog ("Received message from chat "
                           ++ fmtInteger (ChatID (mkMessage 5 "no links here"))
                           ++ ": " ++ Text (mkMessage 5 "no links here"));
                    EvLog "No URLs found in the message, sending notification.";
                    EvSendMessage (sendMessageURL quiet_env)
                      (ChatID (mkMessage 5 "no links here")) no_url_notice]
                ++ logs)
               (file (world0 NoFile)) (gets (world0 NoFile))
               (S (posts (world0 NoFile))) (backends (world0 NoFile))
               (execs (world0 NoFile)) (writes (world0 NoFile)))
       /\ CmdVariant.process_update quiet_env
            (mkUpdate 9 (Some (mkMessage 5 "no links here"))) 0 (world0 NoFile)
          = HttpVariant.process_update quiet_env
              (mkUpdate 9 (Some (mkMessage 5 "no links here"))) 0 (world0 NoFile).
Proof.
  assert (H1 : Msg (mkUpdate 9 (Some (mkMessage 5 "no links here")))
               = Some (mkMessage 5 "no links here")) by reflexivity.
  assert (H2 : FindAllString (Text (mkMessage 5 "no links here")) = [])
    by reflexivity.
  split; [exact H1|]. split; [exact H2|].
  exact (message_without_url quiet_env _ _ 0 (world0 NoFile) H1 H2).
Defined.

(** ** The HTTP downloads and the status of the answer *)

(** X5.  In [src/main.go] the whole message text, not an extracted URL, is
    what is posted to the backend, and any answer of the backend counts as
    success whatever its status code: [download] returns nil and the chat
    is told that the download succeeded. *)
Theorem MainGo_any_answer_is_success :
  forall (E : Env) (update : Update) (m : Message) (c : Z) (w : World)
         (status : Z) (body : string),
    Msg update = Some m ->
    new_request E (backendURL E) = None ->
    backend_do E (backends w) (backendURL E) (MainGo_payload (Text m))
    = Response status body ->
    fst (MainGo.download E (Text m) w) = Return None
    /\ exists logs,
         forallb is_log logs = true
         /\ MainGo.process_update E update c w
            = (Return (advance update c),
               mkWorld
                 (trace w
                  ++ [EvLog ("Received message from chat " ++ fmtInteger (ChatID m)
                             ++ ": " ++ Text m);
                      EvBackendPost (backendURL E) (MainGo_payload (Text m));
                      EvStdout (body ++ newline);
                      EvSendMessage (sendMessageURL E) (ChatID m)
                        ("下载成功, url: " ++ MainGo.getUrl (Text m))]
                  ++ logs)
                 (file w) (gets w) (S (posts w)) (S (backends w)) (execs w)
                 (writes w)).
Proof.
  intros E update m c w status body Hmsg Hreq Hdo.
  unfold MainGo.process_update, MainGo_payload in *.
  rewrite Hmsg. destruct w as [tr f g p b x wr]. cbn [backends] in Hdo.
  cbn. rewrite Hreq. cbn. rewrite Hdo. cbn.
  split; [reflexivity|].
  destruct (http_post E p (sendMessageURL E) (ChatID m) _) as [e|e|reply]; cbn.
  - exists []. split; [reflexivity|]. rewrite <- !app_assoc. reflexivity.
  - exists []. split; [reflexivity|]. rewrite <- !app_assoc. reflexivity.
  - eexists [_]. split; [|rewrite <- !app_assoc; reflexivity]. reflexivity.
Qed.

Lemma MainGo_any_answer_is_success_witness :
  Msg (mkUpdate 7 (Some (mkMessage 5 "https://example.com/a")))
  = Some (mkMessage 5 "https://example.com/a")
  /\ new_request broken_backend_env (backendURL broken_backend_env) = None
  /\ backend_do broken_backend_env (backends (world0 NoFile))
       (backendURL broken_backend_env)
       (MainGo_payload (Text (mkMessage 5 "https://example.com/a")))
     = Response 500 "done"
  /\ fst (MainGo.download broken_backend_env
            (Text (mkMessage 5 "https://example.com/a")) (world0 NoFile))
     = Return None.
Proof.
  assert (H1 : Msg (mkUpdate 7 (Some (mkMessage 5 "https://example.com/a")))
               = Some (mkMessage 5 "https://example.com/a")) by reflexivity.
  assert (H2 : new_request broken_backend_env (backendURL broken_backend_env)
               = None) by reflexivity.
  assert (H3 : backend_do broken_backend_env (backends (world0 NoFile))
                 (backendURL broken_backend_env)
                 (MainGo_payload (Text (mkMessage 5 "https://example.com/a")))
               = Response 500 "done") by reflexivity.
  split; [exact H1|]. split; [exact H2|]. split; [exact H3|].
  exact (proj1 (MainGo_any_answer_is_success broken_backend_env _ _ 0
                  (world0 NoFile) 500 "done" H1 H2 H3)).
Defined.

(** One call of the HTTP variant's [download]: at most one request, which
    carries [Http_payload]; besides it only log lines. *)
Ltac give_events tr :=
  lazymatch goal with
  | |- exists r evs,
         (Return ?o, mkWorld ((tr ++ ?l1) ++ ?l2) _ _ _ _ _ _) = _ /\ _ =>
      exists o, (l1 ++ l2)%list; rewrite <- app_assoc
  | |- exists r evs, (Return ?o, mkWorld (tr ++ ?l1) _ _ _ _ _ _) = _ /\ _ =>
      exists o, l1
  end.

Lemma Http_download_run (E : Env) (url : string) (w : World) :
  exists r evs,
    HttpVariant.download E url w
    = (Return r,
       mkWorld (trace w ++ evs) (file w) (gets w) (posts w)
         (List.length (backend_posts evs) + backends w) (execs w) (writes w))
    /\ notices evs = []
    /\ backend_posts evs
       = match new_request E (backendURL E) with
         | Some _ => []
         | None => [Http_payload url]
         end.
Proof.
  destruct w as [tr f g p b x wr]. cbn.
  destruct (new_request E (backendURL E)) as [err|]; cbn;
    [|destruct (backend_do E b (backendURL E) _) as [err|err|status body]; cbn;
      [| |destruct (negb (status =? 200)); cbn]];
    (give_events tr; split; [reflexivity|]; split; reflexivity).
Qed.

(** X6.  In the HTTP variant, once the request can be built, [download]
    posts [Http_payload] to the backend exactly once and returns nil
    exactly when the backend answers with status 200; an answer with
    another status is an error that quotes the status and the body. *)
Theorem Http_download_succeeds_iff_200 :
  forall (E : Env) (url : string) (w : World),
    new_request E (backendURL E) = None ->
    (fst (HttpVariant.download E url w) = Return None
     <-> exists body,
           backend_do E (backends w) (backendURL E) (Http_payload url)
           = Response 200 body)
    /\ (forall status body,
          backend_do E (backends w) (backendURL E) (Http_payload url)
          = Response status body ->
          status <> 200 ->
          HttpVariant.download E url w
          = (Return (Some (errorString ("backend returned status code "
                                        ++ fmtInteger status ++ ", body: " ++ body))),
             mkWorld (trace w ++ [EvBackendPost (backendURL E) (Http_payload url)])
               (file w) (gets w) (posts w) (S (backends w)) (execs w) (writes w)))
    /\ backend_posts (trace (snd (HttpVariant.download E url w)))
       = (backend_posts (trace w) ++ [Http_payload url])%list.
Proof.
  intros E url w Hreq. unfold Http_payload.
  destruct w as [tr f g p b x wr]. cbn. rewrite Hreq. cbn.
  destruct (backend_do E b (backendURL E) _) as [err|err|status body] eqn:Hdo;
    cbn.
  - split; [split; [discriminate|intros [body' [=]]]|].
    split; [intros status body [=]|].
    unfold backend_posts. rewrite !flat_map_app. cbn. rewrite app_nil_r.
    reflexivity.
  - split; [split; [discriminate|intros [body' [=]]]|].
    split; [intros status body [=]|].
    unfold backend_posts. rewrite !flat_map_app. cbn. rewrite app_nil_r.
    reflexivity.
  - destruct (status =? 200) eqn:Hs; cbn.
    + apply Z.eqb_eq in Hs. subst status.
      split; [split; [intros _; exists body; reflexivity|reflexivity]|].
      split; [intros status' body' [= <- <-] Hne; contradiction|].
      unfold backend_posts. rewrite !flat_map_app. cbn. rewrite app_nil_r.
      reflexivity.
    + apply Z.eqb_neq in Hs.
      split; [split; [discriminate|intros [body' [= Heq _]]; contradiction]|].
      split; [intros status' body' [= <- <-] _; reflexivity|].
      unfold backend_posts. rewrite !flat_map_app. cbn. reflexivity.
Qed.

Lemma Http_download_succeeds_iff_200_witness :
  new_request broken_backend_env (backendURL broken_backend_env) = None
  /\ backend_do broken_backend_env (backends (world0 NoFile))
       (backendURL broken_backend_env) (Http_payload "https://example.com/a")
     = Response 500 "done"
  /\ 500 <> 200
  /\ HttpVariant.download broken_backend_env "https://example.com/a" (world0 NoFile)
     = (Return (Some (errorString ("backend returned status code "
                                   ++ fmtInteger 500 ++ ", body: " ++ "done"))),
        mkWorld (trace (world0 NoFile)
                 ++ [EvBackendPost (backendURL broken_backend_env)
                       (Http_payload "https://example.com/a")])
          (file (world0 NoFile)) (gets (world0 NoFile)) (posts (world0 NoFile))
          (S (backends (world0 NoFile))) (execs (world0 NoFile))
          (writes (world0 NoFile))).
Proof.
  assert (H1 : new_request broken_backend_env (backendURL broken_backend_env)
               = None) by reflexivity.
  assert (H2 : backend_do broken_backend_env (backends (world0 NoFile))
                 (backendURL broken_backend_env)
                 (Http_payload "https://example.com/a")
               = Response 500 "done") by reflexivity.
  assert (H3 : 500 <> 200) by discriminate.
  split; [exact H1|]. split; [exact H2|]. split; [exact H3|].
  exact (proj1 (proj2 (Http_download_succeeds_iff_200 broken_backend_env
                         "https://example.com/a" (world0 NoFile) H1))
           500 "done" H2 H3).
Defined.

(** ** The notices of the HTTP variant for one message *)

Lemma notices_app (a b : list Event) :
  notices (a ++ b) = (notices a ++ notices b)%list.
Proof. apply flat_map_app. Qed.

Lemma backend_posts_app (a b : list Event) :
  backend_posts (a ++ b) = (backend_posts a ++ backend_posts b)%list.
Proof. apply flat_map_app. Qed.

Lemma logs_have_no_notices (logs : list Event) :
  forallb is_log logs = true ->
  notices logs = [] /\ backend_posts logs = [] /\ protocol logs = [].
Proof.
  induction logs as [|e logs IH]; [repeat split|].
  cbn [forallb]. intros H. apply andb_true_iff in H as [He Hrest].
  destruct e; try discriminate. cbn. apply IH. exact Hrest.
Qed.

(** The URLs of a message one after the other: one outcome notice each,
    and, unless no request can be built, one backend request each. *)
Lemma Http_download_each_run (E : Env) (chatID : Z) (urls : list string) :
  forall w,
    exists results w' evs,
      HttpVariant.download_each E urls chatID w = (Return tt, w')
      /\ trace w' = (trace w ++ evs)%list
      /\ List.length results = List.length urls
      /\ notices evs
         = map (fun ur => (chatID, Http_outcome_notice (fst ur) (snd ur)))
             (combine urls results)
      /\ backend_posts evs
         = match new_request E (backendURL E) with
           | Some _ => []
           | None => map Http_payload urls
           end
      /\ file w' = file w /\ writes w' = writes w /\ gets w' = gets w.
Proof.
  induction urls as [|url urls IH]; intros w.
  - exists [], w, []. cbn. rewrite app_nil_r.
    destruct (new_request E (backendURL E)); repeat split.
  - cbn [HttpVariant.download_each].
    rewrite (bind_run _ _ w (record (EvLog ("Attempting to download URL: " ++ url)) w) tt)
      by reflexivity.
    destruct (Http_download_run E url
                (record (EvLog ("Attempting to download URL: " ++ url)) w))
      as (r & evs1 & Hdl & Hn1 & Hb1).
    rewrite (bind_run _ _ _ _ _ Hdl). cbn beta.
    match goal with
    | |- context [bind _ (fun _ => HttpVariant.download_each E urls chatID) ?W] =>
        destruct (sendMessage_run E chatID (Http_outcome_notice url r) W)
          as (r' & logs & Hlogs & Hsend);
        assert (Hnotice :
                  bind (match r with
                        | Some e =>
                            sendMessage E chatID
                              ("下载失败: " ++ newline ++ "URL: " ++ url ++ newline
                               ++ "错误: " ++ Error e)
                        | None =>
                            sendMessage E chatID
                              ("下载成功: " ++ newline ++ "URL: " ++ url)
                        end)
                    (fun _ => HttpVariant.download_each E urls chatID) W
                  = bind (sendMessage E chatID (Http_outcome_notice url r))
                      (fun _ => HttpVariant.download_each E urls chatID) W)
          by (destruct r; reflexivity)
    end.
    rewrite Hnotice, (bind_run _ _ _ _ _ Hsend).
    match goal with
    | |- context [HttpVariant.download_each E urls chatID ?W] =>
        destruct (IH W) as (results & w' & evs & Hrun & Htr & Hlen & Hnot
                            & Hposts & Hf & Hw & Hg)
    end.
    destruct (logs_have_no_notices logs Hlogs) as (Hln & Hlb & _).
    exists (r :: results), w',
      (EvLog ("Attempting to download URL: " ++ url) :: evs1
       ++ EvSendMessage (sendMessageURL E) chatID (Http_outcome_notice url r)
          :: logs ++ evs)%list.
    split; [exact Hrun|].
    split; [rewrite Htr; cbn [trace record]; rewrite <- !app_assoc; reflexivity|].
    split; [cbn [List.length]; rewrite Hlen; reflexivity|].
    split.
    { change (EvLog ("Attempting to download URL: " ++ url) :: evs1
              ++ EvSendMessage (sendMessageURL E) chatID (Http_outcome_notice url r)
                 :: logs ++ evs)%list
        with ([EvLog ("Attempting to download URL: " ++ url)] ++ evs1
              ++ [EvSendMessage (sendMessageURL E) chatID (Http_outcome_notice url r)]
              ++ logs ++ evs)%list.
      rewrite !notices_app, Hn1, Hln, Hnot. reflexivity. }
    split.
    { change (EvLog ("Attempting to download URL: " ++ url) :: evs1
              ++ EvSendMessage (sendMessageURL E) chatID (Http_outcome_notice url r)
                 :: logs ++ evs)%list
        with ([EvLog ("Attempting to download URL: " ++ url)] ++ evs1
              ++ [EvSendMessage (sendMessageURL E) chatID (Http_outcome_notice url r)]
              ++ logs ++ evs)%list.
      rewrite !backend_posts_app, Hb1, Hlb, Hposts.
      destruct (new_request E (backendURL E)); reflexivity. }
    cbn [file writes gets record] in *. repeat split; assumption.
Qed.

(** X7.  For a message with at least one extracted URL, the loop body of
    the HTTP variant sends first the notice with the number of URLs and
    then exactly one outcome notice per URL, in the order of extraction,
    each naming its URL; unless no request can be built, it posts one
    request per URL to the backend, in the same order; a failed download
    does not stop the following ones, and the checkpoint file is not
    touched. *)
Theorem Http_message_notices :
  forall (E : Env) (update : Update) (m : Message) (c : Z) (w : World),
    Msg update = Some m ->
    HttpVariant.extractUrls (Text m) <> [] ->
    exists results w' evs,
      HttpVariant.process_update E update c w = (Return (advance update c), w')
      /\ trace w' = (trace w ++ evs)%list
      /\ List.length results = List.length (HttpVariant.extractUrls (Text m))
      /\ notices evs
         = (ChatID m, discovery_notice (len (HttpVariant.extractUrls (Text m))))
           :: map (fun ur => (ChatID m, Http_outcome_notice (fst ur) (snd ur)))
                (combine (HttpVariant.extractUrls (Text m)) results)
      /\ backend_posts evs
         = match new_request E (backendURL E) with
           | Some _ => []
           | None => map Http_payload (HttpVariant.extractUrls (Text m))
           end
      /\ file w' = file w /\ writes w' = writes w.
Proof.
  intros E update m c w Hmsg Hurls.
  unfold HttpVariant.process_update. rewrite Hmsg.
  assert (Hlen0 : (len (HttpVariant.extractUrls (Text m)) =? 0) = false).
  { apply Z.eqb_neq. unfold len.
    destruct (HttpVariant.extractUrls (Text m)); [contradiction|].
    cbn [List.length]. lia. }
  cbn beta iota zeta. rewrite Hlen0.
  rewrite bind_assoc_run.
  rewrite (bind_run _ _ w
             (record (EvLog ("Received message from chat " ++ fmtInteger (ChatID m)
                             ++ ": " ++ Text m)) w) tt) by reflexivity.
  cbn beta. rewrite bind_assoc_run.
  match goal with
  | |- context [bind (sendMessage E ?chat ?text) _ ?W] =>
      destruct (sendMessage_run E chat text W) as (r' & logs & Hlogs & Hsend)
  end.
  rewrite (bind_run _ _ _ _ _ Hsend). cbn beta.
  match goal with
  | |- context [bind (HttpVariant.download_each E ?urls ?chat) _ ?W] =>
      destruct (Http_download_each_run E chat urls W)
        as (results & w' & evs & Hrun & Htr & Hlen & Hnot & Hposts & Hf & Hw & _)
  end.
  rewrite (bind_run _ _ _ _ _ Hrun). cbn beta.
  destruct (logs_have_no_notices logs Hlogs) as (Hln & Hlb & _).
  exists results, w',
    ([EvLog ("Received message from chat " ++ fmtInteger (ChatID m)
             ++ ": " ++ Text m)]
     ++ [EvSendMessage (sendMessageURL E) (ChatID m)
           (discovery_notice (len (HttpVariant.extractUrls (Text m))))]
     ++ logs ++ evs)%list.
  split; [reflexivity|].
  split; [rewrite Htr; cbn [trace record]; rewrite <- !app_assoc; reflexivity|].
  split; [exact Hlen|].
  split; [rewrite !notices_app, Hln, Hnot; reflexivity|].
  split; [rewrite !backend_posts_app, Hlb, Hposts; reflexivity|].
  cbn [file writes record] in *. split; assumption.
Qed.

Lemma Http_message_notices_witness :
  Msg (mkUpdate 7 (Some (mkMessage 5 "https://example.com/a")))
  = Some (mkMessage 5 "https://example.com/a")
  /\ HttpVariant.extractUrls (Text (mkMessage 5 "https://example.com/a")) <> []
  /\ exists results w' evs,
       HttpVariant.process_update broken_backend_env
         (mkUpdate 7 (Some (mkMessage 5 "https://example.com/a"))) 0 (world0 NoFile)
       = (Return (advance (mkUpdate 7 (Some (mkMessage 5 "https://example.com/a"))) 0),
          w')
       /\ trace w' = (trace (world0 NoFile) ++ evs)%list
       /\ List.length results
          = List.length (HttpVariant.extractUrls
                           (Text (mkMessage 5 "https://example.com/a")))
       /\ notices evs
          = (ChatID (mkMessage 5 "https://example.com/a"),
             discovery_notice
               (len (HttpVariant.extractUrls
                       (Text (mkMessage 5 "https://example.com/a")))))
            :: map (fun ur => (ChatID (mkMessage 5 "https://example.com/a"),
                               Http_outcome_notice (fst ur) (snd ur)))
                 (combine (HttpVariant.extractUrls
                             (Text (mkMessage 5 "https://example.com/a"))) results)
       /\ backend_posts evs
          = match new_request broken_backend_env (backendURL broken_backend_env) with
            | Some _ => []
            | None => map Http_payload
                        (HttpVariant.extractUrls
                           (Text (mkMessage 5 "https://example.com/a")))
            end
       /\ file w' = file (world0 NoFile) /\ writes w' = writes (world0 NoFile).
Proof.
  assert (H1 : Msg (mkUpdate 7 (Some (mkMessage 5 "https://example.com/a")))
               = Some (mkMessage 5 "https://example.com/a")) by reflexivity.
  assert (H2 : HttpVariant.extractUrls (Text (mkMessage 5 "https://example.com/a"))
               <> []) by discriminate.
  split; [exact H1|]. split; [exact H2|].
  exact (Http_message_notices broken_backend_env _ _ 0 (world0 NoFile) H1 H2).
Defined.

(** ** The retry loop, whatever the attempts give *)

Ltac run_step :=
  cbn;
  repeat match goal with
    | H : is_empty _ = _ |- _ => rewrite H
    | H : exec_run _ _ _ _ = _ |- _ => rewrite H
    end.

Ltac run_retry :=
  repeat (run_step;
          try match goal with
            | |- context [match http_post ?E ?n ?u ?c ?t with _ => _ end] =>
                destruct (http_post E n u c t)
            end).

Ltac close_outcome :=
  eexists _, _; split; [reflexivity|];
  split; [cbn [trace]; rewrite <- ?app_assoc; reflexivity|];
  split; [reflexivity|];
  cbn [file writes gets backends execs]; repeat split; lia.

(** The retry loop run in an arbitrary environment. *)
Lemma runDownloadWithRetry_run :
  forall (E : Env) (url : string) (chatID : Z) (w : World),
    exists w' evs,
      CmdVariant.runDownloadWithRetry E url chatID w
      = (Return (fst (retry_outcome E (execs w) url chatID)), w')
      /\ trace w' = (trace w ++ evs)%list
      /\ protocol evs = snd (retry_outcome E (execs w) url chatID)
      /\ file w' = file w
      /\ writes w' = writes w
      /\ gets w' = gets w
      /\ backends w' = backends w
      /\ (execs w <= execs w' <= execs w + 3)%nat.
Proof.
  intros E url chatID w. destruct w as [tr f g p b x wr].
  unfold CmdVariant.runDownloadWithRetry, retry_outcome, attempt_error.
  change (Z.to_nat CmdVariant.maxRetries) with 3%nat. cbn [execs].
  destruct (is_empty (getenv E "HTTP_PROXY")) eqn:Hp.
  - run_retry; close_outcome.
  - destruct (exec_run E x "gallery-dl" ["--proxy"; getenv E "HTTP_PROXY"; url])
      as [x1|] eqn:Hx1; [|run_retry; close_outcome].
    destruct (exec_run E (S x) "gallery-dl" ["--proxy"; getenv E "HTTP_PROXY"; url])
      as [x2|] eqn:Hx2; [|run_retry; close_outcome].
    destruct (exec_run E (S (S x)) "gallery-dl"
                ["--proxy"; getenv E "HTTP_PROXY"; url])
      as [x3|] eqn:Hx3; run_retry; close_outcome.
Qed.

(** X8.  In every environment [runDownloadWithRetry] returns, and both its
    result and its protocol of attempts, notices and sleeps are those of
    [retry_outcome]: it stops at the first attempt that succeeds (the
    first, the second or the third), telling the chat which one it was, and
    gives up with the wrapped error after the third failure; it runs the
    command at most three times and touches neither the checkpoint file
    nor the backend, and none of this depends on whether the notices could
    be delivered. *)
Theorem retry_follows_outcomes :
  forall (E : Env) (url : string) (chatID : Z) (w : World),
    exists w' evs,
      CmdVariant.runDownloadWithRetry E url chatID w
      = (Return (fst (retry_outcome E (execs w) url chatID)), w')
      /\ trace w' = (trace w ++ evs)%list
      /\ protocol evs = snd (retry_outcome E (execs w) url chatID)
      /\ file w' = file w
      /\ writes w' = writes w
      /\ gets w' = gets w
      /\ backends w' = backends w
      /\ (execs w <= execs w' <= execs w + 3)%nat.
Proof. exact runDownloadWithRetry_run. Qed.

(** X9.  Whatever the environment, [runDownloadWithRetry] makes [k]
    attempts with [k] between one and three, and its attempts and sleeps,
    in the order in which they happen, are exactly attempt, 5-second sleep,
    attempt, and so on up to the last attempt: one sleep between each two
    consecutive attempts and none after the last.  When it returns an
    error it has made all three attempts and the last attempt is the last
    thing it did; when it returns nil the last thing it did is a notice to
    the chat. *)
Theorem retry_is_bounded :
  forall (E : Env) (url : string) (chatID : Z) (w : World),
    exists r w' evs k,
      CmdVariant.runDownloadWithRetry E url chatID w = (Return r, w')
      /\ trace w' = (trace w ++ evs)%list
      /\ (1 <= k <= 3)%nat
      /\ schedule (protocol evs) = spaced k
      /\ attempts_of (protocol evs) = k
      /\ (r <> None -> k = 3%nat /\ last (protocol evs) (Wait 0) = Attempt)
      /\ (r = None ->
          exists text, last (protocol evs) Attempt = Notify chatID text).
Proof.
  intros E url chatID w.
  destruct (runDownloadWithRetry_run E url chatID w)
    as (w' & evs & Hrun & Htr & Hproto & _).
  revert Hrun Hproto. unfold retry_outcome.
  destruct (attempt_error E (execs w) url) as [e1|];
    [destruct (attempt_error E (S (execs w)) url) as [e2|];
     [destruct (attempt_error E (S (S (execs w))) url) as [e3|]|]|];
    cbn [fst snd]; intros Hrun Hproto; eexists _, w', evs.
  - exists 3%nat. split; [exact Hrun|]. split; [exact Htr|]. rewrite Hproto.
    split; [lia|]. split; [reflexivity|]. split; [reflexivity|].
    split; [intros _; split; reflexivity|discriminate].
  - exists 3%nat. split; [exact Hrun|]. split; [exact Htr|]. rewrite Hproto.
    split; [lia|]. split; [reflexivity|]. split; [reflexivity|].
    split; [intros H; contradiction H; reflexivity|].
    intros _. eexists. reflexivity.
  - exists 2%nat. split; [exact Hrun|]. split; [exact Htr|]. rewrite Hproto.
    split; [lia|]. split; [reflexivity|]. split; [reflexivity|].
    split; [intros H; contradiction H; reflexivity|].
    intros _. eexists. reflexivity.
  - exists 1%nat. split; [exact Hrun|]. split; [exact Htr|]. rewrite Hproto.
    split; [lia|]. split; [reflexivity|]. split; [reflexivity|].
    split; [intros H; contradiction H; reflexivity|].
    intros _. eexists. reflexivity.
Qed.

(** X10.  The result of [runDownloadWithRetry] and its protocol of
    attempts, notices and sleeps are the same in two environments that
    agree on the proxy and on the runs of the command, whatever each does
    with the notifications: a notice that cannot be delivered changes
    neither the outcome nor the retry schedule. *)
Theorem retry_ignores_notification_delivery :
  forall (E1 E2 : Env) (url : string) (chatID : Z) (w1 w2 : World),
    getenv E1 "HTTP_PROXY" = getenv E2 "HTTP_PROXY" ->
    (forall k name args, exec_run E1 k name args = exec_run E2 k name args) ->
    execs w1 = execs w2 ->
    exists r w1' w2' evs1 evs2,
      CmdVariant.runDownloadWithRetry E1 url chatID w1 = (Return r, w1')
      /\ CmdVariant.runDownloadWithRetry E2 url chatID w2 = (Return r, w2')
      /\ trace w1' = (trace w1 ++ evs1)%list
      /\ trace w2' = (trace w2 ++ evs2)%list
      /\ protocol evs1 = protocol evs2.
Proof.
  intros E1 E2 url chatID w1 w2 Hproxy Hexec Hx.
  destruct (runDownloadWithRetry_run E1 url chatID w1)
    as (w1' & evs1 & Hrun1 & Htr1 & Hp1 & _).
  destruct (runDownloadWithRetry_run E2 url chatID w2)
    as (w2' & evs2 & Hrun2 & Htr2 & Hp2 & _).
  assert (Hsame : retry_outcome E1 (execs w1) url chatID
                  = retry_outcome E2 (execs w2) url chatID).
  { assert (Hatt : forall k, attempt_error E1 k url = attempt_error E2 k url).
    { intros k. unfold attempt_error. rewrite Hproxy, Hexec. reflexivity. }
    unfold retry_outcome. rewrite Hx, !Hatt. reflexivity. }
  exists (fst (retry_outcome E1 (execs w1) url chatID)), w1', w2', evs1, evs2.
  split; [exact Hrun1|]. split; [rewrite Hsame; exact Hrun2|].
  split; [exact Htr1|]. split; [exact Htr2|].
  rewrite Hp1, Hp2, Hsame. reflexivity.
Qed.

Lemma retry_ignores_notification_delivery_witness :
  getenv failing_env "HTTP_PROXY" = getenv undelivered_env "HTTP_PROXY"
  /\ (forall k name args,
        exec_run failing_env k name args = exec_run undelivered_env k name args)
  /\ execs (world0 NoFile) = execs saved_42
  /\ exists r w1' w2' evs1 evs2,
       CmdVariant.runDownloadWithRetry failing_env "https://example.com/a" 5
         (world0 NoFile) = (Return r, w1')
       /\ CmdVariant.runDownloadWithRetry undelivered_env "https://example.com/a" 5
            saved_42 = (Return r, w2')
       /\ trace w1' = (trace (world0 NoFile) ++ evs1)%list
       /\ trace w2' = (trace saved_42 ++ evs2)%list
       /\ protocol evs1 = protocol evs2.
Proof.
  assert (H1 : getenv failing_env "HTTP_PROXY" = getenv undelivered_env "HTTP_PROXY")
    by reflexivity.
  assert (H2 : forall k name args,
             exec_run failing_env k name args = exec_run undelivered_env k name args)
    by (intros k name args; reflexivity).
  assert (H3 : execs (world0 NoFile) = execs saved_42) by reflexivity.
  split; [exact H1|]. split; [exact H2|]. split; [exact H3|].
  exact (retry_ignores_notification_delivery failing_env undelivered_env
           "https://example.com/a" 5 (world0 NoFile) saved_42 H1 H2 H3).
Defined.

(** ** Rounds of the main loop *)

Lemma save_and_sleep_ok (E : Env) (c : Z) (w : World) :
  write_file E (writes w) lastUpdateIDFile (fmtInteger c) = None ->
  exists w',
    (err <- saveLastUpdateID E c ;;
     match err with
     | Some e => logPrintf ("Failed to save last update ID: " ++ Error e)
     | None => ret tt
     end ;;
     fmtPrintln "go to sleep 2s" ;;
     Sleep 2 ;;
     ret c) w = (Return c, w')
    /\ file w' = FileData (fmtInteger c).
Proof.
  destruct w as [tr f g p b x wr]. cbn. intros ->. cbn.
  eexists. split; reflexivity.
Qed.

Lemma Http_round (E : Env) (c : Z) (w : World) :
  exists c' w',
    HttpVariant.main_iteration E c w = (Return c', w') /\ c <= c'.
Proof.
  unfold HttpVariant.main_iteration. destruct w as [tr f g p b x wr]. cbn.
  destruct (http_get E g (getUpdatesURL E c)) as [e|e|body [e|result]]; cbn;
    try (eexists _, _; split; [reflexivity|lia]).
  destruct (Ok result); cbn; [|eexists _, _; split; [reflexivity|lia]].
  match goal with
  | |- context [HttpVariant.process_updates E ?us c ?W] =>
      destruct (Http_process_updates_yields E us c W) as (w1 & H1);
      rewrite H1;
      destruct (save_and_sleep E (checkpoint_after us c) w1) as (w' & Hrun & _);
      exists (checkpoint_after us c), w'; split;
      [cbn in Hrun; exact Hrun
      |rewrite checkpoint_after_max; apply fold_max_bounds]
  end.
Qed.

Lemma Cmd_round (E : Env) (c : Z) (w : World) :
  exists c' w',
    CmdVariant.main_iteration E c w = (Return c', w') /\ c <= c'.
Proof.
  unfold CmdVariant.main_iteration. destruct w as [tr f g p b x wr]. cbn.
  destruct (http_get E g (getUpdatesURL E c)) as [e|e|body [e|result]]; cbn;
    try (eexists _, _; split; [reflexivity|lia]).
  destruct (Ok result); cbn; [|eexists _, _; split; [reflexivity|lia]].
  match goal with
  | |- context [CmdVariant.process_updates E ?us c ?W] =>
      destruct (Cmd_process_updates_yields E us c W) as (w1 & H1);
      rewrite H1;
      destruct (save_and_sleep E (checkpoint_after us c) w1) as (w' & Hrun & _);
      exists (checkpoint_after us c), w'; split;
      [cbn in Hrun; exact Hrun
      |rewrite checkpoint_after_max; apply fold_max_bounds]
  end.
Qed.

(** X11.  Once past startup, the main loop of the HTTP variant and of the
    command variant never ends the process on its own: whatever the
    messaging API, the downloads, the notifications and the file system
    do, any number of rounds runs to its end without exit or panic, and the
    checkpoint never decreases. *)
Theorem main_loop_runs_and_never_goes_back :
  forall (E : Env) (n : nat) (c : Z) (w : World),
    (exists c' w', HttpVariant.main_loop E n c w = (Return c', w') /\ c <= c')
    /\ (exists c' w', CmdVariant.main_loop E n c w = (Return c', w') /\ c <= c').
Proof.
  intros E n. induction n as [|n IH]; intros c w.
  - split; exists c, w; split; try reflexivity; lia.
  - split.
    + destruct (Http_round E c w) as (c1 & w1 & H1 & Hle1).
      destruct (proj1 (IH c1 w1)) as (c' & w' & H' & Hle').
      exists c', w'. split; [|lia].
      cbn [HttpVariant.main_loop]. rewrite (bind_run _ _ _ _ _ H1). exact H'.
    + destruct (Cmd_round E c w) as (c1 & w1 & H1 & Hle1).
      destruct (proj2 (IH c1 w1)) as (c' & w' & H' & Hle').
      exists c', w'. split; [|lia].
      cbn [CmdVariant.main_loop]. rewrite (bind_run _ _ _ _ _ H1). exact H'.
Qed.

Lemma fold_max_in_int64 (ids : list Z) (c : Z) :
  in_int64 c -> Forall in_int64 ids -> in_int64 (fold_left Z.max ids c).
Proof.
  intros Hc Hids.
  destruct (fold_max_bounds ids c) as (_ & _ & [->|Hin]); [exact Hc|].
  rewrite Forall_forall in Hids. apply Hids. exact Hin.
Qed.

(** X12.  When a poll returns a batch and writing the checkpoint file
    succeeds, the checkpoint that [getLastUpdateID] reads from the file
    left by the round is exactly the checkpoint the loop goes on with, in
    the HTTP variant and in the command variant, failed downloads or not:
    a restart after the round fetches from the same place as the next
    round would have. *)
Theorem restart_resumes_from_round_checkpoint :
  forall (E : Env) (c : Z) (updates : list Update) (body : string)
         (code : Z) (desc : string) (w : World),
    http_get E (gets w) (getUpdatesURL E c)
    = GetBody body (inr (mkResult true code desc updates)) ->
    (forall k path data, write_file E k path data = None) ->
    in_int64 c ->
    Forall in_int64 (map UpdateID updates) ->
    (exists w' w'',
       HttpVariant.main_iteration E c w
       = (Return (fold_left Z.max (map UpdateID updates) c), w')
       /\ getLastUpdateID w'
          = (Return (fold_left Z.max (map UpdateID updates) c, None), w''))
    /\ (exists w' w'',
          CmdVariant.main_iteration E c w
          = (Return (fold_left Z.max (map UpdateID updates) c), w')
          /\ getLastUpdateID w'
             = (Return (fold_left Z.max (map UpdateID updates) c, None), w'')).
Proof.
  intros E c updates body code desc w Hget Hwrite Hc Hids.
  pose proof (fold_max_in_int64 _ _ Hc Hids) as Hrange.
  rewrite <- checkpoint_after_max in *.
  assert (Hhttp : exists w',
             HttpVariant.main_iteration E c w
             = (Return (checkpoint_after updates c), w')
             /\ file w' = FileData (fmtInteger (checkpoint_after updates c))).
  { destruct w as [tr f g p b x wr]. cbn [gets] in Hget.
    unfold HttpVariant.main_iteration. cbn. rewrite Hget. cbn.
    match goal with
    | |- context [HttpVariant.process_updates E updates c ?W] =>
        destruct (Http_process_updates_yields E updates c W) as (w1 & H1)
    end.
    rewrite H1.
    destruct (save_and_sleep_ok E (checkpoint_after updates c) w1 (Hwrite _ _ _))
      as (w' & Hrun & Hfile).
    exists w'. split; [cbn in Hrun; exact Hrun|exact Hfile]. }
  assert (Hcmd : exists w',
             CmdVariant.main_iteration E c w
             = (Return (checkpoint_after updates c), w')
             /\ file w' = FileData (fmtInteger (checkpoint_after updates c))).
  { destruct w as [tr f g p b x wr]. cbn [gets] in Hget.
    unfold CmdVariant.main_iteration. cbn. rewrite Hget. cbn.
    match goal with
    | |- context [CmdVariant.process_updates E updates c ?W] =>
        destruct (Cmd_process_updates_yields E updates c W) as (w1 & H1)
    end.
    rewrite H1.
    destruct (save_and_sleep_ok E (checkpoint_after updates c) w1 (Hwrite _ _ _))
      as (w' & Hrun & Hfile).
    exists w'. split; [cbn in Hrun; exact Hrun|exact Hfile]. }
  split.
  - destruct Hhttp as (w' & Hrun & Hfile).
    exists w'. eexists. split; [exact Hrun|].
    rewrite getLastUpdateID_run, Hfile, Sscanf_fmtInteger by exact Hrange.
    reflexivity.
  - destruct Hcmd as (w' & Hrun & Hfile).
    exists w'. eexists. split; [exact Hrun|].
    rewrite getLastUpdateID_run, Hfile, Sscanf_fmtInteger by exact Hrange.
    reflexivity.
Qed.

Lemma restart_resumes_from_round_checkpoint_witness :
  http_get two_updates_env (gets (world0 NoFile)) (getUpdatesURL two_updates_env 0)
  = GetBody "{}" (inr (mkResult true 0 EmptyString two_updates))
  /\ (forall k path data, write_file two_updates_env k path data = None)
  /\ in_int64 0
  /\ Forall in_int64 (map UpdateID two_updates)
  /\ exists w' w'',
       CmdVariant.main_iteration two_updates_env 0 (world0 NoFile)
       = (Return (fold_left Z.max (map UpdateID two_updates) 0), w')
       /\ getLastUpdateID w'
          = (Return (fold_left Z.max (map UpdateID two_updates) 0, None), w'').
Proof.
  assert (H1 : http_get two_updates_env (gets (world0 NoFile))
                 (getUpdatesURL two_updates_env 0)
               = GetBody "{}" (inr (mkResult true 0 EmptyString two_updates)))
    by reflexivity.
  assert (H2 : forall k path data, write_file two_updates_env k path data = None)
    by (intros k path data; reflexivity).
  assert (H3 : in_int64 0) by (unfold in_int64, int64_min, int64_max; lia).
  assert (H4 : Forall in_int64 (map UpdateID two_updates))
    by (repeat constructor; unfold in_int64, int64_min, int64_max; cbn; lia).
  split; [exact H1|]. split; [exact H2|]. split; [exact H3|]. split; [exact H4|].
  exact (proj2 (restart_resumes_from_round_checkpoint two_updates_env 0 two_updates
                  "{}" 0 EmptyString (world0 NoFile) H1 H2 H3 H4)).
Defined.

(** ** The command variant: the URLs of one message *)

Lemma protocol_app (a b : list Event) :
  protocol (a ++ b) = (protocol a ++ protocol b)%list.
Proof. apply flat_map_app. Qed.

Lemma attempts_of_app (a b : list Step) :
  attempts_of (a ++ b) = (attempts_of a + attempts_of b)%nat.
Proof. unfold attempts_of. rewrite filter_app, length_app. reflexivity. Qed.

Lemma url_block_attempts (E : Env) (chat : Z) (ux : string * nat) :
  (1 <= attempts_of (url_block E chat ux) <= 3)%nat.
Proof.
  unfold url_block, retry_outcome.
  destruct (attempt_error E (snd ux) (fst ux)) as [e1|];
    [destruct (attempt_error E (S (snd ux)) (fst ux)) as [e2|];
     [destruct (attempt_error E (S (S (snd ux))) (fst ux)) as [e3|]|]|];
    cbn; lia.
Qed.

Lemma blocks_attempts (E : Env) (chat : Z) (l : list (string * nat)) :
  (List.length l <= attempts_of (flat_map (url_block E chat) l)
   <= 3 * List.length l)%nat.
Proof.
  induction l as [|ux l IH]; [cbn; lia|].
  cbn [flat_map List.length]. rewrite attempts_of_app.
  pose proof (url_block_attempts E chat ux). lia.
Qed.

(** The URLs of a message one after the other in the command variant: for
    each, the retry loop at some number of commands already run, then the
    notice of the exhausted retries if it returned an error. *)
Lemma Cmd_download_each_run (E : Env) (chatID : Z) (urls : list string) :
  forall w,
    exists xs w' evs,
      CmdVariant.download_each E urls chatID w = (Return tt, w')
      /\ trace w' = (trace w ++ evs)%list
      /\ List.length xs = List.length urls
      /\ protocol evs = flat_map (url_block E chatID) (combine urls xs)
      /\ Forall (fun x => (execs w <= x)%nat) xs
      /\ (execs w <= execs w')%nat
      /\ file w' = file w /\ writes w' = writes w.
Proof.
  induction urls as [|url urls IH]; intros w.
  - exists [], w, []. cbn. rewrite app_nil_r. repeat split; auto.
  - cbn [CmdVariant.download_each].
    destruct (runDownloadWithRetry_run E url chatID w)
      as (w1 & evs1 & Hrun1 & Htr1 & Hp1 & Hf1 & Hw1 & _ & _ & Hx1).
    rewrite (bind_run _ _ _ _ _ Hrun1). cbn beta.
    assert (Hnotice :
              exists w2 evs2,
                (match fst (retry_outcome E (execs w) url chatID) with
                 | Some e =>
                     sendMessage E chatID
                       ("下载任务终止: " ++ newline ++ "URL: " ++ url ++ newline
                        ++ "错误: " ++ Error e) ;;
                     ret tt
                 | None => ret tt
                 end) w1 = (Return tt, w2)
                /\ trace w2 = (trace w1 ++ evs2)%list
                /\ protocol evs2
                   = match fst (retry_outcome E (execs w) url chatID) with
                     | Some e => [Notify chatID (terminated_notice url e)]
                     | None => []
                     end
                /\ execs w2 = execs w1 /\ file w2 = file w1
                /\ writes w2 = writes w1).
    { destruct (fst (retry_outcome E (execs w) url chatID)) as [e|].
      - destruct (sendMessage_run E chatID (terminated_notice url e) w1)
          as (r' & logs & Hlogs & Hsend).
        unfold terminated_notice in Hsend.
        rewrite (bind_run _ _ _ _ _ Hsend).
        eexists _, _. split; [reflexivity|]. split; [reflexivity|].
        destruct (logs_have_no_notices logs Hlogs) as (_ & _ & Hlp).
        split; [|repeat split].
        change (EvSendMessage (sendMessageURL E) chatID ?t :: logs)
          with ([EvSendMessage (sendMessageURL E) chatID t] ++ logs)%list.
        rewrite protocol_app, Hlp. reflexivity.
      - exists w1, []. cbn. rewrite app_nil_r. repeat split. }
    destruct Hnotice as (w2 & evs2 & Hrun2 & Htr2 & Hp2 & Hx2 & Hf2 & Hw2).
    rewrite (bind_run _ _ _ _ _ Hrun2). cbn beta.
    destruct (IH w2) as (xs & w' & evs & Hrun & Htr & Hlen & Hp & Hall & Hx & Hf & Hw).
    exists (execs w :: xs), w', (evs1 ++ evs2 ++ evs)%list.
    split; [exact Hrun|].
    split; [rewrite Htr, Htr2, Htr1, <- !app_assoc; reflexivity|].
    split; [cbn [List.length]; rewrite Hlen; reflexivity|].
    split.
    { rewrite !protocol_app, Hp1, Hp2, Hp. cbn [combine flat_map].
      unfold url_block at 2. cbn [fst snd]. rewrite <- app_assoc. reflexivity. }
    split.
    { constructor; [lia|]. eapply Forall_impl; [|exact Hall].
      cbn beta. intros x Hle. lia. }
    split; [lia|]. split; congruence.
Qed.

(** X13.  For a message with at least one extracted URL, the loop body of
    the command variant first tells the chat how many URLs it found and
    then takes the URLs one at a time, in the order of extraction: for
    each it runs the retry loop and, exactly when that loop returned an
    error, sends the notice that the task is terminated before it turns to
    the next URL.  A URL that fails does not stop the following ones: every
    URL gets at least one attempt and at most three, and the checkpoint
    file is not touched. *)
Theorem Cmd_message_protocol :
  forall (E : Env) (update : Update) (m : Message) (c : Z) (w : World),
    Msg update = Some m ->
    CmdVariant.extractUrls (Text m) <> [] ->
    exists xs w' evs,
      CmdVariant.process_update E update c w = (Return (advance update c), w')
      /\ trace w' = (trace w ++ evs)%list
      /\ List.length xs = List.length (CmdVariant.extractUrls (Text m))
      /\ protocol evs
         = Notify (ChatID m)
             (discovery_notice (len (CmdVariant.extractUrls (Text m))))
           :: flat_map (url_block E (ChatID m))
                (combine (CmdVariant.extractUrls (Text m)) xs)
      /\ (List.length (CmdVariant.extractUrls (Text m))
          <= attempts_of (protocol evs)
          <= 3 * List.length (CmdVariant.extractUrls (Text m)))%nat
      /\ file w' = file w /\ writes w' = writes w.
Proof.
  intros E update m c w Hmsg Hurls.
  unfold CmdVariant.process_update. rewrite Hmsg.
  assert (Hlen0 : (len (CmdVariant.extractUrls (Text m)) =? 0) = false).
  { apply Z.eqb_neq. unfold len.
    destruct (CmdVariant.extractUrls (Text m)); [contradiction|].
    cbn [List.length]. lia. }
  cbn beta iota zeta. rewrite Hlen0.
  rewrite bind_assoc_run.
  rewrite (bind_run _ _ w
             (record (EvLog ("Received message from chat " ++ fmtInteger (ChatID m)
                             ++ ": " ++ Text m)) w) tt) by reflexivity.
  cbn beta. rewrite bind_assoc_run.
  match goal with
  | |- context [bind (sendMessage E ?chat ?text) _ ?W] =>
      destruct (sendMessage_run E chat text W) as (r' & logs & Hlogs & Hsend)
  end.
  rewrite (bind_run _ _ _ _ _ Hsend). cbn beta.
  match goal with
  | |- context [bind (CmdVariant.download_each E ?urls ?chat) _ ?W] =>
      destruct (Cmd_download_each_run E chat urls W)
        as (xs & w' & evs & Hrun & Htr & Hlen & Hp & _ & _ & Hf & Hw)
  end.
  rewrite (bind_run _ _ _ _ _ Hrun). cbn beta.
  destruct (logs_have_no_notices logs Hlogs) as (_ & _ & Hlp).
  assert (Hproto :
            protocol
              ([EvLog ("Received message from chat " ++ fmtInteger (ChatID m)
                       ++ ": " ++ Text m)]
               ++ [EvSendMessage (sendMessageURL E) (ChatID m)
                     (discovery_notice (len (CmdVariant.extractUrls (Text m))))]
               ++ logs ++ evs)
            = Notify (ChatID m)
                (discovery_notice (len (CmdVariant.extractUrls (Text m))))
              :: flat_map (url_block E (ChatID m))
                   (combine (CmdVariant.extractUrls (Text m)) xs)).
  { rewrite !protocol_app, Hlp, Hp. reflexivity. }
  exists xs, w',
    ([EvLog ("Received message from chat " ++ fmtInteger (ChatID m)
             ++ ": " ++ Text m)]
     ++ [EvSendMessage (sendMessageURL E) (ChatID m)
           (discovery_notice (len (CmdVariant.extractUrls (Text m))))]
     ++ logs ++ evs)%list.
  split; [reflexivity|].
  split; [rewrite Htr; cbn [trace record]; rewrite <- !app_assoc; reflexivity|].
  split; [exact Hlen|].
  split; [exact Hproto|].
  split.
  { rewrite Hproto.
    change (attempts_of (Notify (ChatID m)
                           (discovery_notice (len (CmdVariant.extractUrls (Text m))))
                         :: ?p))
      with (attempts_of p).
    pose proof (blocks_attempts E (ChatID m)
                  (combine (CmdVariant.extractUrls (Text m)) xs)) as Hb.
    rewrite length_combine, Hlen, Nat.min_id in Hb. exact Hb. }
  cbn [file writes record] in *. split; assumption.
Qed.

Lemma Cmd_message_protocol_witness :
  Msg (mkUpdate 7 (Some (mkMessage 5 "https://example.com/a")))
  = Some (mkMessage 5 "https://example.com/a")
  /\ CmdVariant.extractUrls (Text (mkMessage 5 "https://example.com/a")) <> []
  /\ exists xs w' evs,
       CmdVariant.process_update failing_env
         (mkUpdate 7 (Some (mkMessage 5 "https://example.com/a"))) 0 (world0 NoFile)
       = (Return (advance (mkUpdate 7 (Some (mkMessage 5 "https://example.com/a"))) 0),
          w')
       /\ trace w' = (trace (world0 NoFile) ++ evs)%list
       /\ List.length xs
          = List.length (CmdVariant.extractUrls
                           (Text (mkMessage 5 "https://example.com/a")))
       /\ protocol evs
          = Notify (ChatID (mkMessage 5 "https://example.com/a"))
              (discovery_notice
                 (len (CmdVariant.extractUrls
                         (Text (mkMessage 5 "https://example.com/a")))))
            :: flat_map (url_block failing_env
                           (ChatID (mkMessage 5 "https://example.com/a")))
                 (combine (CmdVariant.extractUrls
                             (Text (mkMessage 5 "https://example.com/a"))) xs)
       /\ (List.length (CmdVariant.extractUrls
                          (Text (mkMessage 5 "https://example.com/a")))
           <= attempts_of (protocol evs)
           <= 3 * List.length (CmdVariant.extractUrls
                                 (Text (mkMessage 5 "https://example.com/a"))))%nat
       /\ file w' = file (world0 NoFile) /\ writes w' = writes (world0 NoFile).
Proof.
  assert (H1 : Msg (mkUpdate 7 (Some (mkMessage 5 "https://example.com/a")))
               = Some (mkMessage 5 "https://example.com/a")) by reflexivity.
  assert (H2 : CmdVariant.extractUrls (Text (mkMessage 5 "https://example.com/a"))
               <> []) by discriminate.
  split; [exact H1|]. split; [exact H2|].
  exact (Cmd_message_protocol failing_env _ _ 0 (world0 NoFile) H1 H2).
Defined.

(** ** Restart *)

(** X14.  With token and backend URL set, a start of the HTTP variant on a
    checkpoint file that holds the decimal text of an int64 [v] (followed
    by anything that is not a digit) enters the main loop at checkpoint
    [v]: after the look at the file, the first thing it does is poll with
    the request of [getUpdates] for [v], and no message is sent and no
    download started before that. *)
Theorem restart_polls_from_saved_checkpoint :
  forall (E : Env) (v : Z) (rest : string) (n : nat) (w : World),
    is_empty (telegramBotToken E) = false ->
    is_empty (backendURL E) = false ->
    in_int64 v ->
    no_digit_ahead rest ->
    file w = FileData (fmtInteger v ++ rest) ->
    HttpVariant.main E (S n) w
    = HttpVariant.main_loop E (S n) v
        (record (EvReadFile lastUpdateIDFile) (record (EvStat lastUpdateIDFile) w))
    /\ exists more,
         trace (snd (HttpVariant.main E (S n) w))
         = (trace w
            ++ [EvStat lastUpdateIDFile; EvReadFile lastUpdateIDFile;
                EvStdout ("start get update message ..." ++ newline);
                EvHttpGet (getUpdatesURL E v)]
            ++ more)%list.
Proof.
  intros E v rest n w Htok Hback Hv Hrest Hfile.
  assert (Hmain : HttpVariant.main E (S n) w
                  = HttpVariant.main_loop E (S n) v
                      (record (EvReadFile lastUpdateIDFile)
                         (record (EvStat lastUpdateIDFile) w))).
  { unfold HttpVariant.main, HttpVariant.main_startup.
    destruct w as [tr f g p b x wr]. cbn [file] in Hfile. subst f.
    cbn. rewrite Htok, Hback. cbn.
    rewrite (Sscanf_fmtInteger_then v rest Hv Hrest). reflexivity. }
  split; [exact Hmain|]. rewrite Hmain.
  destruct (Http_main_loop_first_poll E n v
              (record (EvReadFile lastUpdateIDFile)
                 (record (EvStat lastUpdateIDFile) w))) as [more Hmore].
  exists more. rewrite Hmore. cbn [trace record].
  rewrite <- !app_assoc. reflexivity.
Qed.

Lemma restart_polls_from_saved_checkpoint_witness :
  is_empty (telegramBotToken quiet_env) = false
  /\ is_empty (backendURL quiet_env) = false
  /\ in_int64 42
  /\ no_digit_ahead newline
  /\ file (world0 (FileData (fmtInteger 42 ++ newline)))
     = FileData (fmtInteger 42 ++ newline)
  /\ HttpVariant.main quiet_env 1 (world0 (FileData (fmtInteger 42 ++ newline)))
     = HttpVariant.main_loop quiet_env 1 42
         (record (EvReadFile lastUpdateIDFile)
            (record (EvStat lastUpdateIDFile)
               (world0 (FileData (fmtInteger 42 ++ newline))))).
Proof.
  assert (H1 : is_empty (telegramBotToken quiet_env) = false) by reflexivity.
  assert (H2 : is_empty (backendURL quiet_env) = false) by reflexivity.
  assert (H3 : in_int64 42) by (unfold in_int64, int64_min, int64_max; lia).
  assert (H4 : no_digit_ahead newline) by reflexivity.
  split; [exact H1|]. split; [exact H2|]. split; [exact H3|].
  split; [exact H4|]. split; [reflexivity|].
  exact (proj1 (restart_polls_from_saved_checkpoint quiet_env 42 newline 0
                  (world0 (FileData (fmtInteger 42 ++ newline)))
                  H1 H2 H3 H4 eq_refl)).
Defined.

(** ** src/main.go: no check at startup, and a round cut short *)

Lemma grows_nilDereference {A : Type} : grows (@nilDereference A).
Proof. intros w. exists []. cbn. rewrite app_nil_r. reflexivity. Qed.

Lemma grows_MainGo_download (E : Env) (message : string) :
  grows (MainGo.download E message).
Proof. unfold MainGo.download, fmtPrintln. repeat grows_step. Qed.

Lemma grows_MainGo_process_update (E : Env) (update : Update) (c : Z) :
  grows (MainGo.process_update E update c).
Proof.
  unfold MainGo.process_update, deref, logPrintf.
  apply grows_bind; [destruct (Msg update); [apply grows_emit|apply grows_ret]|].
  intros _.
  apply grows_bind;
    [destruct (Msg update); [apply grows_ret|apply grows_nilDereference]|].
  intros m.
  apply grows_bind; [apply grows_MainGo_download|intros [e|]];
    (apply grows_bind; [apply grows_sendMessage|intros _; apply grows_ret]).
Qed.

Lemma grows_MainGo_process_updates (E : Env) (updates : list Update) :
  forall c, grows (MainGo.process_updates E updates c).
Proof.
  induction updates as [|update updates IH]; intros c;
    cbn [MainGo.process_updates]; [apply grows_ret|].
  apply grows_bind; [apply grows_MainGo_process_update|intros c'; apply IH].
Qed.

Lemma MainGo_main_iteration_shape (E : Env) (c : Z) :
  exists K : list Update * option goerror -> M Z,
    (forall r, grows (K r))
    /\ MainGo.main_iteration E c
       = bind (fmtPrintln "start get update message ...")
           (fun _ => bind (getUpdates E c) K).
Proof.
  unfold MainGo.main_iteration.
  match goal with
  | |- exists K, _ /\ bind _ (fun _ => bind _ ?k) = _ => exists k
  end.
  split; [|reflexivity].
  intros [updates [err|]].
  - unfold logPrintf, Sleep. repeat grows_step.
  - unfold fmtPrintf, fmtPrintln, logPrintf, Sleep.
    apply grows_bind; [apply grows_emit|intros _].
    apply grows_bind; [apply grows_MainGo_process_updates|intros c'].
    apply grows_bind; [apply grows_saveLastUpdateID|intros [e|]];
      repeat grows_step.
Qed.

Lemma grows_MainGo_main_loop (E : Env) (n : nat) :
  forall c, grows (MainGo.main_loop E n c).
Proof.
  induction n as [|n IH]; intros c; cbn [MainGo.main_loop];
    [apply grows_ret|].
  apply grows_bind; [|intros c'; apply IH].
  destruct (MainGo_main_iteration_shape E c) as (K & HK & ->).
  apply grows_bind; [apply grows_emit|intros _].
  apply grows_bind; [|exact HK].
  unfold getUpdates. repeat grows_step.
Qed.

(** X15.  [src/main.go] checks no configuration at startup: in every
    environment, an empty bot token and an empty backend URL included, a
    start without a checkpoint file goes straight into the main loop and
    polls, with whatever token it has, for offset 1. *)
Theorem MainGo_starts_without_configuration :
  forall (E : Env) (n : nat) (w : World),
    file w = NoFile ->
    MainGo.main E (S n) w
    = MainGo.main_loop E (S n) 0 (record (EvStat lastUpdateIDFile) w)
    /\ exists more,
         trace (snd (MainGo.main E (S n) w))
         = (trace w
            ++ [EvStat lastUpdateIDFile;
                EvStdout ("start get update message ..." ++ newline);
                EvHttpGet ("https://api.telegram.org/bot" ++ telegramBotToken E
                           ++ "/getUpdates?offset=1&timeout=30")]
            ++ more)%list.
Proof.
  intros E n w Hfile.
  assert (Hmain : MainGo.main E (S n) w
                  = MainGo.main_loop E (S n) 0 (record (EvStat lastUpdateIDFile) w)).
  { unfold MainGo.main, MainGo.main_startup.
    destruct w as [tr f g p b x wr]. cbn [file] in Hfile. subst f. reflexivity. }
  split; [exact Hmain|]. rewrite Hmain.
  cbn [MainGo.main_loop].
  destruct (MainGo_main_iteration_shape E 0) as (K & HK & ->).
  rewrite bind_assoc_run.
  rewrite (bind_run _ _ _
             (record (EvStdout ("start get update message ..." ++ newline))
                (record (EvStat lastUpdateIDFile) w)) tt) by reflexivity.
  rewrite bind_assoc_run.
  destruct (getUpdates_run E 0
              (record (EvStdout ("start get update message ..." ++ newline))
                 (record (EvStat lastUpdateIDFile) w))) as [r Hr].
  rewrite (bind_run _ _ _ _ _ Hr).
  apply grows_from.
  - apply grows_bind; [apply HK|intros c'; apply grows_MainGo_main_loop].
  - cbn [trace record]. rewrite <- !app_assoc. reflexivity.
Qed.

Lemma MainGo_starts_without_configuration_witness :
  file (world0 NoFile) = NoFile
  /\ is_empty (telegramBotToken unconfigured_env) = true
  /\ MainGo.main unconfigured_env 1 (world0 NoFile)
     = MainGo.main_loop unconfigured_env 1 0
         (record (EvStat lastUpdateIDFile) (world0 NoFile)).
Proof.
  split; [reflexivity|]. split; [reflexivity|].
  exact (proj1 (MainGo_starts_without_configuration unconfigured_env 0
                  (world0 NoFile) eq_refl)).
Defined.

(** The loop body of [src/main.go] on an update that has a message: it
    returns after one request to the backend, unless none can be built,
    and one notification to the chat of the message, and leaves the
    checkpoint file alone. *)
Lemma MainGo_process_update_run (E : Env) (update : Update) (m : Message)
  (c : Z) (w : World) :
  Msg update = Some m ->
  exists w' evs,
    MainGo.process_update E update c w = (Return (advance update c), w')
    /\ trace w' = (trace w ++ evs)%list
    /\ map fst (notices evs) = [ChatID m]
    /\ backend_posts evs
       = match new_request E (backendURL E) with
         | Some _ => []
         | None => [MainGo_payload (Text m)]
         end
    /\ file w' = file w /\ writes w' = writes w.
Proof.
  intros Hmsg. unfold MainGo.process_update. rewrite Hmsg.
  destruct w as [tr f g p b x wr]. cbn.
  destruct (new_request E (backendURL E)) as [err|]; cbn;
    [|destruct (backend_do E b (backendURL E) _) as [err|err|status body]; cbn];
    destruct (http_post E p (sendMessageURL E) (ChatID m) _); cbn;
    eexists; eexists; (split; [reflexivity|]);
    cbn [trace]; rewrite <- ?app_assoc; (split; [reflexivity|]);
    repeat split; reflexivity.
Qed.

Lemma bind_ext_run {A B : Type} (m : M A) (f g : A -> M B) (w : World) :
  (forall a w', f a w' = g a w') -> bind m f w = bind m g w.
Proof. intros H. cbn. destruct (m w) as [[a|code|msg] w']; auto. Qed.

Lemma MainGo_process_updates_app (E : Env) (l1 l2 : list Update) :
  forall c w,
    MainGo.process_updates E (l1 ++ l2) c w
    = bind (MainGo.process_updates E l1 c)
        (fun c' => MainGo.process_updates E l2 c') w.
Proof.
  induction l1 as [|update l1 IH]; intros c w; [reflexivity|].
  cbn [app MainGo.process_updates]. rewrite bind_assoc_run.
  apply bind_ext_run. intros c1 w1. apply IH.
Qed.

(** A run of updates that all have a message is handled to its end: one
    notification each, in order. *)
Lemma MainGo_process_updates_run (E : Env) (good : list Update) :
  Forall (fun update => Msg update <> None) good ->
  forall c w,
    exists w' evs,
      MainGo.process_updates E good c w = (Return (checkpoint_after good c), w')
      /\ trace w' = (trace w ++ evs)%list
      /\ map fst (notices evs) = map ChatID (messages good)
      /\ backend_posts evs
         = match new_request E (backendURL E) with
           | Some _ => []
           | None => map (fun m => MainGo_payload (Text m)) (messages good)
           end
      /\ file w' = file w /\ writes w' = writes w.
Proof.
  induction 1 as [|update good Hmsg _ IH]; intros c w.
  - exists w, []. cbn. rewrite app_nil_r.
    destruct (new_request E (backendURL E)); repeat split; reflexivity.
  - destruct (Msg update) as [m|] eqn:Hm; [|contradiction Hmsg; reflexivity].
    destruct (MainGo_process_update_run E update m c w Hm)
      as (w1 & evs1 & H1 & Ht1 & Hn1 & Hb1 & Hf1 & Hw1).
    destruct (IH (advance update c) w1)
      as (w2 & evs2 & H2 & Ht2 & Hn2 & Hb2 & Hf2 & Hw2).
    exists w2, (evs1 ++ evs2)%list.
    split.
    { cbn [MainGo.process_updates]. rewrite (bind_run _ _ _ _ _ H1). exact H2. }
    split; [rewrite Ht2, Ht1, app_assoc; reflexivity|].
    split.
    { rewrite notices_app, map_app, Hn1, Hn2. unfold messages.
      cbn [flat_map]. rewrite Hm. reflexivity. }
    split.
    { rewrite backend_posts_app, Hb1, Hb2. unfold messages.
      cbn [flat_map]. rewrite Hm.
      destruct (new_request E (backendURL E)); reflexivity. }
    split; congruence.
Qed.

(** X16.  In [src/main.go], when the batch that a poll returns holds an
    update without a message, the round panics at the first such update:
    the updates before it have been handled, each with its request to the
    backend and its notification to the chat, in order; nothing is done
    for that update or for those after it; and the round never reaches
    the save, so the checkpoint file is left as it was and the handled
    updates are fetched again after a restart. *)
Theorem MainGo_nil_message_loses_the_round :
  forall (E : Env) (c : Z) (good : list Update) (u : Update)
         (rest : list Update) (body : string) (code : Z) (desc : string)
         (w : World),
    http_get E (gets w) (getUpdatesURL E c)
    = GetBody body (inr (mkResult true code desc (good ++ u :: rest))) ->
    Forall (fun update => Msg update <> None) good ->
    Msg u = None ->
    exists w' evs,
      MainGo.main_iteration E c w
      = (Panic "runtime error: invalid memory address or nil pointer dereference", w')
      /\ trace w'
         = (trace w
            ++ [EvStdout ("start get update message ..." ++ newline);
                EvHttpGet (getUpdatesURL E c);
                EvStdout ("get [" ++ fmtInteger (len (good ++ u :: rest))
                          ++ "] message" ++ newline)]
            ++ evs)%list
      /\ map fst (notices evs) = map ChatID (messages good)
      /\ backend_posts evs
         = match new_request E (backendURL E) with
           | Some _ => []
           | None => map (fun m => MainGo_payload (Text m)) (messages good)
           end
      /\ file w' = file w
      /\ writes w' = writes w.
Proof.
  intros E c good u rest body code desc w Hget Hgood Hnil.
  unfold MainGo.main_iteration.
  destruct w as [tr f g p b x wr]. cbn [gets] in Hget.
  cbn. rewrite Hget. cbn.
  match goal with
  | |- context [MainGo.process_updates E (good ++ u :: rest) c ?W] =>
      destruct (MainGo_process_updates_run E good Hgood c W)
        as (w1 & evs & Hrun & Htr & Hn & Hb & Hf & Hw);
      assert (Hpanic :
                MainGo.process_updates E (good ++ u :: rest) c W
                = (Panic "runtime error: invalid memory address or nil pointer dereference",
                   w1))
  end.
  { rewrite MainGo_process_updates_app, (bind_run _ _ _ _ _ Hrun).
    cbn [MainGo.process_updates]. unfold MainGo.process_update.
    rewrite Hnil. reflexivity. }
  rewrite Hpanic. exists w1, evs. split; [reflexivity|].
  cbn [trace file writes] in *.
  split; [rewrite Htr, <- !app_assoc; reflexivity|].
  split; [exact Hn|]. split; [exact Hb|]. split; assumption.
Qed.

Lemma MainGo_nil_message_loses_the_round_witness :
  http_get two_updates_env (gets (world0 (FileData "6")))
    (getUpdatesURL two_updates_env 6)
  = GetBody "{}"
      (inr (mkResult true 0 EmptyString
              ([mkUpdate 7 (Some (mkMessage 5 "https://example.com/a"))]
               ++ mkUpdate 8 None :: [])))
  /\ Forall (fun update => Msg update <> None)
       [mkUpdate 7 (Some (mkMessage 5 "https://example.com/a"))]
  /\ Msg (mkUpdate 8 None) = None
  /\ exists w' evs,
       MainGo.main_iteration two_updates_env 6 (world0 (FileData "6"))
       = (Panic "runtime error: invalid memory address or nil pointer dereference", w')
       /\ trace w'
          = (trace (world0 (FileData "6"))
             ++ [EvStdout ("start get update message ..." ++ newline);
                 EvHttpGet (getUpdatesURL two_updates_env 6);
                 EvStdout ("get ["
                           ++ fmtInteger
                                (len ([mkUpdate 7
                                         (Some (mkMessage 5 "https://example.com/a"))]
                                      ++ mkUpdate 8 None :: []))
                           ++ "] message" ++ newline)]
             ++ evs)%list
       /\ map fst (notices evs)
          = map ChatID
              (messages [mkUpdate 7 (Some (mkMessage 5 "https://example.com/a"))])
       /\ backend_posts evs
          = match new_request two_updates_env (backendURL two_updates_env) with
            | Some _ => []
            | None =>
                map (fun m => MainGo_payload (Text m))
                  (messages
                     [mkUpdate 7 (Some (mkMessage 5 "https://example.com/a"))])
            end
       /\ file w' = file (world0 (FileData "6"))
       /\ writes w' = writes (world0 (FileData "6")).
Proof.
  assert (H1 : http_get two_updates_env (gets (world0 (FileData "6")))
                 (getUpdatesURL two_updates_env 6)
               = GetBody "{}"
                   (inr (mkResult true 0 EmptyString
                           ([mkUpdate 7 (Some (mkMessage 5 "https://example.com/a"))]
                            ++ mkUpdate 8 None :: []))))
    by reflexivity.
  assert (H2 : Forall (fun update => Msg update <> None)
                 [mkUpdate 7 (Some (mkMessage 5 "https://example.com/a"))])
    by (repeat constructor; discriminate).
  assert (H3 : Msg (mkUpdate 8 None) = None) by reflexivity.
  split; [exact H1|]. split; [exact H2|]. split; [exact H3|].
  exact (MainGo_nil_message_loses_the_round two_updates_env 6 _ _ _
           "{}" 0 EmptyString (world0 (FileData "6")) H1 H2 H3).
Defined.
